(** * Arithmetic and geometric sequence generator

    A shallow embedding of the two Streamlit programs of the repository:
    [src/app.py] (arithmetic sequences only, module [App]) and
    [src/unnamed/part_000] (the file called [app (1).py], arithmetic and
    geometric sequences, module [App1]).

    The Python functions are duck-typed over their numeric arguments, so
    they are embedded once, over an interface [PyFloat] of the numeric
    operations they use, and read at two instances:
    - [Exact]: canonical rationals [Qc], arithmetic without rounding;
    - [B64]: IEEE 754 binary64 values ([spec_float] with [prec = 53] and
      [emax = 1024]), the Python [float].

    Python exceptions are explicit: a computation returns [Ok v] or
    [Raise e]. *)

From Stdlib Require Import ZArith List String Ascii Bool Lia.
From Stdlib Require Import QArith Qcanon Qcabs Field.
From Stdlib Require Import DecimalString.
From Stdlib Require Import Floats.SpecFloat.
Import ListNotations.

Open Scope string_scope.
Open Scope Z_scope.

(** ** Exceptions and results *)

Inductive exn : Type :=
| OverflowError (msg : string)
| ZeroDivisionError (msg : string)
| ValueError (msg : string).

(** [str(e)] of the handler in [main]. *)
Definition exn_message (e : exn) : string :=
  match e with
  | OverflowError m | ZeroDivisionError m | ValueError m => m
  end.

Inductive result (A : Type) : Type :=
| Ok (a : A)
| Raise (e : exn).
Arguments Ok {A} a.
Arguments Raise {A} e.

Definition bind {A B : Type} (r : result A) (k : A -> result B) : result B :=
  match r with
  | Ok a => k a
  | Raise e => Raise e
  end.

Declare Scope py_scope.
Delimit Scope py_scope with py.
Notation "x <- r ;; k" := (bind r (fun x => k))
  (at level 61, r at next level, right associativity) : py_scope.
Open Scope py_scope.

(** A [for] loop over a list with a loop-carried variable, stopping at the
    first exception. *)
Fixpoint for_each {A S : Type} (xs : list A) (s : S)
         (body : S -> A -> result S) : result S :=
  match xs with
  | [] => Ok s
  | x :: xs' => s' <- body s x ;; for_each xs' s' body
  end.

(** [range(n)]: the integers [0, 1, ..., n-1], empty when [n <= 0]. *)
Definition range (n : Z) : list Z := map Z.of_nat (seq 0 (Z.to_nat n)).

(** ** Text *)

Definition nl : string := String (ascii_of_nat 10) "".

(** [str(k)] of a Python [int]. *)
Definition str_int (k : Z) : string := NilZero.string_of_int (Z.to_int k).

Fixpoint find_sub (s t : string) (fuel : nat) : bool :=
  if String.prefix s t then true
  else match fuel, t with
       | S fuel', String _ t' => find_sub s t' fuel'
       | _, _ => false
       end.

(** [s in t] on Python strings. *)
Definition contains (t s : string) : bool := find_sub s t (String.length t).

(** The same as a proposition. *)
Definition Substring (s t : string) : Prop :=
  exists pre post : string, t = pre ++ s ++ post.

(** ** Number formatting: the format specification [.6g]

    [format_general P s n d] renders the rational [(-1)^s * n / d]
    ([n >= 0], [d > 0]) the way Python's format type [g] with precision
    [P] renders a float of that value: the value is rounded to [P]
    significant digits (to nearest, ties to even) giving a decimal
    exponent [X]; fixed notation is used when [-4 <= X < P] and scientific
    notation otherwise; trailing zeros, and a decimal point left bare, are
    removed. *)

Definition num_digits (n : Z) : Z := Z.of_nat (String.length (str_int n)).

(** [floor (log10 (n / d))] for [n, d > 0]. *)
Definition floor_log10 (n d : Z) : Z :=
  let t := num_digits n - num_digits d in
  if 0 <=? t
  then (if d * 10 ^ t <=? n then t else t - 1)
  else (if d <=? n * 10 ^ (- t) then t else t - 1).

Definition round_half_even (p q : Z) : Z :=
  let f := p / q in
  match 2 * (p mod q) ?= q with
  | Lt => f
  | Gt => f + 1
  | Eq => if Z.even f then f else f + 1
  end.

(** [n / d] as [m * 10 ^ (X - (P - 1))] with [10^(P-1) <= m < 10^P]. *)
Definition significand (P n d : Z) : Z * Z :=
  let X := floor_log10 n d in
  let s := P - 1 - X in
  let m := if 0 <=? s then round_half_even (n * 10 ^ s) d
           else round_half_even n (d * 10 ^ (- s)) in
  if 10 ^ P <=? m then (10 ^ (P - 1), X + 1) else (m, X).

Fixpoint rstrip_zeros (s : string) : string :=
  match s with
  | EmptyString => EmptyString
  | String c s' =>
      let t := rstrip_zeros s' in
      if (Ascii.eqb c "0" && String.eqb t "")%bool then EmptyString
      else String c t
  end.

Fixpoint zeros (k : nat) : string :=
  match k with
  | O => ""
  | S k' => String "0" (zeros k')
  end.

Definition with_fraction (int_part frac : string) : string :=
  let f := rstrip_zeros frac in
  if String.eqb f "" then int_part else int_part ++ "." ++ f.

Definition exponent_field (X : Z) : string :=
  let a := str_int (Z.abs X) in
  (if X <? 0 then "-" else "+") ++ (if Z.abs X <? 10 then "0" ++ a else a).

Definition format_magnitude (P n d : Z) : string :=
  let '(m, X) := significand P n d in
  let ds := str_int m in
  let len := String.length ds in
  if ((-4 <=? X) && (X <? P))%bool then
    if 0 <=? X then
      let k := Z.to_nat (X + 1) in
      with_fraction (substring 0 k ds) (substring k (len - k) ds)
    else
      with_fraction "0" (zeros (Z.to_nat (- X - 1)) ++ ds)
  else
    with_fraction (substring 0 1 ds) (substring 1 (len - 1) ds)
    ++ "e" ++ exponent_field X.

Definition format_general (P : Z) (s : bool) (n d : Z) : string :=
  (if s then "-" else "") ++
  (if n =? 0 then "0" else format_magnitude P n d).

(** ** The numeric interface of the program

    What the source asks of the values it is given for [first_term],
    [common_difference] and [common_ratio]. Python [int] operands ([i],
    [num_terms], the literals [0], [1], [2]) meet them in mixed
    arithmetic. *)

Class PyFloat (F : Type) : Type := {
  (** the implicit conversion of an [int] operand in [int (op) float],
      for an [int] that the conversion accepts: a literal, or an index of
      a loop over a list *)
  of_int : Z -> F;
  (** the same conversion for an [int] of any size: it raises
      [OverflowError] on an [int] beyond the range of [F] *)
  to_float : Z -> result F;
  (** [x + y], [x - y], [x * y] *)
  add : F -> F -> F;
  sub : F -> F -> F;
  mul : F -> F -> F;
  (** [x / y] *)
  truediv : F -> F -> result F;
  (** [n / m] on two [int]s: true division *)
  int_truediv : Z -> Z -> result F;
  (** [x ** i] with [i] an [int] *)
  pow : F -> Z -> result F;
  (** [x == k] with [k] an [int]: an exact comparison *)
  eq_int : F -> Z -> bool;
  (** [int(x)]: truncation toward zero *)
  int_of : F -> result Z;
  (** [x < y] and [x <= y] *)
  lt : F -> F -> bool;
  le : F -> F -> bool;
  (** [abs(x)] *)
  fabs : F -> F;
  (** [f"{x:.6g}"] *)
  format_6g : F -> string
}.

(** [sum(sequence)]: starts from the [int] [0] and adds from the left.
    (From version 3.12 on, CPython compensates the rounding errors of the
    float additions; the plain left fold is [sum] of the versions before,
    and of every version where no addition rounds.) *)
Definition py_sum {F} `{PyFloat F} (sequence : list F) : F :=
  fold_left add sequence (of_int 0).

(** [max(sequence)] and [min(sequence)] on a non-empty list: the first
    element is kept until a strictly greater (smaller) one is seen. *)
Definition py_max {F} `{PyFloat F} (x : F) (xs : list F) : F :=
  fold_left (fun m y => if lt m y then y else m) xs x.
Definition py_min {F} `{PyFloat F} (x : F) (xs : list F) : F :=
  fold_left (fun m y => if lt y m then y else m) xs x.

(** A value that is a Python [int] or a float: [calculate_*_sum] returns
    the [int] [0] on one branch and a float on the others. *)
Inductive number (F : Type) : Type :=
| Int (k : Z)
| Float (x : F).
Arguments Int {F} k.
Arguments Float {F} x.

Definition format_number {F} `{PyFloat F} (v : number F) : string :=
  match v with
  | Int k => format_6g (of_int k)
  | Float x => format_6g x
  end.

(** ** The page: widgets and the body of the [try] statement

    A run of [main] is read as the list of the Streamlit widgets it
    renders, in order. Only the text a widget shows is recorded: the
    static help texts of [st.markdown] and of the examples expander, the
    input widgets, and the file name and MIME type of the download button
    are not. *)

Inductive widget : Type :=
| st_title (body : string)
| st_markdown
| st_header (body : string)
| st_subheader (body : string)
| st_metric (label value : string)
| st_code (body : string)
| st_info (body : string)
| st_error (body : string)
| st_download_button (label data : string)
| st_expander (label : string).

(** Code that renders widgets and may raise: the widgets rendered before
    an exception stay on the page. *)
Definition ui (A : Type) : Type := list widget -> list widget * result A.

Definition ui_ret {A : Type} (a : A) : ui A := fun w => (w, Ok a).

Definition ui_bind {A B : Type} (m : ui A) (k : A -> ui B) : ui B :=
  fun w =>
    match m w with
    | (w', Ok a) => k a w'
    | (w', Raise e) => (w', Raise e)
    end.

Definition emit (x : widget) : ui unit := fun w => ((w ++ [x])%list, Ok tt).

Definition lift {A : Type} (r : result A) : ui A := fun w => (w, r).

(** [try: body  except Exception as e: handler e] *)
Definition try_except (body : ui unit) (handler : exn -> ui unit) : ui unit :=
  fun w =>
    match body w with
    | (w', Raise e) => handler e w'
    | (w', Ok tt) => (w', Ok tt)
    end.

Notation "x <~ m ;; k" := (ui_bind m (fun x => k))
  (at level 61, m at next level, right associativity) : py_scope.
Notation "m ;;> k" := (ui_bind m (fun _ => k))
  (at level 61, right associativity) : py_scope.

(** What one run of [main] reads: the three number inputs, whether the
    button was pressed in this run, and the entry [generate_clicked] of
    [st.session_state] ([None] when absent). *)
Inductive sequence_type : Type := Arithmetic | Geometric.

Definition type_name (t : sequence_type) : string :=
  match t with
  | Arithmetic => "Arithmetic"
  | Geometric => "Geometric"
  end.

Record request (F : Type) : Type := {
  selected_type : sequence_type;
  first_term : F;
  second_param : F;
  num_terms : Z;
  button_pressed : bool;
  generate_clicked : option bool
}.
Arguments selected_type {F} _.
Arguments first_term {F} _.
Arguments second_param {F} _.
Arguments num_terms {F} _.
Arguments button_pressed {F} _.
Arguments generate_clicked {F} _.

Definition msg_too_many : string :=
  "⚠️ Number of terms cannot exceed 1000 for performance reasons.".
Definition msg_not_positive : string :=
  "⚠️ Number of terms must be a positive integer.".
Definition msg_failed : string :=
  "❌ An error occurred while generating the sequence: ".

(** The session entry after the button and the default have been applied. *)
Definition clicked_after (button : bool) (entry : option bool) : bool :=
  let entry := if button then Some true else entry in
  match entry with
  | None => true
  | Some b => b
  end.

(** ** [src/app.py] *)

Module App.
Section Program.
Context {F : Type} {num : PyFloat F}.

Definition generate_arithmetic_sequence
           (first_term common_difference : F) (num_terms : Z)
  : result (list F) :=
  if num_terms <=? 0 then Ok []
  else
    for_each (range num_terms) []
      (fun sequence i =>
         let term := add first_term (mul (of_int i) common_difference) in
         Ok (sequence ++ [term])%list).

Definition format_sequence_display (sequence : list F) : result string :=
  match sequence with
  | [] => Ok "No terms to display"
  | _ :: _ =>
      formatted_terms <-
        for_each sequence []
          (fun formatted_terms term =>
             k <- int_of term ;;
             if eq_int term k
             then (k' <- int_of term ;; Ok (formatted_terms ++ [str_int k'])%list)
             else Ok (formatted_terms ++ [format_6g term])%list) ;;
      Ok (String.concat ", " formatted_terms)
  end.

Definition formula (first_term common_difference : F) : string :=
  if le (of_int 0) common_difference
  then "aₙ = " ++ format_6g first_term ++ " + (n-1) × "
       ++ format_6g common_difference
  else "aₙ = " ++ format_6g first_term ++ " - (n-1) × "
       ++ format_6g (fabs common_difference).

Definition sequence_text (first_term common_difference : F) (num_terms : Z)
           (formatted_sequence : string) : string :=
  "Arithmetic Sequence" ++ nl
  ++ "First Term: " ++ format_6g first_term ++ nl
  ++ "Common Difference: " ++ format_6g common_difference ++ nl
  ++ "Number of Terms: " ++ str_int num_terms ++ nl
  ++ "Sequence: " ++ formatted_sequence ++ nl.

(** The body of the [try] statement. *)
Definition generation (first_term common_difference : F) (num_terms : Z)
  : ui unit :=
  sequence <~ lift (generate_arithmetic_sequence
                      first_term common_difference num_terms) ;;
  match sequence with
  | [] => ui_ret tt
  | x0 :: rest =>
      emit (st_header "Generated Sequence") ;;>
      emit (st_metric "First Term" (format_6g first_term)) ;;>
      emit (st_metric "Common Difference" (format_6g common_difference)) ;;>
      emit (st_metric "Number of Terms" (str_int num_terms)) ;;>
      emit (st_subheader "Sequence:") ;;>
      formatted_sequence <~ lift (format_sequence_display sequence) ;;
      emit (st_code formatted_sequence) ;;>
      (if (1 <? List.length sequence)%nat then
         let last_term := last sequence x0 in
         let sequence_sum := py_sum sequence in
         emit (st_subheader "Additional Information:") ;;>
         emit (st_info ("**Last Term:** " ++ format_6g last_term)) ;;>
         emit (st_info ("**Sum of Sequence:** " ++ format_6g sequence_sum)) ;;>
         let sequence_range := sub (py_max x0 rest) (py_min x0 rest) in
         emit (st_info ("**Range:** " ++ format_6g sequence_range)) ;;>
         emit (st_info ("**Formula:** "
                        ++ formula first_term common_difference))
       else ui_ret tt) ;;>
      emit (st_download_button "📥 Download Sequence"
              (sequence_text first_term common_difference num_terms
                 formatted_sequence))
  end.

Definition handler (e : exn) : ui unit :=
  emit (st_error (msg_failed ++ exn_message e)).

Definition page : list widget :=
  [ st_title "🔢 Arithmetic Sequence Generator";
    st_markdown;
    st_header "Input Parameters" ].

(** [main]: the widgets rendered and the session entry left behind.
    [num_terms] is the [int] the number input returns, on which
    [int(num_terms)] is the identity. The type selector does not exist in
    this variant; [selected_type] is not read. *)
Definition main (rq : request F) : list widget * option bool :=
  if 1000 <? num_terms rq then
    ((page ++ [st_error msg_too_many])%list, generate_clicked rq)
  else if num_terms rq <=? 0 then
    ((page ++ [st_error msg_not_positive])%list, generate_clicked rq)
  else
    let clicked := clicked_after (button_pressed rq) (generate_clicked rq) in
    let rendered :=
      if clicked then
        fst (try_except
               (generation (first_term rq) (second_param rq) (num_terms rq))
               handler page)
      else page in
    ((rendered ++ [st_expander "📚 Examples"])%list, Some clicked).

End Program.
End App.

(** ** [src/unnamed/part_000], the file [app (1).py] *)

Module App1.
Section Program.
Context {F : Type} {num : PyFloat F}.

Definition generate_arithmetic_sequence
           (first_term common_difference : F) (num_terms : Z)
  : result (list F) :=
  if num_terms <=? 0 then Ok []
  else
    for_each (range num_terms) []
      (fun sequence i =>
         let term := add first_term (mul (of_int i) common_difference) in
         Ok (sequence ++ [term])%list).

Definition generate_geometric_sequence
           (first_term common_ratio : F) (num_terms : Z)
  : result (list F) :=
  if num_terms <=? 0 then Ok []
  else
    for_each (range num_terms) []
      (fun sequence i =>
         p <- pow common_ratio i ;;
         let term := mul first_term p in
         Ok (sequence ++ [term])%list).

(** [num_terms / 2] divides two [int]s; the [int] [num_terms - 1] is
    converted when it meets [common_difference], and [num_terms] when it
    meets [first_term] in [calculate_geometric_sum]. *)
Definition calculate_arithmetic_sum
           (first_term common_difference : F) (num_terms : Z)
  : result (number F) :=
  if num_terms <=? 0 then Ok (Int 0)
  else
    h <- int_truediv num_terms 2 ;;
    k <- to_float (num_terms - 1) ;;
    Ok (Float (mul h (add (mul (of_int 2) first_term)
                          (mul k common_difference)))).

Definition calculate_geometric_sum
           (first_term common_ratio : F) (num_terms : Z)
  : result (number F) :=
  if num_terms <=? 0 then Ok (Int 0)
  else if eq_int common_ratio 1 then
    k <- to_float num_terms ;;
    Ok (Float (mul k first_term))
  else
    p <- pow common_ratio num_terms ;;
    q <- truediv (mul first_term (sub (of_int 1) p))
                 (sub (of_int 1) common_ratio) ;;
    Ok (Float q).

Definition format_sequence_display (sequence : list F) : result string :=
  match sequence with
  | [] => Ok "No terms to display"
  | _ :: _ =>
      formatted_terms <-
        for_each sequence []
          (fun formatted_terms term =>
             k <- int_of term ;;
             if eq_int term k
             then (k' <- int_of term ;; Ok (formatted_terms ++ [str_int k'])%list)
             else Ok (formatted_terms ++ [format_6g term])%list) ;;
      Ok (String.concat ", " formatted_terms)
  end.

Definition formula (t : sequence_type) (first_term second_param : F)
  : string :=
  match t with
  | Arithmetic =>
      if le (of_int 0) second_param
      then "aₙ = " ++ format_6g first_term ++ " + (n-1) × "
           ++ format_6g second_param
      else "aₙ = " ++ format_6g first_term ++ " - (n-1) × "
           ++ format_6g (fabs second_param)
  | Geometric =>
      "aₙ = " ++ format_6g first_term ++ " × "
      ++ format_6g second_param ++ "ⁿ⁻¹"
  end.

Definition step_label (t : sequence_type) : string :=
  match t with
  | Arithmetic => "Common Difference"
  | Geometric => "Common Ratio"
  end.

Definition sequence_text (t : sequence_type) (first_term second_param : F)
           (num_terms : Z) (formatted_sequence : string)
           (calculated_sum : number F) : string :=
  type_name t ++ " Sequence" ++ nl
  ++ "First Term: " ++ format_6g first_term ++ nl
  ++ step_label t ++ ": " ++ format_6g second_param ++ nl
  ++ "Number of Terms: " ++ str_int num_terms ++ nl
  ++ "Sequence: " ++ formatted_sequence ++ nl
  ++ "Sum of Series: " ++ format_number calculated_sum ++ nl.

(** The first statement of the [try] block: the sequence and its
    closed-form sum, by type. *)
Definition compute (t : sequence_type) (first_term second_param : F)
           (num_terms : Z) : result (list F * number F) :=
  match t with
  | Arithmetic =>
      sequence <- generate_arithmetic_sequence
                    first_term second_param num_terms ;;
      calculated_sum <- calculate_arithmetic_sum
                          first_term second_param num_terms ;;
      Ok (sequence, calculated_sum)
  | Geometric =>
      sequence <- generate_geometric_sequence
                    first_term second_param num_terms ;;
      calculated_sum <- calculate_geometric_sum
                          first_term second_param num_terms ;;
      Ok (sequence, calculated_sum)
  end.

(** The body of the [try] statement. *)
Definition generation (t : sequence_type) (first_term second_param : F)
           (num_terms : Z) : ui unit :=
  sc <~ lift (compute t first_term second_param num_terms) ;;
  let '(sequence, calculated_sum) := sc in
  match sequence with
  | [] => ui_ret tt
  | x0 :: rest =>
      emit (st_header ("Generated " ++ type_name t ++ " Sequence")) ;;>
      emit (st_metric "First Term" (format_6g first_term)) ;;>
      emit (st_metric (step_label t) (format_6g second_param)) ;;>
      emit (st_metric "Number of Terms" (str_int num_terms)) ;;>
      emit (st_subheader "Sequence:") ;;>
      formatted_sequence <~ lift (format_sequence_display sequence) ;;
      emit (st_code formatted_sequence) ;;>
      (if (1 <? List.length sequence)%nat then
         let last_term := last sequence x0 in
         let actual_sum := py_sum sequence in
         emit (st_subheader "Additional Information:") ;;>
         emit (st_info ("**Last Term:** " ++ format_6g last_term)) ;;>
         emit (st_info ("**Sum of Series:** "
                        ++ format_number calculated_sum)) ;;>
         emit (st_info ("**Sum (Verification):** "
                        ++ format_6g actual_sum)) ;;>
         let sequence_range := sub (py_max x0 rest) (py_min x0 rest) in
         emit (st_info ("**Range:** " ++ format_6g sequence_range)) ;;>
         emit (st_info ("**Formula:** " ++ formula t first_term second_param))
       else ui_ret tt) ;;>
      emit (st_download_button "📥 Download Sequence"
              (sequence_text t first_term second_param num_terms
                 formatted_sequence calculated_sum))
  end.

Definition handler (e : exn) : ui unit :=
  emit (st_error (msg_failed ++ exn_message e)).

Definition page : list widget :=
  [ st_title "🔢 Sequence Generator";
    st_markdown;
    st_markdown;
    st_header "Input Parameters" ].

(** [main]: the widgets rendered and the session entry left behind.
    [num_terms] is the [int] the number input returns, on which
    [int(num_terms)] is the identity. *)
Definition main (rq : request F) : list widget * option bool :=
  if 1000 <? num_terms rq then
    ((page ++ [st_error msg_too_many])%list, generate_clicked rq)
  else if num_terms rq <=? 0 then
    ((page ++ [st_error msg_not_positive])%list, generate_clicked rq)
  else
    let clicked := clicked_after (button_pressed rq) (generate_clicked rq) in
    let rendered :=
      if clicked then
        fst (try_except
               (generation (selected_type rq) (first_term rq)
                  (second_param rq) (num_terms rq))
               handler page)
      else page in
    ((rendered ++ [st_expander "📚 Examples"])%list, Some clicked).

End Program.
End App1.

(** ** Exact arithmetic: the rationals

    The program read over the rational numbers, every operation exact,
    [num_terms / 2] included: the arithmetic in which the closed forms are
    the sums. Nothing raises here but a division by zero, and every
    [int] converts. *)

Module Exact.

Definition of_int (k : Z) : Qc := Q2Qc (inject_Z k).

Definition truediv (x y : Qc) : result Qc :=
  if Qc_eq_bool y (of_int 0)
  then Raise (ZeroDivisionError "division by zero")
  else Ok (x / y)%Qc.

Definition int_truediv (n m : Z) : result Qc := truediv (of_int n) (of_int m).

Definition pow (x : Qc) (i : Z) : result Qc :=
  match i with
  | Zneg p =>
      if Qc_eq_bool x (of_int 0)
      then Raise (ZeroDivisionError "division by zero")
      else Ok (Qcpower (/ x)%Qc (Pos.to_nat p))
  | _ => Ok (Qcpower x (Z.to_nat i))
  end.

Definition eq_int (x : Qc) (k : Z) : bool := Qc_eq_bool x (of_int k).

Definition int_of (x : Qc) : result Z :=
  Ok (Z.quot (Qnum x) (Zpos (Qden x))).

Definition lt (x y : Qc) : bool :=
  match (x ?= y)%Qc with Lt => true | _ => false end.

Definition le (x y : Qc) : bool :=
  match (x ?= y)%Qc with Gt => false | _ => true end.

Definition format_6g (x : Qc) : string :=
  format_general 6 (Qnum x <? 0) (Z.abs (Qnum x)) (Zpos (Qden x)).

#[global] Instance numeric : PyFloat Qc := {
  of_int := of_int;
  to_float := fun k => Ok (of_int k);
  add := Qcplus;
  sub := Qcminus;
  mul := Qcmult;
  truediv := truediv;
  int_truediv := int_truediv;
  pow := pow;
  eq_int := eq_int;
  int_of := int_of;
  lt := lt;
  le := le;
  fabs := Qcabs;
  format_6g := format_6g
}.

End Exact.

(** ** Python floats: IEEE 754 binary64

    [+], [-], [*] and [/] are the correctly rounded operations of
    [SpecFloat]; like Python's they never raise, except [/] on a zero
    divisor. [**] follows [float_pow] of CPython, which raises
    [OverflowError] when the C library's [pow] overflows on finite
    operands. The C library's result is taken to be the correctly rounded
    power: an idealisation, as the library's [pow] may differ from it in
    the last place when the power is not a float itself
    ([17.0 ** 13], [3.0 ** 34]); what is proved of [pow] below is which
    exception it raises and when, and values only of powers that are
    floats themselves.

    An [int] operand is converted by rounding to nearest. CPython refuses
    an [int] that rounds beyond the largest float, with [OverflowError]:
    [to_float] is this conversion, used where the [int] is [num_terms] or
    an exponent. [of_int] is the conversion without the refusal, used for
    the literals and for the index of a loop over [range(num_terms)],
    which stays below the length of a list: there it rounds nothing to an
    infinity. *)

Module B64.

Definition prec : Z := 53.
Definition emax : Z := 1024.

(** The float nearest to the integer [k]. *)
Definition of_int (k : Z) : spec_float := binary_normalize prec emax k 0 false.

(** [float(k)] as the interpreter converts an [int] operand: an integer
    that rounds beyond the largest float is refused. *)
Definition to_float (k : Z) : result spec_float :=
  match of_int k with
  | S754_infinity _ => Raise (OverflowError "int too large to convert to float")
  | x => Ok x
  end.

Definition add : spec_float -> spec_float -> spec_float := SFadd prec emax.
Definition sub : spec_float -> spec_float -> spec_float := SFsub prec emax.
Definition mul : spec_float -> spec_float -> spec_float := SFmul prec emax.

Definition truediv (x y : spec_float) : result spec_float :=
  match y with
  | S754_zero _ => Raise (ZeroDivisionError "float division by zero")
  | _ => Ok (SFdiv prec emax x y)
  end.

(** The quotient of two positive integers [n * 2^en] and [m * 2^em],
    rounded once. *)
Definition round_quotient (s : bool) (n : positive) (en : Z)
           (m : positive) (em : Z) : spec_float :=
  let '(q, e, l) := SFdiv_core_binary prec emax (Zpos n) en (Zpos m) em in
  binary_round_aux prec emax s q e l.

Definition int_truediv (n m : Z) : result spec_float :=
  match m, n with
  | Z0, _ => Raise (ZeroDivisionError "division by zero")
  | _, Z0 => Ok (S754_zero (m <? 0))
  | _, _ =>
      match round_quotient (xorb (n <? 0) (m <? 0))
                           (Z.to_pos (Z.abs n)) 0 (Z.to_pos (Z.abs m)) 0 with
      | S754_infinity _ =>
          Raise (OverflowError "integer division result too large for a float")
      | q => Ok q
      end
  end.

Definition one : spec_float := of_int 1.

Definition is_one (x : spec_float) : bool := SFeqb x one.

Definition range_error : exn :=
  OverflowError "(34, 'Numerical result out of range')".

(** The whole number a float holds (zero for what holds none). *)
Definition whole (x : spec_float) : Z :=
  match x with
  | S754_finite s m e =>
      let a := if 0 <=? e then Zpos m * 2 ^ e else Zpos m / 2 ^ (- e) in
      if s then - a else a
  | _ => 0
  end.

(** [x ** iw] for a float [iw] that holds the whole number [i]: the cases
    [float_pow] sorts out itself, then the power of the C library on a
    positive [x] other than one, negated for a negative [x] and an odd
    [i]. *)
Definition pow_whole (x : spec_float) (i : Z) : result spec_float :=
  if i =? 0 then Ok one
  else
    match x with
    | S754_nan => Ok S754_nan
    | S754_infinity s =>
        if 0 <? i then Ok (S754_infinity (s && Z.odd i))
        else Ok (S754_zero (s && Z.odd i))
    | S754_zero s =>
        if i <? 0
        then Raise (ZeroDivisionError
                      "0.0 cannot be raised to a negative power")
        else Ok (S754_zero (s && Z.odd i))
    | S754_finite s m e =>
        let negate := (s && Z.odd i)%bool in
        if is_one (S754_finite false m e)
        then Ok (S754_finite negate (Z.to_pos (2 ^ 52)) (-52))
        else
          let k := Z.abs i in
          let mk := Pos.pow m (Z.to_pos k) in
          let y := if 0 <? i
                   then binary_normalize prec emax
                          (if negate then Zneg mk else Zpos mk) (e * k) false
                   else round_quotient negate 1 0 mk (e * k) in
          match y with
          | S754_infinity _ => Raise range_error
          | _ => Ok y
          end
    end.

(** [x ** i] with [i] an [int]: the exponent is converted to a float
    first, which refuses an [int] beyond the floats and rounds one beyond
    [2^53]. *)
Definition pow (x : spec_float) (i : Z) : result spec_float :=
  iw <- to_float i ;;
  pow_whole x (whole iw).

Definition eq_int (x : spec_float) (k : Z) : bool :=
  match x with
  | S754_zero _ => k =? 0
  | S754_finite s m e =>
      let v := if s then Zneg m else Zpos m in
      if 0 <=? e then v * 2 ^ e =? k else v =? k * 2 ^ (- e)
  | _ => false
  end.

Definition int_of (x : spec_float) : result Z :=
  match x with
  | S754_zero _ => Ok 0
  | S754_finite s m e =>
      let a := if 0 <=? e then Zpos m * 2 ^ e else Zpos m / 2 ^ (- e) in
      Ok (if s then - a else a)
  | S754_infinity _ =>
      Raise (OverflowError "cannot convert float infinity to integer")
  | S754_nan => Raise (ValueError "cannot convert float NaN to integer")
  end.

Definition format_6g (x : spec_float) : string :=
  match x with
  | S754_nan => "nan"
  | S754_infinity s => if s then "-inf" else "inf"
  | S754_zero s => format_general 6 s 0 1
  | S754_finite s m e =>
      if 0 <=? e then format_general 6 s (Zpos m * 2 ^ e) 1
      else format_general 6 s (Zpos m) (2 ^ (- e))
  end.

#[global] Instance numeric : PyFloat spec_float := {
  of_int := of_int;
  to_float := to_float;
  add := add;
  sub := sub;
  mul := mul;
  truediv := truediv;
  int_truediv := int_truediv;
  pow := pow;
  eq_int := eq_int;
  int_of := int_of;
  lt := SFltb;
  le := SFleb;
  fabs := SFabs;
  format_6g := format_6g
}.

(** The float literal [n / m] for small integers. *)
Definition lit (n m : Z) : spec_float :=
  match int_truediv n m with
  | Ok x => x
  | Raise _ => S754_nan
  end.

Definition infinity : spec_float := S754_infinity false.

(** [2.0 ** 1023], a finite float. *)
Definition two_1023 : spec_float := S754_finite false (Z.to_pos (2 ^ 52)) 971.

(** [2.0 ** 600], a finite float. *)
Definition two_600 : spec_float := S754_finite false (Z.to_pos (2 ^ 52)) 548.

(** [2.0 ** 512], a finite float. *)
Definition two_512 : spec_float := S754_finite false (Z.to_pos (2 ^ 52)) 460.

End B64.


(** ** Definitions used to state the properties *)

(** The terms, as the loop bodies compute them. *)
Definition arithmetic_term {F} `{PyFloat F} (a d : F) (i : Z) : F :=
  add a (mul (of_int i) d).

Definition geometric_term {F} `{PyFloat F} (a r : F) (i : Z) : result F :=
  p <- pow r i ;; Ok (mul a p).

(** Apply a fallible function to every element, left to right. *)
Fixpoint traverse {A B : Type} (f : A -> result B) (xs : list A)
  : result (list B) :=
  match xs with
  | [] => Ok []
  | x :: xs' => y <- f x ;; ys <- traverse f xs' ;; Ok (y :: ys)
  end.

(** How [format_sequence_display] renders one term. *)
Definition render_term {F} `{PyFloat F} (term : F) : result string :=
  k <- int_of term ;;
  if eq_int term k then (k' <- int_of term ;; Ok (str_int k'))
  else Ok (format_6g term).

(** The characters of a string. *)
Definition chars (s : string) : list ascii := list_ascii_of_string s.

(** [s] is the text of [term]: the integer, without a decimal point, when
    the term equals its truncation, six significant digits otherwise. *)
Definition rendered {F} `{PyFloat F} (term : F) (s : string) : Prop :=
  exists k : Z,
    int_of term = Ok k /\
    ((eq_int term k = true /\ s = str_int k /\ ~ In "."%char (chars s)) \/
     (eq_int term k = false /\ s = format_6g term)).

(** Finite values: those [int()] accepts. *)
Definition finite {F} `{PyFloat F} (x : F) : Prop :=
  exists k : Z, int_of x = Ok k.

Definition raises {A : Type} (r : result A) : Prop :=
  exists e : exn, r = Raise e.

(** The data of the download button of a page, if it has one. *)
Fixpoint artifact (page : list widget) : option string :=
  match page with
  | [] => None
  | st_download_button _ data :: _ => Some data
  | _ :: page' => artifact page'
  end.

Definition offers_download (page : list widget) : bool :=
  match artifact page with Some _ => true | None => false end.

Definition is_error (w : widget) : bool :=
  match w with st_error _ => true | _ => false end.

Definition mk_request {F : Type} (t : sequence_type) (a step : F) (n : Z)
  : request F :=
  {| selected_type := t; first_term := a; second_param := step;
     num_terms := n; button_pressed := false; generate_clicked := None |}.

(** The run passes the validation and enters the [try] statement. *)
Definition accepted {F : Type} (rq : request F) : bool :=
  negb (1000 <? num_terms rq) && negb (num_terms rq <=? 0)
  && clicked_after (button_pressed rq) (generate_clicked rq).

(** The text a sequence is shown as, and the text of its closed-form sum. *)
Definition shown {F} `{PyFloat F} (sequence : result (list F)) : result string :=
  s <- sequence ;; App1.format_sequence_display s.

Definition shown_sum {F} `{PyFloat F} (total : result (number F))
  : result string :=
  v <- total ;; Ok (format_number v).

(** Widgets of a page, by kind. *)
Definition is_download (w : widget) : bool :=
  match w with st_download_button _ _ => true | _ => false end.

Definition is_info (w : widget) : bool :=
  match w with st_info _ => true | _ => false end.

Definition is_expander (w : widget) : bool :=
  match w with st_expander _ => true | _ => false end.

Definition count (kind : widget -> bool) (page : list widget) : nat :=
  List.length (filter kind page).

(** The request of the next run of the script: the same inputs, the
    button not pressed, and the session entry the previous run left. *)
Definition next_request {F : Type} (rq : request F) (entry : option bool)
  : request F :=
  {| selected_type := selected_type rq; first_term := first_term rq;
     second_param := second_param rq; num_terms := num_terms rq;
     button_pressed := false; generate_clicked := entry |}.

(** The widgets that open the results: the header, the three metrics and
    the title of the sequence. *)
Definition results_head (title first step_name step n : string)
  : list widget :=
  [ st_header title; st_metric "First Term" first; st_metric step_name step;
    st_metric "Number of Terms" n; st_subheader "Sequence:" ].

Definition is_ok {A : Type} (r : result A) : bool :=
  match r with Ok _ => true | Raise _ => false end.

(** * Properties *)

(** ** The examples of the programs' help texts, on floats *)

Example natural_numbers :
  shown (App1.generate_arithmetic_sequence (B64.lit 1 1) (B64.lit 1 1) 10)
  = Ok "1, 2, 3, 4, 5, 6, 7, 8, 9, 10" /\
  shown_sum (App1.calculate_arithmetic_sum (B64.lit 1 1) (B64.lit 1 1) 10)
  = Ok "55".
Proof. split; vm_compute; reflexivity. Qed.

Example decreasing_sequence :
  shown (App1.generate_arithmetic_sequence (B64.lit 100 1) (B64.lit (-5) 1) 6)
  = Ok "100, 95, 90, 85, 80, 75" /\
  shown_sum (App1.calculate_arithmetic_sum (B64.lit 100 1) (B64.lit (-5) 1) 6)
  = Ok "525".
Proof. split; vm_compute; reflexivity. Qed.

(** The help text gives 12 for this sum; the terms add up to 11. *)
Example decimal_sequence :
  shown (App1.generate_arithmetic_sequence (B64.lit 1 2) (B64.lit 1 4) 8)
  = Ok "0.5, 0.75, 1, 1.25, 1.5, 1.75, 2, 2.25" /\
  shown_sum (App1.calculate_arithmetic_sum (B64.lit 1 2) (B64.lit 1 4) 8)
  = Ok "11".
Proof. split; vm_compute; reflexivity. Qed.

Example powers_of_two :
  shown (App1.generate_geometric_sequence (B64.lit 1 1) (B64.lit 2 1) 8)
  = Ok "1, 2, 4, 8, 16, 32, 64, 128" /\
  shown_sum (App1.calculate_geometric_sum (B64.lit 1 1) (B64.lit 2 1) 8)
  = Ok "255".
Proof. split; vm_compute; reflexivity. Qed.

Example decreasing_geometric :
  shown (App1.generate_geometric_sequence (B64.lit 100 1) (B64.lit 1 2) 6)
  = Ok "100, 50, 25, 12.5, 6.25, 3.125" /\
  shown_sum (App1.calculate_geometric_sum (B64.lit 100 1) (B64.lit 1 2) 6)
  = Ok "196.875".
Proof. split; vm_compute; reflexivity. Qed.

Example decimal_ratio :
  shown (App1.generate_geometric_sequence (B64.lit 2 1) (B64.lit 3 2) 6)
  = Ok "2, 3, 4.5, 6.75, 10.125, 15.1875" /\
  shown_sum (App1.calculate_geometric_sum (B64.lit 2 1) (B64.lit 3 2) 6)
  = Ok "41.5625".
Proof. split; vm_compute; reflexivity. Qed.

(** On these examples the closed form and the direct sum are the same
    float. *)
Example sums_agree_on_floats :
  (s <- App1.generate_arithmetic_sequence (B64.lit 100 1) (B64.lit (-5) 1) 6 ;;
   Ok (Float (py_sum s)))
  = App1.calculate_arithmetic_sum (B64.lit 100 1) (B64.lit (-5) 1) 6 /\
  (s <- App1.generate_geometric_sequence (B64.lit 100 1) (B64.lit 1 2) 6 ;;
   Ok (Float (py_sum s)))
  = App1.calculate_geometric_sum (B64.lit 100 1) (B64.lit 1 2) 6.
Proof. split; vm_compute; reflexivity. Qed.

(** Six significant digits, fixed or scientific, as Python prints them. *)
Example general_format_range :
  map format_6g
      [B64.lit (10 ^ 100) 1; B64.lit 15 (10 ^ 8); B64.lit 123456789123 1000;
       S754_finite false 1 (-1074);
       S754_finite false (Z.to_pos (2 ^ 53 - 1)) 971;
       B64.lit 1234565 10; B64.lit 1234575 10; B64.lit (-5) 4;
       S754_zero true; B64.infinity; S754_nan]
  = ["1e+100"; "1.5e-07"; "1.23457e+08"; "4.94066e-324"; "1.79769e+308";
     "123456"; "123458"; "-1.25"; "-0"; "inf"; "nan"].
Proof. vm_compute. reflexivity. Qed.

Example general_format :
  map (fun '(n, m) => format_6g (B64.lit n m))
      [(1, 3); (1, 10); (-2, 3); (1234567, 1); (1, 10000); (1, 100000);
       (9999995, 10); (1000000, 1); (999999, 1); (5, 1)]
  = ["0.333333"; "0.1"; "-0.666667"; "1.23457e+06"; "0.0001"; "1e-05";
     "1e+06"; "1e+06"; "999999"; "5"].
Proof. vm_compute. reflexivity. Qed.

(** ** Loops *)

Lemma for_each_collect {A B : Type} (f : A -> result B) :
  forall (xs : list A) (acc : list B),
    for_each xs acc (fun s x => y <- f x ;; Ok (s ++ [y])%list)
    = (ys <- traverse f xs ;; Ok (acc ++ ys)%list).
Proof.
  induction xs as [|x xs IH]; intros acc; simpl.
  - now rewrite app_nil_r.
  - destruct (f x) as [y|e]; simpl; [|reflexivity].
    rewrite IH. destruct (traverse f xs) as [ys|e]; simpl; [|reflexivity].
    now rewrite <- app_assoc.
Qed.

Lemma traverse_pure {A B : Type} (g : A -> B) (xs : list A) :
  traverse (fun x => Ok (g x)) xs = Ok (map g xs).
Proof.
  induction xs as [|x xs IH]; simpl; [reflexivity|]. now rewrite IH.
Qed.

Lemma traverse_ext {A B : Type} (f g : A -> result B) (xs : list A) :
  (forall x, In x xs -> f x = g x) -> traverse f xs = traverse g xs.
Proof.
  induction xs as [|x xs IH]; intros E; simpl; [reflexivity|].
  rewrite (E x) by now left.
  rewrite IH; [reflexivity|]. intros y Hy. apply E. now right.
Qed.

Lemma traverse_length {A B : Type} (f : A -> result B) :
  forall (xs : list A) (ys : list B),
    traverse f xs = Ok ys -> List.length ys = List.length xs.
Proof.
  induction xs as [|x xs IH]; simpl; intros ys E.
  - now inversion E.
  - destruct (f x) as [y|e]; simpl in E; [|discriminate].
    destruct (traverse f xs) as [zs|e]; simpl in E; [|discriminate].
    inversion E; subst. simpl. now rewrite (IH zs).
Qed.

Lemma traverse_nth {A B : Type} (f : A -> result B) :
  forall (xs : list A) (ys : list B) (i : nat) (x : A),
    traverse f xs = Ok ys -> nth_error xs i = Some x ->
    exists y, f x = Ok y /\ nth_error ys i = Some y.
Proof.
  induction xs as [|x0 xs IH]; simpl; intros ys i x E Hx.
  - destruct i; discriminate.
  - destruct (f x0) as [y0|e] eqn:E0; simpl in E; [|discriminate].
    destruct (traverse f xs) as [zs|e]; simpl in E; [|discriminate].
    inversion E; subst. destruct i as [|i]; simpl in *.
    + inversion Hx; subst. now exists y0.
    + now apply (IH zs i x).
Qed.

Lemma traverse_total {A B : Type} (f : A -> result B) :
  forall xs : list A,
    (forall x, In x xs -> exists y, f x = Ok y) ->
    exists ys, traverse f xs = Ok ys.
Proof.
  induction xs as [|x xs IH]; simpl; intros T.
  - now exists [].
  - destruct (T x) as [y Ey]; [now left|].
    destruct IH as [ys Eys]; [intros z Hz; apply T; now right|].
    exists (y :: ys). now rewrite Ey, Eys.
Qed.

Lemma traverse_raises {A B : Type} (f : A -> result B) :
  forall xs : list A,
    (exists x, In x xs /\ raises (f x)) -> raises (traverse f xs).
Proof.
  induction xs as [|x xs IH]; simpl; intros [z [Hz [e Ee]]]; [easy|].
  destruct (f x) as [y|e'] eqn:Ex; simpl; [|now exists e'].
  destruct Hz as [->|Hz]; [congruence|].
  destruct IH as [e'' E'']; [exists z; split; [assumption|now exists e]|].
  rewrite E''. now exists e''.
Qed.

(** ** [range] *)

Lemma range_length (n : Z) : List.length (range n) = Z.to_nat n.
Proof. unfold range. now rewrite length_map, length_seq. Qed.

Lemma range_nth (n i : Z) :
  0 <= i < n -> nth_error (range n) (Z.to_nat i) = Some i.
Proof.
  intros Hi. unfold range.
  rewrite nth_error_map, nth_error_seq.
  destruct (Nat.ltb_spec (Z.to_nat i) (Z.to_nat n)) as [_|L]; [|lia].
  simpl. f_equal. lia.
Qed.

Lemma range_In (n i : Z) : In i (range n) <-> 0 <= i < n.
Proof.
  unfold range. rewrite in_map_iff. split.
  - intros [k [<- Hk]]. apply in_seq in Hk. lia.
  - intros Hi. exists (Z.to_nat i). split; [lia|]. apply in_seq. lia.
Qed.

Lemma range_nonpositive (n : Z) : n <= 0 -> range n = [].
Proof.
  intros Hn. unfold range. now replace (Z.to_nat n) with 0%nat by lia.
Qed.

Lemma range_succ (k : nat) :
  range (Z.of_nat (S k)) = (range (Z.of_nat k) ++ [Z.of_nat k])%list.
Proof.
  unfold range. rewrite !Nat2Z.id, seq_S, map_app. reflexivity.
Qed.

(** ** The generators as maps over [range] *)

Section Generators.
Context {F : Type} {num : PyFloat F}.

Lemma arithmetic_as_map (a d : F) (n : Z) :
  App1.generate_arithmetic_sequence a d n
  = Ok (map (arithmetic_term a d) (range n)).
Proof.
  unfold App1.generate_arithmetic_sequence.
  destruct (Z.leb_spec n 0) as [Hn|Hn].
  - now rewrite range_nonpositive.
  - transitivity (ys <- traverse (fun i => Ok (arithmetic_term a d i))
                          (range n) ;; Ok ([] ++ ys)%list).
    + exact (for_each_collect
               (fun i => Ok (arithmetic_term a d i)) (range n) []).
    + now rewrite traverse_pure.
Qed.

Lemma geometric_as_traverse (a r : F) (n : Z) :
  App1.generate_geometric_sequence a r n
  = traverse (geometric_term a r) (range n).
Proof.
  unfold App1.generate_geometric_sequence.
  destruct (Z.leb_spec n 0) as [Hn|Hn].
  - now rewrite range_nonpositive.
  - assert (E : forall xs acc,
               for_each xs acc
                 (fun (sequence : list F) (i : Z) =>
                    p <- pow r i ;;
                    let term := mul a p in Ok (sequence ++ [term])%list)
               = for_each xs acc
                   (fun (s : list F) (i : Z) =>
                      y <- geometric_term a r i ;; Ok (s ++ [y])%list)).
    { induction xs as [|x xs IH]; intros acc; simpl; [reflexivity|].
      unfold geometric_term. destruct (pow r x); simpl; [apply IH|reflexivity]. }
    rewrite E, (for_each_collect (geometric_term a r)).
    destruct (traverse (geometric_term a r) (range n)); reflexivity.
Qed.

Lemma same_generate_arithmetic (a d : F) (n : Z) :
  App.generate_arithmetic_sequence a d n
  = App1.generate_arithmetic_sequence a d n.
Proof. reflexivity. Qed.

Lemma same_format (s : list F) :
  App.format_sequence_display s = App1.format_sequence_display s.
Proof. reflexivity. Qed.

End Generators.

(** C1. For every term count [n > 0] and all [first_term] and
    [common_difference], [generate_arithmetic_sequence] (of either file)
    returns a list of exactly [n] terms whose term of index [i] is
    [first_term + i * common_difference], for every [0 <= i < n]. *)
Theorem generate_arithmetic_sequence_terms :
  forall (F : Type) (num : PyFloat F) (a d : F) (n : Z),
    0 < n ->
    exists s : list F,
      App.generate_arithmetic_sequence a d n = Ok s /\
      App1.generate_arithmetic_sequence a d n = Ok s /\
      Z.of_nat (List.length s) = n /\
      forall i : Z, 0 <= i < n ->
        nth_error s (Z.to_nat i) = Some (add a (mul (of_int i) d)).
Proof.
  intros F num a d n Hn.
  exists (map (arithmetic_term a d) (range n)).
  rewrite same_generate_arithmetic, arithmetic_as_map.
  repeat split.
  - rewrite length_map, range_length. lia.
  - intros i Hi. rewrite nth_error_map, range_nth by assumption. reflexivity.
Qed.

Lemma generate_arithmetic_sequence_terms_witness :
  0 < 10 /\
  exists s : list spec_float,
    App.generate_arithmetic_sequence (B64.lit 1 1) (B64.lit 1 4) 10 = Ok s /\
    App1.generate_arithmetic_sequence (B64.lit 1 1) (B64.lit 1 4) 10 = Ok s /\
    Z.of_nat (List.length s) = 10 /\
    forall i : Z, 0 <= i < 10 ->
      nth_error s (Z.to_nat i)
      = Some (add (B64.lit 1 1) (mul (of_int i) (B64.lit 1 4))).
Proof.
  split; [lia|].
  apply (generate_arithmetic_sequence_terms
           spec_float B64.numeric (B64.lit 1 1) (B64.lit 1 4) 10).
  lia.
Defined.

(** C2, as stated, fails on Python floats: with the finite floats
    [first_term = 1.0] and [common_ratio = 2.0 ** 600] and three terms, the
    power [common_ratio ** 2] overflows, [**] raises [OverflowError], and
    no list is returned. *)
Lemma generate_geometric_sequence_overflow :
  0 < 3 /\ finite (B64.lit 1 1) /\ finite B64.two_600 /\
  App1.generate_geometric_sequence (B64.lit 1 1) B64.two_600 3
  = Raise B64.range_error /\
  ~ (exists s : list spec_float,
        App1.generate_geometric_sequence (B64.lit 1 1) B64.two_600 3 = Ok s /\
        Z.of_nat (List.length s) = 3).
Proof.
  assert (E : App1.generate_geometric_sequence (B64.lit 1 1) B64.two_600 3
              = Raise B64.range_error) by (vm_compute; reflexivity).
  split; [lia|]. split; [eexists; vm_compute; reflexivity|].
  split; [eexists; vm_compute; reflexivity|].
  split; [exact E|]. intros [s [Es _]]. rewrite E in Es. discriminate.
Qed.

(** C2, amended. For every term count [n > 0]: when every power
    [common_ratio ** i], [0 <= i < n], is returned,
    [generate_geometric_sequence] returns a list of exactly [n] terms whose
    term of index [i] is [first_term * common_ratio ** i], each computed
    from the power of index [i] and not from the previous term; when one
    of these powers raises, so does the generator. *)
Theorem generate_geometric_sequence_terms :
  forall (F : Type) (num : PyFloat F) (a r : F) (n : Z),
    0 < n ->
    ((forall i : Z, 0 <= i < n -> exists p : F, pow r i = Ok p) ->
     exists s : list F,
       App1.generate_geometric_sequence a r n = Ok s /\
       Z.of_nat (List.length s) = n /\
       forall i : Z, 0 <= i < n ->
         exists p : F,
           pow r i = Ok p /\ nth_error s (Z.to_nat i) = Some (mul a p)) /\
    ((exists i : Z, 0 <= i < n /\ raises (pow r i)) ->
     raises (App1.generate_geometric_sequence a r n)).
Proof.
  intros F num a r n Hn. rewrite geometric_as_traverse. split.
  - intros T.
    destruct (traverse_total (geometric_term a r) (range n)) as [s Es].
    { intros i Hi. apply range_In in Hi. destruct (T i Hi) as [p Ep].
      exists (mul a p). unfold geometric_term. now rewrite Ep. }
    exists s. split; [assumption|]. split.
    + rewrite (traverse_length _ _ _ Es), range_length. lia.
    + intros i Hi.
      destruct (traverse_nth _ _ _ (Z.to_nat i) i Es (range_nth n i Hi))
        as [y [Ey Hy]].
      unfold geometric_term in Ey.
      destruct (pow r i) as [p|e]; simpl in Ey; [|discriminate].
      inversion Ey; subst. now exists p.
  - intros [i [Hi [e Ee]]]. apply traverse_raises.
    exists i. split; [now apply range_In|].
    exists e. unfold geometric_term. now rewrite Ee.
Qed.

Lemma generate_geometric_sequence_terms_witness :
  0 < 3 /\
  exists s : list spec_float,
    App1.generate_geometric_sequence (B64.lit 100 1) (B64.lit 1 2) 3 = Ok s /\
    Z.of_nat (List.length s) = 3 /\
    forall i : Z, 0 <= i < 3 ->
      exists p : spec_float,
        pow (B64.lit 1 2) i = Ok p /\
        nth_error s (Z.to_nat i) = Some (mul (B64.lit 100 1) p).
Proof.
  split; [lia|].
  apply (generate_geometric_sequence_terms
           spec_float B64.numeric (B64.lit 100 1) (B64.lit 1 2) 3); [lia|].
  intros i Hi.
  assert (C : i = 0 \/ i = 1 \/ i = 2) by lia.
  destruct C as [ -> | [ -> | -> ] ]; eexists; vm_compute; reflexivity.
Defined.

(** C5. For every term count [n <= 0] and all other inputs, both
    generators return the empty list, raising nothing, and both sum
    functions return the integer [0]. *)
Theorem nonpositive_term_count :
  forall (F : Type) (num : PyFloat F) (a step : F) (n : Z),
    n <= 0 ->
    App.generate_arithmetic_sequence a step n = Ok [] /\
    App1.generate_arithmetic_sequence a step n = Ok [] /\
    App1.generate_geometric_sequence a step n = Ok [] /\
    App1.calculate_arithmetic_sum a step n = Ok (Int 0) /\
    App1.calculate_geometric_sum a step n = Ok (Int 0).
Proof.
  intros F num a step n Hn.
  unfold App.generate_arithmetic_sequence, App1.generate_arithmetic_sequence,
    App1.generate_geometric_sequence, App1.calculate_arithmetic_sum,
    App1.calculate_geometric_sum.
  destruct (Z.leb_spec n 0) as [_|L]; [|lia].
  repeat split; reflexivity.
Qed.

Lemma nonpositive_term_count_witness :
  -3 <= 0 /\
  App.generate_arithmetic_sequence (B64.lit 1 1) (B64.lit 2 1) (-3) = Ok [] /\
  App1.generate_arithmetic_sequence (B64.lit 1 1) (B64.lit 2 1) (-3) = Ok [] /\
  App1.generate_geometric_sequence (B64.lit 1 1) (B64.lit 2 1) (-3) = Ok [] /\
  App1.calculate_arithmetic_sum (B64.lit 1 1) (B64.lit 2 1) (-3) = Ok (Int 0) /\
  App1.calculate_geometric_sum (B64.lit 1 1) (B64.lit 2 1) (-3) = Ok (Int 0).
Proof.
  split; [lia|].
  apply (nonpositive_term_count
           spec_float B64.numeric (B64.lit 1 1) (B64.lit 2 1) (-3)).
  lia.
Defined.

(** C9. The functions the two files share are extensionally equal:
    [generate_arithmetic_sequence] of [src/app.py] returns what the one of
    [src/unnamed/part_000] returns, and so does
    [format_sequence_display], on all inputs. *)
Theorem variants_agree :
  forall (F : Type) (num : PyFloat F),
    (forall (a d : F) (n : Z),
        App.generate_arithmetic_sequence a d n
        = App1.generate_arithmetic_sequence a d n) /\
    (forall sequence : list F,
        App.format_sequence_display sequence
        = App1.format_sequence_display sequence).
Proof.
  intros F num. split.
  - intros a d n. unfold App.generate_arithmetic_sequence,
      App1.generate_arithmetic_sequence. reflexivity.
  - intros sequence. destruct sequence as [|x xs]; reflexivity.
Qed.

(** ** Exact arithmetic *)

Section ExactArithmetic.
Open Scope Qc_scope.

Lemma exact_of_int_add (a b : Z) :
  Exact.of_int (a + b) = Exact.of_int a + Exact.of_int b.
Proof.
  apply Qc_is_canon. unfold Exact.of_int, Qcplus, Q2Qc. cbn [this].
  rewrite !Qred_correct. rewrite inject_Z_plus. reflexivity.
Qed.

Lemma exact_of_int_0 : Exact.of_int 0 = 0.
Proof. apply Qc_is_canon. reflexivity. Qed.

Lemma exact_of_int_1 : Exact.of_int 1 = 1.
Proof. apply Qc_is_canon. reflexivity. Qed.

Lemma exact_of_int_2 : Exact.of_int 2 = 1 + 1.
Proof. apply Qc_is_canon. reflexivity. Qed.

Lemma exact_of_int_succ (k : nat) :
  Exact.of_int (Z.of_nat (S k)) = Exact.of_int (Z.of_nat k) + 1.
Proof. now rewrite Nat2Z.inj_succ, <- Z.add_1_r, exact_of_int_add, exact_of_int_1. Qed.

Lemma two_nonzero : 1 + 1 <> 0.
Proof. intros E. discriminate E. Qed.

Lemma exact_eq_bool_false (x y : Qc) : Qc_eq_bool x y = false -> x <> y.
Proof. unfold Qc_eq_bool. now destruct (Qc_eq_dec x y). Qed.

Lemma exact_pow_nonneg (r : Qc) (i : Z) :
  (0 <= i)%Z -> pow r i = Ok (r ^ Z.to_nat i).
Proof. intros Hi. destruct i; try reflexivity. lia. Qed.

Lemma exact_truediv (x y : Qc) : y <> 0 -> truediv x y = Ok (x / y).
Proof.
  intros Hy. cbn. unfold Exact.truediv.
  destruct (Qc_eq_bool y (Exact.of_int 0)) eqn:E; [|reflexivity].
  apply Qc_eq_bool_correct in E. rewrite exact_of_int_0 in E. contradiction.
Qed.

Lemma exact_geometric_as_map (a r : Qc) (n : Z) :
  App1.generate_geometric_sequence a r n
  = Ok (map (fun i => a * r ^ Z.to_nat i) (range n)).
Proof.
  rewrite geometric_as_traverse, <- traverse_pure.
  apply traverse_ext. intros i Hi. apply range_In in Hi.
  unfold geometric_term. rewrite exact_pow_nonneg by lia. reflexivity.
Qed.

Lemma py_sum_snoc (s : list Qc) (x : Qc) :
  py_sum (s ++ [x]) = py_sum s + x.
Proof. unfold py_sum. now rewrite fold_left_app. Qed.

(** The sum of the first [k] terms of an arithmetic sequence. *)
Lemma arithmetic_series (a d : Qc) (k : nat) :
  py_sum (map (arithmetic_term a d) (range (Z.of_nat k)))
  = Exact.of_int (Z.of_nat k) / (1 + 1)
    * ((1 + 1) * a + (Exact.of_int (Z.of_nat k) - 1) * d).
Proof.
  induction k as [|k IH].
  - cbn [Z.of_nat]. rewrite exact_of_int_0. unfold py_sum. cbn.
    rewrite exact_of_int_0. field. exact two_nonzero.
  - rewrite range_succ, map_app. cbn [map].
    rewrite py_sum_snoc, IH, exact_of_int_succ. unfold arithmetic_term. cbn [add mul of_int Exact.numeric].
    field. exact two_nonzero.
Qed.

(** The sum of the first [k] terms of a geometric sequence of ratio
    other than one. *)
Lemma geometric_series (a r : Qc) (k : nat) :
  1 - r <> 0 ->
  py_sum (map (fun i => a * r ^ Z.to_nat i) (range (Z.of_nat k)))
  = a * (1 - r ^ k) / (1 - r).
Proof.
  intros Hr. induction k as [|k IH].
  - unfold py_sum. cbn. rewrite exact_of_int_0. field. exact Hr.
  - rewrite range_succ, map_app. cbn [map]. rewrite py_sum_snoc, IH.
    rewrite Nat2Z.id. cbn [Qcpower]. field. exact Hr.
Qed.

(** The sum of [k] equal terms. *)
Lemma constant_series (a : Qc) (k : nat) :
  py_sum (map (fun i => a * 1 ^ Z.to_nat i) (range (Z.of_nat k)))
  = Exact.of_int (Z.of_nat k) * a.
Proof.
  induction k as [|k IH].
  - unfold py_sum. cbn. rewrite exact_of_int_0. ring.
  - rewrite range_succ, map_app. cbn [map].
    rewrite py_sum_snoc, IH, exact_of_int_succ, Qcpower_1. ring.
Qed.

(** [calculate_geometric_sum] over exact arithmetic, where nothing is
    raised at all. *)
Lemma exact_calculate_geometric_sum (a r : Qc) (n : Z) :
  (0 < n)%Z ->
  (r = Exact.of_int 1 ->
   App1.calculate_geometric_sum a r n = Ok (Float (Exact.of_int n * a)%Qc)) /\
  (r <> Exact.of_int 1 ->
   App1.calculate_geometric_sum a r n
   = Ok (Float (a * (1 - r ^ Z.to_nat n) / (1 - r))%Qc)).
Proof.
  intros Hn. unfold App1.calculate_geometric_sum.
  destruct (Z.leb_spec n 0) as [L|_]; [lia|].
  cbn [eq_int Exact.numeric]. unfold Exact.eq_int. split; intros Hr.
  - subst r. unfold Qc_eq_bool.
    destruct (Qc_eq_dec (Exact.of_int 1) (Exact.of_int 1)); [reflexivity|].
    contradiction.
  - destruct (Qc_eq_bool r (Exact.of_int 1)) eqn:E.
    + apply Qc_eq_bool_correct in E. contradiction.
    + rewrite exact_of_int_1 in Hr.
      assert (Hd : (1 - r)%Qc <> 0%Qc).
      { intros Hz. apply Hr. symmetry.
        replace r with (r + 0)%Qc by ring. rewrite <- Hz. ring. }
      rewrite exact_pow_nonneg by lia. cbn [bind].
      cbn [sub mul of_int Exact.numeric]. rewrite exact_of_int_1.
      rewrite exact_truediv by exact Hd. reflexivity.
Qed.

End ExactArithmetic.

(** C3, as stated, fails on Python floats, for both kinds. With the
    finite floats [first_term = 1.0] and [common_ratio = 2.0 ** 512] and
    two terms, the sequence is [[1.0, 2.0 ** 512]] and its direct sum is
    finite, while the closed form needs [common_ratio ** 2], which
    overflows: [calculate_geometric_sum] raises [OverflowError] and
    returns no sum to compare. With the finite floats
    [first_term = 2.0 ** 1023] and [common_difference = - 2.0 ** 1023] and
    two terms, the sequence is [[2.0 ** 1023, 0.0]] and its direct sum is
    [2.0 ** 1023], while [calculate_arithmetic_sum] returns an infinity,
    as [2 * first_term] overflows: no tolerance covers the two. *)
Lemma closed_form_overflow :
  0 < 2 /\ finite (B64.lit 1 1) /\ finite B64.two_512 /\
  App1.generate_geometric_sequence (B64.lit 1 1) B64.two_512 2
  = Ok [B64.lit 1 1; B64.two_512] /\
  finite (py_sum [B64.lit 1 1; B64.two_512]) /\
  App1.calculate_geometric_sum (B64.lit 1 1) B64.two_512 2
  = Raise B64.range_error /\
  ~ (exists total : number spec_float,
        App1.calculate_geometric_sum (B64.lit 1 1) B64.two_512 2 = Ok total) /\
  finite B64.two_1023 /\ finite (SFopp B64.two_1023) /\
  App1.generate_arithmetic_sequence B64.two_1023 (SFopp B64.two_1023) 2
  = Ok [B64.two_1023; S754_zero false] /\
  py_sum [B64.two_1023; S754_zero false] = B64.two_1023 /\
  App1.calculate_arithmetic_sum B64.two_1023 (SFopp B64.two_1023) 2
  = Ok (Float B64.infinity).
Proof.
  assert (E : App1.calculate_geometric_sum (B64.lit 1 1) B64.two_512 2
              = Raise B64.range_error) by (vm_compute; reflexivity).
  split; [lia|]. split; [eexists; vm_compute; reflexivity|].
  split; [eexists; vm_compute; reflexivity|].
  split; [vm_compute; reflexivity|].
  split; [eexists; vm_compute; reflexivity|].
  split; [exact E|].
  split; [intros [total Et]; rewrite E in Et; discriminate|].
  split; [eexists; vm_compute; reflexivity|].
  split; [eexists; vm_compute; reflexivity|].
  split; [vm_compute; reflexivity|].
  split; vm_compute; reflexivity.
Qed.

(** C3, amended. Over exact arithmetic, for every term count [n > 0] the
    closed-form sum is the direct summation of the generated sequence:
    [calculate_arithmetic_sum] returns [sum] of what
    [generate_arithmetic_sequence] returns, and [calculate_geometric_sum]
    returns [sum] of what [generate_geometric_sequence] returns. Nothing
    is stated of the two sums over floats, where they need not agree; over
    any arithmetic, when [common_ratio] is not [1] and [common_ratio ** n]
    raises, [calculate_geometric_sum] raises the same exception, whatever
    the generated sequence is. *)
Theorem closed_form_is_direct_sum :
  forall (a step : Qc) (n : Z),
    0 < n ->
    (exists s : list Qc,
        App1.generate_arithmetic_sequence a step n = Ok s /\
        App1.calculate_arithmetic_sum a step n = Ok (Float (py_sum s))) /\
    (exists s : list Qc,
        App1.generate_geometric_sequence a step n = Ok s /\
        App1.calculate_geometric_sum a step n = Ok (Float (py_sum s))) /\
    (forall (F : Type) (num : PyFloat F) (a' r : F) (e : exn),
        eq_int r 1 = false -> pow r n = Raise e ->
        App1.calculate_geometric_sum a' r n = Raise e).
Proof.
  intros a step n Hn.
  assert (En : n = Z.of_nat (Z.to_nat n)) by lia.
  assert (Epred : (Exact.of_int (n - 1) = Exact.of_int n - 1)%Qc).
  { replace n with ((n - 1) + 1) at 2 by lia.
    rewrite exact_of_int_add, exact_of_int_1. ring. }
  split; [|split].
  - exists (map (arithmetic_term a step) (range n)).
    split; [apply arithmetic_as_map|].
    unfold App1.calculate_arithmetic_sum.
    destruct (Z.leb_spec n 0) as [L|_]; [lia|].
    cbn [int_truediv Exact.numeric]. unfold Exact.int_truediv.
    change (Exact.truediv (Exact.of_int n) (Exact.of_int 2))
      with (truediv (Exact.of_int n) (Exact.of_int 2)).
    rewrite exact_of_int_2, exact_truediv by exact two_nonzero.
    cbn [bind to_float Exact.numeric]. do 2 f_equal.
    rewrite En at 3. rewrite arithmetic_series, <- En.
    cbn [add mul of_int Exact.numeric].
    rewrite Epred, exact_of_int_2. reflexivity.
  - exists (map (fun i => (a * step ^ Z.to_nat i)%Qc) (range n)).
    split; [apply exact_geometric_as_map|].
    destruct (exact_calculate_geometric_sum a step n Hn) as [H1 H2].
    destruct (Qc_eq_dec step (Exact.of_int 1)) as [E|E].
    + rewrite (H1 E). do 2 f_equal. rewrite E, exact_of_int_1.
      rewrite En at 2. rewrite constant_series, <- En. reflexivity.
    + rewrite (H2 E). do 2 f_equal. rewrite exact_of_int_1 in E.
      assert (Hr : (1 - step)%Qc <> 0%Qc).
      { intros Hz. apply E. symmetry.
        replace step with (step + 0)%Qc by ring. rewrite <- Hz. ring. }
      rewrite En at 2. rewrite geometric_series by exact Hr. reflexivity.
  - intros F num a' r e Er Ep. unfold App1.calculate_geometric_sum.
    destruct (Z.leb_spec n 0) as [L|_]; [lia|].
    rewrite Er, Ep. reflexivity.
Qed.

Lemma closed_form_is_direct_sum_witness :
  0 < 6 /\
  (exists s : list Qc,
      App1.generate_arithmetic_sequence
        (Exact.of_int 100) (Exact.of_int (-5)) 6 = Ok s /\
      App1.calculate_arithmetic_sum
        (Exact.of_int 100) (Exact.of_int (-5)) 6 = Ok (Float (py_sum s))) /\
  (exists s : list Qc,
      App1.generate_geometric_sequence
        (Exact.of_int 100) (Exact.of_int (-5)) 6 = Ok s /\
      App1.calculate_geometric_sum
        (Exact.of_int 100) (Exact.of_int (-5)) 6 = Ok (Float (py_sum s))).
Proof.
  split; [lia|].
  destruct (closed_form_is_direct_sum
              (Exact.of_int 100) (Exact.of_int (-5)) 6) as [Ha [Hg _]];
    [lia|].
  split; [exact Ha|exact Hg].
Defined.

(** C10. Over exact arithmetic, for every term count [n >= 2],
    consecutive terms of [generate_arithmetic_sequence] differ by the
    common difference, and each term of [generate_geometric_sequence] is
    the previous one times the common ratio. *)
Theorem consecutive_terms :
  forall (a step : Qc) (n : Z),
    2 <= n ->
    (exists s : list Qc,
        App.generate_arithmetic_sequence a step n = Ok s /\
        forall i : Z, 0 <= i < n - 1 ->
          exists x y : Qc,
            nth_error s (Z.to_nat i) = Some x /\
            nth_error s (Z.to_nat (i + 1)) = Some y /\
            (y - x)%Qc = step) /\
    (exists g : list Qc,
        App1.generate_geometric_sequence a step n = Ok g /\
        forall i : Z, 0 <= i < n - 1 ->
          exists x y : Qc,
            nth_error g (Z.to_nat i) = Some x /\
            nth_error g (Z.to_nat (i + 1)) = Some y /\
            y = (x * step)%Qc).
Proof.
  intros a step n Hn. split.
  - exists (map (arithmetic_term a step) (range n)).
    split; [rewrite same_generate_arithmetic; apply arithmetic_as_map|].
    intros i Hi.
    exists (arithmetic_term a step i), (arithmetic_term a step (i + 1)).
    rewrite !nth_error_map, !range_nth by lia.
    repeat split. unfold arithmetic_term.
    cbn [add mul of_int Exact.numeric].
    rewrite exact_of_int_add, exact_of_int_1. ring.
  - exists (map (fun i => (a * step ^ Z.to_nat i)%Qc) (range n)).
    split; [apply exact_geometric_as_map|].
    intros i Hi.
    exists (a * step ^ Z.to_nat i)%Qc, (a * step ^ Z.to_nat (i + 1))%Qc.
    rewrite !nth_error_map, !range_nth by lia.
    repeat split.
    replace (Z.to_nat (i + 1)) with (S (Z.to_nat i)) by lia.
    cbn [Qcpower]. ring.
Qed.

Lemma consecutive_terms_witness :
  2 <= 8 /\
  (exists s : list Qc,
      App.generate_arithmetic_sequence
        (Exact.of_int 1) (Exact.of_int 3) 8 = Ok s /\
      forall i : Z, 0 <= i < 8 - 1 ->
        exists x y : Qc,
          nth_error s (Z.to_nat i) = Some x /\
          nth_error s (Z.to_nat (i + 1)) = Some y /\
          (y - x)%Qc = Exact.of_int 3) /\
  (exists g : list Qc,
      App1.generate_geometric_sequence
        (Exact.of_int 1) (Exact.of_int 3) 8 = Ok g /\
      forall i : Z, 0 <= i < 8 - 1 ->
        exists x y : Qc,
          nth_error g (Z.to_nat i) = Some x /\
          nth_error g (Z.to_nat (i + 1)) = Some y /\
          y = (x * Exact.of_int 3)%Qc).
Proof.
  split; [lia|].
  apply (consecutive_terms (Exact.of_int 1) (Exact.of_int 3) 8). lia.
Defined.

(** ** Binary64: a difference of unequal floats is not zero *)

Section Binary64.

Lemma digits2_lower (p : positive) : 2 ^ (Zpos (digits2_pos p) - 1) <= Zpos p.
Proof.
  induction p as [p IH|p IH|]; cbn [digits2_pos].
  - rewrite Pos2Z.inj_succ.
    replace (Z.succ (Zpos (digits2_pos p)) - 1)
      with (Z.succ (Zpos (digits2_pos p) - 1)) by lia.
    rewrite Z.pow_succ_r by lia. lia.
  - rewrite Pos2Z.inj_succ.
    replace (Z.succ (Zpos (digits2_pos p)) - 1)
      with (Z.succ (Zpos (digits2_pos p) - 1)) by lia.
    rewrite Z.pow_succ_r by lia. lia.
  - reflexivity.
Qed.

Lemma shr_1_m (mrs : shr_record) :
  0 <= shr_m mrs -> shr_m (shr_1 mrs) = shr_m mrs / 2.
Proof.
  destruct mrs as [m r s]. cbn [shr_m]. intros Hm.
  destruct m as [|[p|p|]|p]; cbn [shr_1 shr_m]; try lia.
  - reflexivity.
  - rewrite Pos2Z.inj_xI. apply Z.div_unique with 1; lia.
  - rewrite Pos2Z.inj_xO. apply Z.div_unique with 0; lia.
  - reflexivity.
Qed.

Lemma iter_shr_m (p : positive) :
  forall mrs : shr_record,
    0 <= shr_m mrs ->
    shr_m (iter_pos shr_1 p mrs) = shr_m mrs / 2 ^ Zpos p.
Proof.
  induction p as [p IH|p IH|]; intros mrs Hm; cbn [iter_pos].
  - assert (H1 : 0 <= shr_m (shr_1 mrs)).
    { rewrite shr_1_m by assumption. apply Z.div_pos; lia. }
    assert (H2 : 0 <= shr_m (iter_pos shr_1 p (shr_1 mrs))).
    { rewrite IH by assumption. apply Z.div_pos; lia. }
    rewrite IH, IH, shr_1_m by assumption.
    rewrite !Z.div_div by lia. f_equal.
    replace (Z.pos p~1) with (1 + Z.pos p + Z.pos p) by lia.
    rewrite !Z.pow_add_r by lia. change (2 ^ 1) with 2. ring.
  - assert (H2 : 0 <= shr_m (iter_pos shr_1 p mrs)).
    { rewrite IH by assumption. apply Z.div_pos; lia. }
    rewrite IH, IH by assumption.
    rewrite !Z.div_div by lia. f_equal.
    replace (Z.pos p~0) with (Z.pos p + Z.pos p) by lia.
    rewrite Z.pow_add_r by lia. reflexivity.
  - rewrite shr_1_m by assumption. reflexivity.
Qed.

Lemma shr_record_of_loc_m (m : Z) (l : location) :
  shr_m (shr_record_of_loc m l) = m.
Proof. destruct l as [|[| |]]; reflexivity. Qed.

Lemma fexp_value (x : Z) :
  fexp B64.prec B64.emax x = Z.max (x - 53) (-1074).
Proof. reflexivity. Qed.

Lemma shr_fexp_positive (m : positive) (e : Z) (l : location) :
  -1074 <= e ->
  0 < shr_m (fst (shr_fexp B64.prec B64.emax (Zpos m) e l)) /\
  -1074 <= snd (shr_fexp B64.prec B64.emax (Zpos m) e l).
Proof.
  intros He. unfold shr_fexp, shr. cbn [Zdigits2]. rewrite fexp_value.
  pose proof (digits2_lower m) as Hd.
  destruct (Z.max (Zpos (digits2_pos m) + e - 53) (-1074) - e)
    as [|p|p] eqn:En; cbn [fst snd]; rewrite ?shr_record_of_loc_m;
    try (split; lia).
  rewrite iter_shr_m by (rewrite shr_record_of_loc_m; lia).
  rewrite shr_record_of_loc_m. split; [|lia].
  apply Z.div_str_pos. split; [apply Z.pow_pos_nonneg; lia|].
  apply Z.le_trans with (2 ^ (Zpos (digits2_pos m) - 1)); [|exact Hd].
  apply Z.pow_le_mono_r; lia.
Qed.

Lemma round_nearest_even_positive (m : Z) (l : location) :
  0 < m -> 0 < round_nearest_even m l.
Proof.
  intros Hm. destruct l as [|[| |]]; cbn [round_nearest_even]; try lia.
  destruct (Z.even m); lia.
Qed.

Lemma binary_round_aux_nonzero (s z : bool) (m : positive) (e : Z)
      (l : location) :
  -1074 <= e ->
  binary_round_aux B64.prec B64.emax s (Zpos m) e l <> S754_zero z.
Proof.
  intros He. unfold binary_round_aux.
  destruct (shr_fexp_positive m e l He) as [H1 H2].
  destruct (shr_fexp B64.prec B64.emax (Zpos m) e l) as [mrs' e'].
  cbn [fst snd] in H1, H2.
  pose proof (round_nearest_even_positive
                (shr_m mrs') (loc_of_shr_record mrs') H1) as H3.
  destruct (round_nearest_even (shr_m mrs') (loc_of_shr_record mrs'))
    as [|m1|m1]; try lia.
  destruct (shr_fexp_positive m1 e' loc_Exact H2) as [H4 _].
  destruct (shr_fexp B64.prec B64.emax (Zpos m1) e' loc_Exact) as [mrs'' e''].
  cbn [fst] in H4.
  destruct (shr_m mrs'') as [|m2|m2]; try lia.
  destruct (e'' <=? B64.emax - B64.prec); discriminate.
Qed.

Lemma shl_align_exponent (m : positive) (e e' : Z) :
  -1074 <= e -> -1074 <= e' -> -1074 <= snd (shl_align m e e').
Proof.
  intros He He'. unfold shl_align. destruct (e' - e); cbn [snd]; lia.
Qed.

Lemma binary_normalize_nonzero (d e : Z) (z : bool) :
  d <> 0 -> -1074 <= e ->
  binary_normalize B64.prec B64.emax d e false <> S754_zero z.
Proof.
  intros Hd He.
  destruct d as [|m|m]; [contradiction| |]; cbn [binary_normalize];
    unfold binary_round;
    pose proof (shl_align_exponent m e
                  (fexp B64.prec B64.emax (Zpos (digits2_pos m) + e)) He) as H;
    rewrite fexp_value in H |- *;
    destruct (shl_align m e (Z.max (Zpos (digits2_pos m) + e - 53) (-1074)))
      as [mz ez]; cbn [snd] in H;
    apply binary_round_aux_nonzero; lia.
Qed.

Lemma valid_exponent (s : bool) (m : positive) (e : Z) :
  valid_binary B64.prec B64.emax (S754_finite s m e) = true -> -1074 <= e.
Proof.
  cbn [valid_binary]. unfold bounded, canonical_mantissa.
  rewrite fexp_value. intros H. apply andb_prop in H. destruct H as [H _].
  apply Z.eqb_eq in H. lia.
Qed.

Lemma shl_align_value (m : positive) (e e' : Z) :
  e' <= e -> Zpos (fst (shl_align m e e')) = Zpos m * 2 ^ (e - e').
Proof.
  intros H. unfold shl_align.
  destruct (e' - e) as [|p|p] eqn:E; cbn [fst]; try lia.
  - replace (e - e') with 0 by lia. lia.
  - replace (e - e') with (Zpos p) by lia.
    change (Pos.iter xO m p) with (shift_pos p m).
    rewrite shift_pos_correct, Z.pow_pos_fold. ring.
Qed.


Lemma one_value : B64.of_int 1 = S754_finite false 4503599627370496 (-52).
Proof. reflexivity. Qed.

Lemma one_minus_nonzero (r : spec_float) (z : bool) :
  valid_binary B64.prec B64.emax r = true ->
  B64.eq_int r 1 = false ->
  B64.sub (B64.of_int 1) r <> S754_zero z.
Proof.
  intros V E. rewrite one_value.
  destruct r as [s| s| |s m e]; try discriminate.
  apply valid_exponent in V. unfold B64.sub, SFsub.
  apply binary_normalize_nonzero; [|lia].
  rewrite !shl_align_value by lia. cbn [B64.eq_int] in E.
  intros D.
  assert (P1 : 0 < 2 ^ (-52 - Z.min (-52) e)) by (apply Z.pow_pos_nonneg; lia).
  assert (P2 : 0 < 2 ^ (e - Z.min (-52) e)) by (apply Z.pow_pos_nonneg; lia).
  destruct s; cbn [cond_Zopp] in D, E; [nia|].
  destruct (Z.leb_spec 0 e) as [He|He].
  - apply Z.eqb_neq in E. apply E.
    replace (Z.min (-52) e) with (-52) in D by lia.
    replace (e - -52) with (e + 52) in D by lia.
    rewrite Z.pow_add_r in D by lia.
    change (2 ^ (-52 - -52)) with 1 in D. change (2 ^ 52) with 4503599627370496 in D.
    lia.
  - apply Z.eqb_neq in E. apply E. rewrite Z.mul_1_l.
    destruct (Z.le_ge_cases (-52) e) as [L|L].
    + replace (Z.min (-52) e) with (-52) in D by lia.
      change (2 ^ (-52 - -52)) with 1 in D.
      assert (S : 4503599627370496 = 2 ^ (- e) * 2 ^ (e - -52)).
      { change 4503599627370496 with (2 ^ 52).
        rewrite <- Z.pow_add_r by lia. f_equal. lia. }
      rewrite Z.mul_1_r in D. rewrite S in D.
      assert (P3 : 0 < 2 ^ (e - -52)) by (apply Z.pow_pos_nonneg; lia).
      nia.
    + replace (Z.min (-52) e) with e in D by lia.
      replace (e - e) with 0 in D by lia. change (2 ^ 0) with 1 in D.
      assert (S : 4503599627370496 * 2 ^ (-52 - e) = 2 ^ (- e)).
      { change 4503599627370496 with (2 ^ 52).
        rewrite <- Z.pow_add_r by lia. f_equal. lia. }
      lia.
Qed.

End Binary64.

(** ** Whole numbers as floats *)

Section WholeFloats.

Lemma digits2_upper (p : positive) : Zpos p < 2 ^ Zpos (digits2_pos p).
Proof.
  induction p as [p IH|p IH|]; cbn [digits2_pos].
  - rewrite Pos2Z.inj_succ, Z.pow_succ_r by lia. lia.
  - rewrite Pos2Z.inj_succ, Z.pow_succ_r by lia. lia.
  - reflexivity.
Qed.

Lemma digits2_unique (p : positive) (x : Z) :
  2 ^ (x - 1) <= Zpos p < 2 ^ x -> Zpos (digits2_pos p) = x.
Proof.
  intros [Hlo Hhi].
  pose proof (digits2_lower p) as L. pose proof (digits2_upper p) as U.
  assert (Hx : 0 < x).
  { destruct (Z.lt_ge_cases 0 x) as [H|H]; [exact H|].
    destruct (Z.eq_dec x 0) as [->|Hne].
    - change (2 ^ 0) with 1 in Hhi. lia.
    - rewrite Z.pow_neg_r in Hhi by lia. lia. }
  destruct (Z.lt_trichotomy (Zpos (digits2_pos p)) x) as [H|[H|H]].
  - assert (2 ^ Zpos (digits2_pos p) <= 2 ^ (x - 1))
      by (apply Z.pow_le_mono_r; lia). lia.
  - exact H.
  - assert (2 ^ x <= 2 ^ (Zpos (digits2_pos p) - 1))
      by (apply Z.pow_le_mono_r; lia). lia.
Qed.

Lemma shl_align_exponent_eq (m : positive) (e e' : Z) :
  e' <= e -> snd (shl_align m e e') = e'.
Proof.
  intros H. unfold shl_align.
  destruct (e' - e) as [|p|p] eqn:E; cbn [snd]; lia.
Qed.

(** A mantissa of 53 bits with an exponent from -52 to 0 is not rounded. *)
Lemma round_exact (s : bool) (m : positive) (e : Z) :
  Zpos (digits2_pos m) = 53 -> -52 <= e <= 0 ->
  binary_round_aux B64.prec B64.emax s (Zpos m) e loc_Exact
  = S754_finite s m e.
Proof.
  intros Hd He. unfold binary_round_aux, shr_fexp. cbn [Zdigits2].
  rewrite Hd, fexp_value.
  replace (Z.max (53 + e - 53) (-1074) - e) with 0 by lia.
  cbn [shr shr_record_of_loc shr_m loc_of_shr_record round_nearest_even
       Zdigits2].
  rewrite Hd, fexp_value.
  replace (Z.max (53 + e - 53) (-1074) - e) with 0 by lia.
  cbn [shr shr_record_of_loc shr_m].
  destruct (Z.leb_spec e (B64.emax - B64.prec)) as [_|L]; [reflexivity|].
  unfold B64.emax, B64.prec in L. lia.
Qed.

Lemma of_int_positive (m : positive) :
  Zpos m < 2 ^ 53 ->
  forall s : bool,
  exists (mz : positive) (ez : Z),
    binary_round B64.prec B64.emax s m 0 = S754_finite s mz ez /\
    -52 <= ez <= 0 /\ Zpos mz = Zpos m * 2 ^ (- ez).
Proof.
  intros Hm s. unfold binary_round. rewrite fexp_value.
  pose proof (digits2_lower m) as L. pose proof (digits2_upper m) as U.
  assert (Hd : 1 <= Zpos (digits2_pos m) <= 53).
  { split; [lia|].
    destruct (Z.le_gt_cases (Zpos (digits2_pos m)) 53) as [H|H]; [exact H|].
    assert (2 ^ 53 <= 2 ^ (Zpos (digits2_pos m) - 1))
      by (apply Z.pow_le_mono_r; lia). lia. }
  replace (Z.max (Zpos (digits2_pos m) + 0 - 53) (-1074))
    with (Zpos (digits2_pos m) - 53) by lia.
  pose proof (shl_align_value m 0 (Zpos (digits2_pos m) - 53)) as Hv.
  pose proof (shl_align_exponent_eq m 0 (Zpos (digits2_pos m) - 53)) as Hx.
  destruct (shl_align m 0 (Zpos (digits2_pos m) - 53)) as [mz ez].
  cbn [fst snd] in Hv, Hx.
  specialize (Hv ltac:(lia)). specialize (Hx ltac:(lia)). subst ez.
  exists mz, (Zpos (digits2_pos m) - 53).
  assert (Hmz : Zpos mz = Zpos m * 2 ^ (- (Zpos (digits2_pos m) - 53))).
  { rewrite Hv. reflexivity. }
  split; [|split; [lia|exact Hmz]].
  apply round_exact; [|lia].
  apply digits2_unique. rewrite Hv.
  replace (0 - (Zpos (digits2_pos m) - 53))
    with (53 - Zpos (digits2_pos m)) by lia.
  assert (P : 0 < 2 ^ (53 - Zpos (digits2_pos m)))
    by (apply Z.pow_pos_nonneg; lia).
  assert (E1 : 2 ^ (53 - 1)
               = 2 ^ (Zpos (digits2_pos m) - 1)
                 * 2 ^ (53 - Zpos (digits2_pos m))).
  { rewrite <- Z.pow_add_r by lia. f_equal. lia. }
  assert (E2 : 2 ^ 53
               = 2 ^ Zpos (digits2_pos m)
                 * 2 ^ (53 - Zpos (digits2_pos m))).
  { rewrite <- Z.pow_add_r by lia. f_equal. lia. }
  rewrite E1, E2. split; nia.
Qed.

(** [int(float(k))] is [k], and [float(k) == k], for [|k| < 2^53]. *)
Lemma whole_float (k : Z) :
  - 2 ^ 53 < k < 2 ^ 53 ->
  int_of (B64.of_int k) = Ok k /\ eq_int (B64.of_int k) k = true.
Proof.
  intros Hk. unfold B64.of_int, binary_normalize.
  destruct k as [|m|m].
  - split; reflexivity.
  - destruct (of_int_positive m ltac:(lia) false) as [mz [ez [E [He Hm]]]].
    rewrite E. cbn [int_of eq_int B64.numeric B64.int_of B64.eq_int].
    assert (P : 0 < 2 ^ (- ez)) by (apply Z.pow_pos_nonneg; lia).
    destruct (Z.leb_spec 0 ez) as [H0|H0].
    + replace ez with 0 in * by lia. change (2 ^ (- 0)) with 1 in Hm.
      change (2 ^ 0) with 1. split; [f_equal; lia|apply Z.eqb_eq; lia].
    + split; [|apply Z.eqb_eq; lia].
      f_equal. rewrite Hm. apply Z.div_mul. lia.
  - destruct (of_int_positive m ltac:(lia) true) as [mz [ez [E [He Hm]]]].
    rewrite E. cbn [int_of eq_int B64.numeric B64.int_of B64.eq_int].
    assert (P : 0 < 2 ^ (- ez)) by (apply Z.pow_pos_nonneg; lia).
    destruct (Z.leb_spec 0 ez) as [H0|H0].
    + replace ez with 0 in * by lia. change (2 ^ (- 0)) with 1 in Hm.
      change (2 ^ 0) with 1. split; [f_equal; lia|apply Z.eqb_eq; lia].
    + split; [|apply Z.eqb_eq; lia].
      f_equal. rewrite Hm, Z.div_mul by lia. lia.
Qed.

End WholeFloats.

(** ** Binary64: the conversion of an [int], and what [**] can raise *)

Section Conversion.

Lemma binary_round_aux_whole (m e : Z) (l : location) :
  0 <= B64.whole (binary_round_aux B64.prec B64.emax false m e l).
Proof.
  unfold binary_round_aux.
  destruct (shr_fexp B64.prec B64.emax m e l) as [mrs' e'].
  destruct (shr_fexp B64.prec B64.emax _ e' loc_Exact) as [mrs'' e''].
  destruct (shr_m mrs'') as [|p|p]; cbn [B64.whole]; try lia.
  destruct (e'' <=? B64.emax - B64.prec); cbn [B64.whole]; [|lia].
  destruct (0 <=? e''); [lia|].
  apply Z_div_nonneg_nonneg; [lia|apply Z.pow_nonneg; lia].
Qed.

(** The float of a natural number holds a natural number. *)
Lemma of_int_whole (k : Z) : 0 <= k -> 0 <= B64.whole (B64.of_int k).
Proof.
  intros Hk. destruct k as [|m|m]; [cbn; lia| |lia].
  unfold B64.of_int, binary_normalize, binary_round.
  destruct (shl_align m 0 _) as [mz ez].
  apply binary_round_aux_whole.
Qed.

(** Below [2^53] the conversion of an [int] is exact and never refused. *)
Lemma to_float_small (k : Z) :
  - 2 ^ 53 < k < 2 ^ 53 ->
  B64.to_float k = Ok (B64.of_int k) /\ B64.whole (B64.of_int k) = k.
Proof.
  intros Hk. destruct (whole_float k Hk) as [Ei _].
  cbn [int_of B64.numeric] in Ei. unfold B64.to_float.
  destruct (B64.of_int k) as [s|s| |s m e]; cbn [B64.int_of] in Ei;
    try discriminate Ei; (split; [reflexivity|]); cbn [B64.whole];
    inversion Ei; reflexivity.
Qed.

Lemma pow_small (x : spec_float) (i : Z) :
  - 2 ^ 53 < i < 2 ^ 53 -> B64.pow x i = B64.pow_whole x i.
Proof.
  intros Hi. destruct (to_float_small i Hi) as [E W].
  unfold B64.pow. rewrite E. cbn [bind]. rewrite W. reflexivity.
Qed.

Lemma pow_whole_no_zero_division (r : spec_float) (j : Z) (m : string) :
  0 <= j -> B64.pow_whole r j <> Raise (ZeroDivisionError m).
Proof.
  intros Hj. unfold B64.pow_whole.
  destruct (Z.eqb_spec j 0) as [->|N]; [discriminate|].
  destruct r as [s|s| |s mr e]; try discriminate.
  - destruct (Z.ltb_spec j 0); [lia|discriminate].
  - destruct (Z.ltb_spec 0 j); discriminate.
  - destruct (B64.is_one _); [discriminate|].
    destruct (Z.ltb_spec 0 j); [|lia].
    destruct (binary_normalize _ _ _ _ _); discriminate.
Qed.

(** [r ** n] with [n > 0] never raises [ZeroDivisionError]. *)
Lemma pow_no_zero_division (r : spec_float) (n : Z) (m : string) :
  0 < n -> B64.pow r n <> Raise (ZeroDivisionError m).
Proof.
  intros Hn. unfold B64.pow, B64.to_float.
  pose proof (of_int_whole n ltac:(lia)) as W.
  destruct (B64.of_int n) as [s|s| |s mz ez]; cbn [bind];
    try discriminate; apply pow_whole_no_zero_division; exact W.
Qed.

End Conversion.

(** The largest [int] the conversion accepts is [2^1024 - 2^970 - 1],
    which rounds to the largest float; the next one rounds to [2^1024] and
    is refused. *)
Example to_float_border :
  B64.to_float (2 ^ 1024 - 2 ^ 970 - 1)
  = Ok (S754_finite false (Z.to_pos (2 ^ 53 - 1)) 971) /\
  B64.to_float (2 ^ 1024 - 2 ^ 970)
  = Raise (OverflowError "int too large to convert to float") /\
  B64.to_float (- (2 ^ 1024 - 2 ^ 970))
  = Raise (OverflowError "int too large to convert to float").
Proof. repeat split; vm_compute; reflexivity. Qed.

(** [n * first_term] with [common_ratio == 1.0] and [n = 2 ** 1024]: the
    conversion of [n] is refused, and so is the sum. *)
Example geometric_sum_of_too_many_terms :
  App1.calculate_geometric_sum (B64.lit 5 1) (B64.lit 1 1) (2 ^ 1024)
  = Raise (OverflowError "int too large to convert to float").
Proof. vm_compute. reflexivity. Qed.

(** C4. For every term count [n > 0] and every float [common_ratio],
    [calculate_geometric_sum] evaluates [n * first_term] when
    [common_ratio == 1] and
    [first_term * (1 - common_ratio ** n) / (1 - common_ratio)] otherwise,
    and returns the value. The conversion of [n] in [n * first_term] is
    exact and accepted for [n < 2^53]. On the other branch the divisor is
    not zero, so the function never raises [ZeroDivisionError]: the only
    exceptions it can raise are the [OverflowError] of the conversion of
    [n], on the first branch, and the exception of [common_ratio ** n], on
    the second. *)
Theorem calculate_geometric_sum_branches :
  forall (a r : spec_float) (n : Z),
    0 < n ->
    valid_binary B64.prec B64.emax r = true ->
    (eq_int r 1 = true ->
     App1.calculate_geometric_sum a r n
     = (k <- to_float n ;; Ok (Float (mul k a)))) /\
    (eq_int r 1 = true -> n < 2 ^ 53 ->
     App1.calculate_geometric_sum a r n = Ok (Float (mul (of_int n) a))) /\
    (eq_int r 1 = false ->
     App1.calculate_geometric_sum a r n
     = (p <- pow r n ;;
        q <- truediv (mul a (sub (of_int 1) p)) (sub (of_int 1) r) ;;
        Ok (Float q))) /\
    (forall x : spec_float,
        eq_int r 1 = false ->
        truediv x (sub (of_int 1) r)
        = Ok (SFdiv B64.prec B64.emax x (sub (of_int 1) r))) /\
    (forall m : string,
        App1.calculate_geometric_sum a r n <> Raise (ZeroDivisionError m)) /\
    (forall e : exn,
        App1.calculate_geometric_sum a r n = Raise e ->
        (eq_int r 1 = true /\ B64.to_float n = Raise e /\
         e = OverflowError "int too large to convert to float") \/
        (eq_int r 1 = false /\ pow r n = Raise e)).
Proof.
  intros a r n Hn V.
  assert (D : forall x : spec_float,
             eq_int r 1 = false ->
             truediv x (sub (of_int 1) r)
             = Ok (SFdiv B64.prec B64.emax x (sub (of_int 1) r))).
  { intros x E. cbn [truediv sub of_int eq_int B64.numeric] in *.
    unfold B64.truediv.
    destruct (B64.sub (B64.of_int 1) r) as [z| | |] eqn:S; try reflexivity.
    exfalso. exact (one_minus_nonzero r z V E S). }
  assert (T : forall e : exn,
             B64.to_float n = Raise e ->
             e = OverflowError "int too large to convert to float").
  { intros e. unfold B64.to_float.
    destruct (B64.of_int n); intros H; inversion H; reflexivity. }
  unfold App1.calculate_geometric_sum.
  destruct (Z.leb_spec n 0) as [L|_]; [lia|].
  destruct (eq_int r 1) eqn:E.
  - split; [reflexivity|]. split.
    { intros _ Hs. destruct (to_float_small n ltac:(lia)) as [Et _].
      cbn [to_float B64.numeric]. rewrite Et. reflexivity. }
    split; [discriminate|]. split; [exact D|].
    cbn [to_float B64.numeric].
    destruct (B64.to_float n) as [k|e0] eqn:K; cbn [bind].
    + split; [discriminate|]. intros e; discriminate.
    + split.
      * intros m Hz. inversion Hz; subst.
        specialize (T _ eq_refl). discriminate T.
      * intros e Hz. inversion Hz; subst. left.
        split; [reflexivity|]. split; [reflexivity|]. apply T. reflexivity.
  - split; [discriminate|]. split; [discriminate|].
    split; [reflexivity|]. split; [exact D|].
    destruct (pow r n) as [p|e0] eqn:P; cbn [bind].
    + rewrite (D _ eq_refl). cbn [bind]. split; [discriminate|].
      intros e; discriminate.
    + split.
      * intros m Hz. inversion Hz; subst.
        exact (pow_no_zero_division r n m Hn P).
      * intros e Hz. inversion Hz. right. split; reflexivity.
Qed.

Lemma calculate_geometric_sum_branches_witness :
  0 < 6 /\
  valid_binary B64.prec B64.emax (B64.lit 1 2) = true /\
  App1.calculate_geometric_sum (B64.lit 100 1) (B64.lit 1 2) 6
  = (p <- pow (B64.lit 1 2) 6 ;;
     q <- truediv (mul (B64.lit 100 1) (sub (of_int 1) p))
                  (sub (of_int 1) (B64.lit 1 2)) ;;
     Ok (Float q)) /\
  forall m : string,
    App1.calculate_geometric_sum (B64.lit 100 1) (B64.lit 1 2) 6
    <> Raise (ZeroDivisionError m).
Proof.
  split; [lia|]. split; [reflexivity|].
  destruct (calculate_geometric_sum_branches
              (B64.lit 100 1) (B64.lit 1 2) 6) as [_ [_ [H2 [_ [H4 _]]]]];
    [lia|reflexivity|].
  split; [apply H2; reflexivity|exact H4].
Defined.

(** ** Formatting *)

Lemma for_each_ext {A S : Type} (f g : S -> A -> result S) :
  (forall s x, f s x = g s x) ->
  forall (xs : list A) (s : S), for_each xs s f = for_each xs s g.
Proof.
  intros E. induction xs as [|x xs IH]; intros s; simpl; [reflexivity|].
  rewrite E. destruct (g s x); simpl; [apply IH|reflexivity].
Qed.

Lemma uint_no_point (d : Decimal.uint) :
  ~ In "."%char (chars (NilEmpty.string_of_uint d)).
Proof.
  induction d; simpl; intros H; [exact H|..];
    (destruct H as [H|H]; [discriminate H|auto]).
Qed.

Lemma str_int_no_point (k : Z) : ~ In "."%char (chars (str_int k)).
Proof.
  unfold str_int, NilZero.string_of_int, NilZero.string_of_uint.
  destruct (Z.to_int k) as [d|d]; destruct d; simpl;
    intros H; repeat (destruct H as [H|H]; [discriminate H|]);
    try exact H; now apply uint_no_point in H.
Qed.

Section Formatting.
Context {F : Type} {num : PyFloat F}.

Lemma format_as_traverse (x : F) (xs : list F) :
  App1.format_sequence_display (x :: xs)
  = (texts <- traverse render_term (x :: xs) ;;
     Ok (String.concat ", " texts)).
Proof.
  unfold App1.format_sequence_display.
  rewrite (for_each_ext _
             (fun (s : list string) (t : F) =>
                y <- render_term t ;; Ok (s ++ [y])%list)).
  - rewrite (for_each_collect render_term).
    destruct (traverse render_term (x :: xs)); reflexivity.
  - intros s t. unfold render_term.
    destruct (int_of t) as [k|e]; simpl; [|reflexivity].
    destruct (eq_int t k); simpl; [|reflexivity].
    destruct (int_of t); reflexivity.
Qed.

Lemma render_finite (t : F) :
  finite t -> exists s, render_term t = Ok s /\ rendered t s.
Proof.
  intros [k Ek]. unfold render_term, rendered. rewrite Ek. simpl.
  destruct (eq_int t k) eqn:E.
  - exists (str_int k). split; [reflexivity|].
    exists k. split; [reflexivity|]. left.
    repeat split; [assumption|apply str_int_no_point].
  - exists (format_6g t). split; [reflexivity|].
    exists k. split; [reflexivity|]. now right.
Qed.

Lemma render_all_finite (xs : list F) :
  Forall finite xs ->
  exists texts, traverse render_term xs = Ok texts /\
                Forall2 rendered xs texts.
Proof.
  induction 1 as [|t xs Ht _ [texts [Et Ft]]]; simpl.
  - now exists [].
  - destruct (render_finite t Ht) as [s [Es Rs]].
    exists (s :: texts). rewrite Es, Et. simpl. split; [reflexivity|].
    now constructor.
Qed.

Lemma render_not_finite (t : F) : raises (int_of t) -> raises (render_term t).
Proof. intros [e Ee]. exists e. unfold render_term. now rewrite Ee. Qed.

End Formatting.

(** C6, as stated, fails on a list holding an infinity, and the generator
    returns such a list from finite floats: with [first_term] and
    [common_difference] both [2.0 ** 1023] the second term is [inf], and
    [int(inf)] raises [OverflowError] instead of a text being returned. *)
Lemma format_sequence_display_infinity :
  finite B64.two_1023 /\
  App.generate_arithmetic_sequence B64.two_1023 B64.two_1023 2
  = Ok [B64.two_1023; B64.infinity] /\
  App.format_sequence_display [B64.two_1023; B64.infinity]
  = Raise (OverflowError "cannot convert float infinity to integer") /\
  ~ (exists text : string,
        App.format_sequence_display [B64.two_1023; B64.infinity] = Ok text).
Proof.
  split; [eexists; vm_compute; reflexivity|].
  split; [vm_compute; reflexivity|].
  assert (E : App.format_sequence_display [B64.two_1023; B64.infinity]
              = Raise (OverflowError "cannot convert float infinity to integer"))
    by (vm_compute; reflexivity).
  split; [exact E|]. intros [text Et]. rewrite E in Et. discriminate.
Qed.

(** C6, amended. [format_sequence_display] (of either file) returns
    ["No terms to display"] for the empty list. For a non-empty list of
    finite terms it returns the texts of the terms, in order, joined with
    [", "], where a term that equals its integer truncation is written as
    that integer, without a decimal point, and any other term with six
    significant digits in general format. When [int()] rejects a term (an
    infinity or a NaN) it raises. In particular the floats [1, 2, 3] give
    ["1, 2, 3"]. *)
Theorem format_sequence_display_renders :
  forall (F : Type) (num : PyFloat F) (sequence : list F),
    (sequence = [] ->
     App.format_sequence_display sequence = Ok "No terms to display" /\
     App1.format_sequence_display sequence = Ok "No terms to display") /\
    (sequence <> [] -> Forall finite sequence ->
     exists texts : list string,
       Forall2 rendered sequence texts /\
       App.format_sequence_display sequence
       = Ok (String.concat ", " texts) /\
       App1.format_sequence_display sequence
       = Ok (String.concat ", " texts)) /\
    ((exists t : F, In t sequence /\ raises (int_of t)) ->
     raises (App.format_sequence_display sequence) /\
     raises (App1.format_sequence_display sequence)) /\
    App.format_sequence_display (map B64.of_int [1; 2; 3]) = Ok "1, 2, 3" /\
    App.format_sequence_display (map Exact.of_int [1; 2; 3]) = Ok "1, 2, 3".
Proof.
  intros F num sequence. split; [|split; [|split]].
  - intros ->. split; reflexivity.
  - intros Hne Hfin. rewrite same_format.
    destruct sequence as [|x xs]; [contradiction|].
    destruct (render_all_finite (x :: xs) Hfin) as [texts [Et Ft]].
    exists texts. rewrite format_as_traverse, Et. repeat split; assumption.
  - intros [t [Ht Rt]]. rewrite same_format.
    destruct sequence as [|x xs]; [destruct Ht|].
    rewrite format_as_traverse.
    destruct (traverse_raises render_term (x :: xs)) as [e Ee].
    { exists t. split; [assumption|]. now apply render_not_finite. }
    rewrite Ee. split; now exists e.
  - split; vm_compute; reflexivity.
Qed.

Lemma format_sequence_display_renders_witness :
  [B64.lit 1 2; B64.lit 1 3; B64.lit 2 1] <> [] /\
  Forall finite [B64.lit 1 2; B64.lit 1 3; B64.lit 2 1] /\
  exists texts : list string,
    Forall2 rendered [B64.lit 1 2; B64.lit 1 3; B64.lit 2 1] texts /\
    App.format_sequence_display [B64.lit 1 2; B64.lit 1 3; B64.lit 2 1]
    = Ok (String.concat ", " texts) /\
    App1.format_sequence_display [B64.lit 1 2; B64.lit 1 3; B64.lit 2 1]
    = Ok (String.concat ", " texts).
Proof.
  assert (Hne : [B64.lit 1 2; B64.lit 1 3; B64.lit 2 1] <> [])
    by discriminate.
  assert (Hfin : Forall finite [B64.lit 1 2; B64.lit 1 3; B64.lit 2 1])
    by (repeat constructor; eexists; vm_compute; reflexivity).
  split; [exact Hne|]. split; [exact Hfin|].
  exact (proj1 (proj2 (format_sequence_display_renders
                         spec_float B64.numeric
                         [B64.lit 1 2; B64.lit 1 3; B64.lit 2 1]))
               Hne Hfin).
Defined.

(** ** Text inside a text *)

Lemma string_app_assoc (s t u : string) : (s ++ t) ++ u = s ++ (t ++ u).
Proof. induction s as [|c s IH]; simpl; [reflexivity|]. now rewrite IH. Qed.

Lemma substring_here (s post : string) : Substring s (s ++ post).
Proof. exists "", post. reflexivity. Qed.

Lemma substring_here2 (s1 s2 post : string) :
  Substring (s1 ++ s2) (s1 ++ s2 ++ post).
Proof. exists "", post. simpl. now rewrite string_app_assoc. Qed.

Lemma substring_here3 (s1 s2 s3 post : string) :
  Substring (s1 ++ s2 ++ s3) (s1 ++ s2 ++ s3 ++ post).
Proof. exists "", post. simpl. now rewrite !string_app_assoc. Qed.

Lemma substring_skip (s p t : string) : Substring s t -> Substring s (p ++ t).
Proof.
  intros [pre [post E]]. exists (p ++ pre), post.
  now rewrite E, string_app_assoc.
Qed.

(** ** One run of [main] *)

Section Runs.
Context {F : Type} {num : PyFloat F}.

Lemma app1_artifact (rq : request F) :
  artifact (fst (App1.main rq))
  = if accepted rq then
      match App1.compute (selected_type rq) (first_term rq)
                         (second_param rq) (num_terms rq) with
      | Ok (x0 :: rest, calculated_sum) =>
          match App1.format_sequence_display (x0 :: rest) with
          | Ok formatted_sequence =>
              Some (App1.sequence_text (selected_type rq) (first_term rq)
                      (second_param rq) (num_terms rq)
                      formatted_sequence calculated_sum)
          | Raise _ => None
          end
      | _ => None
      end
    else None.
Proof.
  unfold App1.main, accepted.
  destruct (1000 <? num_terms rq); [reflexivity|].
  destruct (num_terms rq <=? 0); [reflexivity|].
  destruct (clicked_after (button_pressed rq) (generate_clicked rq));
    [|reflexivity].
  cbn [andb negb].
  unfold try_except, App1.generation, ui_bind, lift.
  destruct (App1.compute _ _ _ _) as [[[|x0 rest] calculated_sum]|e];
    try reflexivity.
  cbv beta iota. unfold emit at 1 2 3 4 5. cbv beta iota.
  destruct (App1.format_sequence_display (x0 :: rest)) as [text|e];
    [|reflexivity].
  destruct (1 <? List.length (x0 :: rest))%nat; reflexivity.
Qed.

Lemma app_artifact (rq : request F) :
  artifact (fst (App.main rq))
  = if accepted rq then
      match App.generate_arithmetic_sequence
              (first_term rq) (second_param rq) (num_terms rq) with
      | Ok (x0 :: rest) =>
          match App.format_sequence_display (x0 :: rest) with
          | Ok formatted_sequence =>
              Some (App.sequence_text (first_term rq) (second_param rq)
                      (num_terms rq) formatted_sequence)
          | Raise _ => None
          end
      | _ => None
      end
    else None.
Proof.
  unfold App.main, accepted.
  destruct (1000 <? num_terms rq); [reflexivity|].
  destruct (num_terms rq <=? 0); [reflexivity|].
  destruct (clicked_after (button_pressed rq) (generate_clicked rq));
    [|reflexivity].
  cbn [andb negb].
  unfold try_except, App.generation, ui_bind, lift.
  destruct (App.generate_arithmetic_sequence _ _ _) as [[|x0 rest]|e];
    try reflexivity.
  cbv beta iota. unfold emit at 1 2 3 4 5. cbv beta iota.
  destruct (App.format_sequence_display (x0 :: rest)) as [text|e];
    [|reflexivity].
  destruct (1 <? List.length (x0 :: rest))%nat; reflexivity.
Qed.

End Runs.

(** C8, as stated, fails for [src/app.py]: with [first_term = 1],
    [common_difference = 1] and ten terms the generation succeeds, the
    closed-form sum is [55], and the text offered for download has no sum
    in it. *)
Lemma download_without_sum :
  artifact (fst (App.main (mk_request Arithmetic (B64.lit 1 1) (B64.lit 1 1) 10)))
  = Some ("Arithmetic Sequence" ++ nl ++ "First Term: 1" ++ nl
          ++ "Common Difference: 1" ++ nl ++ "Number of Terms: 10" ++ nl
          ++ "Sequence: 1, 2, 3, 4, 5, 6, 7, 8, 9, 10" ++ nl) /\
  (s <- App1.calculate_arithmetic_sum (B64.lit 1 1) (B64.lit 1 1) 10 ;;
   Ok (format_number s)) = Ok "55" /\
  option_map (fun data => contains data "55")
    (artifact (fst (App.main
                      (mk_request Arithmetic (B64.lit 1 1) (B64.lit 1 1) 10))))
  = Some false /\
  option_map (fun data => contains data "Sum")
    (artifact (fst (App.main
                      (mk_request Arithmetic (B64.lit 1 1) (B64.lit 1 1) 10))))
  = Some false.
Proof. repeat split; vm_compute; reflexivity. Qed.

(** C8, amended. Whenever the file with both sequence types offers a
    download, its text contains the sequence-type label, the first term,
    the label and value of the step, the term count, the formatted
    sequence and the closed-form sum. Whenever [src/app.py] offers a
    download, its text is made of the type label, the first term, the
    common difference, the term count and the formatted sequence. *)
Theorem download_contents :
  forall (F : Type) (num : PyFloat F) (rq : request F) (data : string),
    (artifact (fst (App1.main rq)) = Some data ->
     exists (sequence : list F) (calculated_sum : number F)
            (formatted_sequence : string),
       App1.compute (selected_type rq) (first_term rq) (second_param rq)
                    (num_terms rq) = Ok (sequence, calculated_sum) /\
       App1.format_sequence_display sequence = Ok formatted_sequence /\
       Substring (type_name (selected_type rq) ++ " Sequence") data /\
       Substring ("First Term: " ++ format_6g (first_term rq)) data /\
       Substring (App1.step_label (selected_type rq) ++ ": "
                  ++ format_6g (second_param rq)) data /\
       Substring ("Number of Terms: " ++ str_int (num_terms rq)) data /\
       Substring ("Sequence: " ++ formatted_sequence) data /\
       Substring ("Sum of Series: " ++ format_number calculated_sum) data) /\
    (artifact (fst (App.main rq)) = Some data ->
     exists (sequence : list F) (formatted_sequence : string),
       App.generate_arithmetic_sequence (first_term rq) (second_param rq)
                                        (num_terms rq) = Ok sequence /\
       App.format_sequence_display sequence = Ok formatted_sequence /\
       data = App.sequence_text (first_term rq) (second_param rq)
                                (num_terms rq) formatted_sequence /\
       Substring "Arithmetic Sequence" data /\
       Substring ("First Term: " ++ format_6g (first_term rq)) data /\
       Substring ("Common Difference: " ++ format_6g (second_param rq)) data /\
       Substring ("Number of Terms: " ++ str_int (num_terms rq)) data /\
       Substring ("Sequence: " ++ formatted_sequence) data).
Proof.
  intros F num rq data. split.
  - rewrite app1_artifact. destruct (accepted rq); [|discriminate].
    destruct (App1.compute _ _ _ _) as [[[|x0 rest] calculated_sum]|e];
      try discriminate.
    destruct (App1.format_sequence_display (x0 :: rest)) as [text|e] eqn:Et;
      [|discriminate].
    intros E. inversion E; subst data. clear E.
    exists (x0 :: rest), calculated_sum, text.
    split; [reflexivity|]. split; [exact Et|].
    unfold App1.sequence_text. repeat split.
    + apply substring_here2.
    + do 3 apply substring_skip. apply substring_here2.
    + do 6 apply substring_skip. apply substring_here3.
    + do 10 apply substring_skip. apply substring_here2.
    + do 13 apply substring_skip. apply substring_here2.
    + do 16 apply substring_skip. apply substring_here2.
  - rewrite app_artifact. destruct (accepted rq); [|discriminate].
    destruct (App.generate_arithmetic_sequence _ _ _) as [[|x0 rest]|e];
      try discriminate.
    destruct (App.format_sequence_display (x0 :: rest)) as [text|e] eqn:Et;
      [|discriminate].
    intros E. inversion E; subst data. clear E.
    exists (x0 :: rest), text.
    split; [reflexivity|]. split; [exact Et|]. split; [reflexivity|].
    unfold App.sequence_text. repeat split.
    + apply substring_here.
    + do 2 apply substring_skip. apply substring_here2.
    + do 5 apply substring_skip. apply substring_here2.
    + do 8 apply substring_skip. apply substring_here2.
    + do 11 apply substring_skip. apply substring_here2.
Qed.

(** ** The error widgets of a run *)

Section Errors.
Context {F : Type} {num : PyFloat F}.

Ltac in_list :=
  repeat (rewrite in_app_iff in *; cbn [In] in * );
  repeat match goal with
         | H : _ \/ _ |- _ => destruct H
         | H : False |- _ => destruct H
         | H : _ = st_error _ |- _ => first [discriminate H | inversion H; clear H; subst]
         end.

Lemma app1_errors (rq : request F) (msg : string) :
  num_terms rq <= 1000 -> 0 < num_terms rq ->
  In (st_error msg) (fst (App1.main rq)) ->
  (exists e : exn,
      App1.compute (selected_type rq) (first_term rq) (second_param rq)
                   (num_terms rq) = Raise e /\
      msg = msg_failed ++ exn_message e) \/
  (exists (sequence : list F) (calculated_sum : number F) (e : exn),
      App1.compute (selected_type rq) (first_term rq) (second_param rq)
                   (num_terms rq) = Ok (sequence, calculated_sum) /\
      App1.format_sequence_display sequence = Raise e /\
      msg = msg_failed ++ exn_message e).
Proof.
  intros Hmax Hmin. unfold App1.main.
  destruct (Z.ltb_spec 1000 (num_terms rq)) as [L|_]; [lia|].
  destruct (Z.leb_spec (num_terms rq) 0) as [L|_]; [lia|].
  cbn [fst].
  destruct (clicked_after (button_pressed rq) (generate_clicked rq)).
  - unfold try_except, App1.generation, App1.handler, ui_bind, lift.
    destruct (App1.compute _ _ _ _) as [[[|x0 rest] calculated_sum]|e] eqn:Ec.
    + unfold ui_ret, App1.page. cbn [fst]. intros H. in_list.
    + cbv beta iota. unfold emit at 1 2 3 4 5. cbv beta iota.
      destruct (App1.format_sequence_display (x0 :: rest)) as [text|e] eqn:Ef.
      * destruct (1 <? List.length (x0 :: rest))%nat;
          unfold emit, ui_ret, App1.page; cbn [fst]; intros H; in_list.
      * unfold emit, App1.page. cbn [fst]. intros H. in_list.
        right. exists (x0 :: rest), calculated_sum, e.
        split; [reflexivity|]. split; [exact Ef|reflexivity].
    + unfold emit, App1.page. cbn [fst]. intros H. in_list.
      left. exists e. split; reflexivity.
  - unfold App1.page. intros H. in_list.
Qed.

Lemma app_errors (rq : request F) (msg : string) :
  num_terms rq <= 1000 -> 0 < num_terms rq ->
  In (st_error msg) (fst (App.main rq)) ->
  exists (sequence : list F) (e : exn),
    App.generate_arithmetic_sequence (first_term rq) (second_param rq)
                                     (num_terms rq) = Ok sequence /\
    App.format_sequence_display sequence = Raise e /\
    msg = msg_failed ++ exn_message e.
Proof.
  intros Hmax Hmin. unfold App.main.
  destruct (Z.ltb_spec 1000 (num_terms rq)) as [L|_]; [lia|].
  destruct (Z.leb_spec (num_terms rq) 0) as [L|_]; [lia|].
  cbn [fst].
  destruct (clicked_after (button_pressed rq) (generate_clicked rq)).
  - unfold try_except, App.generation, App.handler, ui_bind, lift.
    rewrite same_generate_arithmetic, arithmetic_as_map.
    destruct (map _ (range (num_terms rq))) as [|x0 rest] eqn:Es.
    + unfold ui_ret, App.page. cbn [fst]. intros H. in_list.
    + cbv beta iota. unfold emit at 1 2 3 4 5. cbv beta iota.
      destruct (App.format_sequence_display (x0 :: rest)) as [text|e] eqn:Ef.
      * destruct (1 <? List.length (x0 :: rest))%nat;
          unfold emit, ui_ret, App.page; cbn [fst]; intros H; in_list.
      * unfold emit, App.page. cbn [fst]. intros H. in_list.
        exists (x0 :: rest), e.
        split; [reflexivity|]. split; [exact Ef|reflexivity].
  - unfold App.page. intros H. in_list.
Qed.

End Errors.

(** ** Runs over exact arithmetic *)

Lemma range_cons (n : Z) : 0 < n -> exists tl : list Z, range n = 0 :: tl.
Proof.
  intros Hn. unfold range.
  destruct (Z.to_nat n) as [|k] eqn:E; [lia|].
  exists (map Z.of_nat (seq 1 k)). reflexivity.
Qed.

Lemma exact_all_finite (xs : list Qc) : Forall finite xs.
Proof.
  induction xs as [|x xs IH]; constructor; [|exact IH].
  eexists. reflexivity.
Qed.

Lemma exact_format_ok (sequence : list Qc) :
  exists text : string, App1.format_sequence_display sequence = Ok text.
Proof.
  destruct sequence as [|x xs]; [now eexists|].
  destruct (render_all_finite (x :: xs) (exact_all_finite _)) as [texts [E _]].
  rewrite format_as_traverse, E. now eexists.
Qed.

Lemma exact_compute_ok (t : sequence_type) (a step : Qc) (n : Z) :
  0 < n ->
  exists (x0 : Qc) (rest : list Qc) (calculated_sum : number Qc),
    App1.compute t a step n = Ok (x0 :: rest, calculated_sum).
Proof.
  intros Hn. destruct (range_cons n Hn) as [tl Etl].
  unfold App1.compute. destruct t.
  - rewrite arithmetic_as_map, Etl. cbn [map bind].
    unfold App1.calculate_arithmetic_sum.
    destruct (Z.leb_spec n 0) as [L|_]; [lia|].
    cbn [int_truediv Exact.numeric]. unfold Exact.int_truediv.
    change (Exact.truediv (Exact.of_int n) (Exact.of_int 2))
      with (truediv (Exact.of_int n) (Exact.of_int 2)).
    rewrite exact_of_int_2, exact_truediv by exact two_nonzero.
    cbn [bind]. now do 3 eexists.
  - rewrite exact_geometric_as_map, Etl. cbn [map bind].
    destruct (exact_calculate_geometric_sum a step n Hn) as [H1 H2].
    destruct (Qc_eq_dec step (Exact.of_int 1)) as [E|E].
    + rewrite (H1 E). cbn [bind]. now do 3 eexists.
    + rewrite (H2 E). cbn [bind]. now do 3 eexists.
Qed.

Lemma download_contents_witness :
  let rq := mk_request Geometric (B64.lit 1 1) (B64.lit 2 1) 8 in
  let data := "Geometric Sequence" ++ nl ++ "First Term: 1" ++ nl
              ++ "Common Ratio: 2" ++ nl ++ "Number of Terms: 8" ++ nl
              ++ "Sequence: 1, 2, 4, 8, 16, 32, 64, 128" ++ nl
              ++ "Sum of Series: 255" ++ nl in
  artifact (fst (App1.main rq)) = Some data /\
  exists (sequence : list spec_float) (calculated_sum : number spec_float)
         (formatted_sequence : string),
    App1.compute (selected_type rq) (first_term rq) (second_param rq)
                 (num_terms rq) = Ok (sequence, calculated_sum) /\
    App1.format_sequence_display sequence = Ok formatted_sequence /\
    Substring (type_name (selected_type rq) ++ " Sequence") data /\
    Substring ("First Term: " ++ format_6g (first_term rq)) data /\
    Substring (App1.step_label (selected_type rq) ++ ": "
               ++ format_6g (second_param rq)) data /\
    Substring ("Number of Terms: " ++ str_int (num_terms rq)) data /\
    Substring ("Sequence: " ++ formatted_sequence) data /\
    Substring ("Sum of Series: " ++ format_number calculated_sum) data.
Proof.
  intros rq data.
  assert (E : artifact (fst (App1.main rq)) = Some data)
    by (vm_compute; reflexivity).
  split; [exact E|].
  exact (proj1 (download_contents spec_float B64.numeric rq data) E).
Defined.

(** * Further properties of the two programs *)

(** ** Runs of the script, one after the other *)

(** X1. Streamlit runs the script again on every interaction. A run of
    either [main] on the inputs of the previous run, with the button not
    pressed and the session entry that run left, renders the same page and
    leaves the same entry. *)
Theorem rerun_is_stable :
  forall (F : Type) (num : PyFloat F) (rq : request F),
    App.main (next_request rq (snd (App.main rq))) = App.main rq /\
    App1.main (next_request rq (snd (App1.main rq))) = App1.main rq.
Proof.
  intros F num rq. unfold App.main, App1.main. cbn [num_terms next_request].
  destruct (1000 <? num_terms rq); [split; reflexivity|].
  destruct (num_terms rq <=? 0); [split; reflexivity|].
  cbn [snd button_pressed generate_clicked first_term second_param
       selected_type next_request].
  assert (E : clicked_after false
                (Some (clicked_after (button_pressed rq) (generate_clicked rq)))
              = clicked_after (button_pressed rq) (generate_clicked rq))
    by reflexivity.
  rewrite E. split; reflexivity.
Qed.

(** ** The page of a run, widget by widget *)

Section Pages.
Context {F : Type} {num : PyFloat F}.

Lemma accepted_inv (rq : request F) :
  accepted rq = true ->
  (1000 <? num_terms rq) = false /\ (num_terms rq <=? 0) = false /\
  clicked_after (button_pressed rq) (generate_clicked rq) = true.
Proof.
  unfold accepted. intros H.
  apply andb_prop in H. destruct H as [H H3].
  apply andb_prop in H. destruct H as [H1 H2].
  apply negb_true_iff in H1. apply negb_true_iff in H2. auto.
Qed.

Lemma accepted_intro (rq : request F) :
  0 < num_terms rq <= 1000 ->
  clicked_after (button_pressed rq) (generate_clicked rq) = true ->
  accepted rq = true.
Proof.
  intros [Hmin Hmax] Hc. unfold accepted. rewrite Hc.
  destruct (Z.ltb_spec 1000 (num_terms rq)) as [L|_]; [lia|].
  destruct (Z.leb_spec (num_terms rq) 0) as [L|_]; [lia|]. reflexivity.
Qed.

Lemma app_page_ok (rq : request F) (x0 : F) (rest : list F) (text : string) :
  accepted rq = true ->
  App.generate_arithmetic_sequence (first_term rq) (second_param rq)
                                   (num_terms rq) = Ok (x0 :: rest) ->
  App.format_sequence_display (x0 :: rest) = Ok text ->
  fst (App.main rq)
  = (App.page
     ++ results_head "Generated Sequence" (format_6g (first_term rq))
          "Common Difference" (format_6g (second_param rq))
          (str_int (num_terms rq))
     ++ [st_code text]
     ++ (if (1 <? List.length (x0 :: rest))%nat then
           [ st_subheader "Additional Information:";
             st_info ("**Last Term:** " ++ format_6g (last (x0 :: rest) x0));
             st_info ("**Sum of Sequence:** "
                      ++ format_6g (py_sum (x0 :: rest)));
             st_info ("**Range:** "
                      ++ format_6g (sub (py_max x0 rest) (py_min x0 rest)));
             st_info ("**Formula:** "
                      ++ App.formula (first_term rq) (second_param rq)) ]
         else [])
     ++ [ st_download_button "📥 Download Sequence"
            (App.sequence_text (first_term rq) (second_param rq)
               (num_terms rq) text);
          st_expander "📚 Examples" ])%list.
Proof.
  intros Ha Eg Ef. destruct (accepted_inv rq Ha) as [H1 [H2 H3]].
  unfold App.main. rewrite H1, H2, H3. cbn [fst].
  unfold try_except, App.generation, ui_bind, lift. rewrite Eg.
  cbv beta iota. unfold emit at 1 2 3 4 5. cbv beta iota. rewrite Ef.
  destruct (1 <? List.length (x0 :: rest))%nat; reflexivity.
Qed.

Lemma app_page_format_error (rq : request F) (x0 : F) (rest : list F)
      (e : exn) :
  accepted rq = true ->
  App.generate_arithmetic_sequence (first_term rq) (second_param rq)
                                   (num_terms rq) = Ok (x0 :: rest) ->
  App.format_sequence_display (x0 :: rest) = Raise e ->
  fst (App.main rq)
  = (App.page
     ++ results_head "Generated Sequence" (format_6g (first_term rq))
          "Common Difference" (format_6g (second_param rq))
          (str_int (num_terms rq))
     ++ [ st_error (msg_failed ++ exn_message e);
          st_expander "📚 Examples" ])%list.
Proof.
  intros Ha Eg Ef. destruct (accepted_inv rq Ha) as [H1 [H2 H3]].
  unfold App.main. rewrite H1, H2, H3. cbn [fst].
  unfold try_except, App.generation, ui_bind, lift. rewrite Eg.
  cbv beta iota. unfold emit at 1 2 3 4 5. cbv beta iota. rewrite Ef.
  reflexivity.
Qed.

Lemma app1_page_ok (rq : request F) (x0 : F) (rest : list F)
      (calculated_sum : number F) (text : string) :
  accepted rq = true ->
  App1.compute (selected_type rq) (first_term rq) (second_param rq)
               (num_terms rq) = Ok (x0 :: rest, calculated_sum) ->
  App1.format_sequence_display (x0 :: rest) = Ok text ->
  fst (App1.main rq)
  = (App1.page
     ++ results_head
          ("Generated " ++ type_name (selected_type rq) ++ " Sequence")
          (format_6g (first_term rq))
          (App1.step_label (selected_type rq)) (format_6g (second_param rq))
          (str_int (num_terms rq))
     ++ [st_code text]
     ++ (if (1 <? List.length (x0 :: rest))%nat then
           [ st_subheader "Additional Information:";
             st_info ("**Last Term:** " ++ format_6g (last (x0 :: rest) x0));
             st_info ("**Sum of Series:** " ++ format_number calculated_sum);
             st_info ("**Sum (Verification):** "
                      ++ format_6g (py_sum (x0 :: rest)));
             st_info ("**Range:** "
                      ++ format_6g (sub (py_max x0 rest) (py_min x0 rest)));
             st_info ("**Formula:** "
                      ++ App1.formula (selected_type rq) (first_term rq)
                           (second_param rq)) ]
         else [])
     ++ [ st_download_button "📥 Download Sequence"
            (App1.sequence_text (selected_type rq) (first_term rq)
               (second_param rq) (num_terms rq) text calculated_sum);
          st_expander "📚 Examples" ])%list.
Proof.
  intros Ha Ec Ef. destruct (accepted_inv rq Ha) as [H1 [H2 H3]].
  unfold App1.main. rewrite H1, H2, H3. cbn [fst].
  unfold try_except, App1.generation, ui_bind, lift. rewrite Ec.
  cbv beta iota. unfold emit at 1 2 3 4 5. cbv beta iota. rewrite Ef.
  destruct (1 <? List.length (x0 :: rest))%nat; reflexivity.
Qed.

Lemma app1_page_format_error (rq : request F) (x0 : F) (rest : list F)
      (calculated_sum : number F) (e : exn) :
  accepted rq = true ->
  App1.compute (selected_type rq) (first_term rq) (second_param rq)
               (num_terms rq) = Ok (x0 :: rest, calculated_sum) ->
  App1.format_sequence_display (x0 :: rest) = Raise e ->
  fst (App1.main rq)
  = (App1.page
     ++ results_head
          ("Generated " ++ type_name (selected_type rq) ++ " Sequence")
          (format_6g (first_term rq))
          (App1.step_label (selected_type rq)) (format_6g (second_param rq))
          (str_int (num_terms rq))
     ++ [ st_error (msg_failed ++ exn_message e);
          st_expander "📚 Examples" ])%list.
Proof.
  intros Ha Ec Ef. destruct (accepted_inv rq Ha) as [H1 [H2 H3]].
  unfold App1.main. rewrite H1, H2, H3. cbn [fst].
  unfold try_except, App1.generation, ui_bind, lift. rewrite Ec.
  cbv beta iota. unfold emit at 1 2 3 4 5. cbv beta iota. rewrite Ef.
  reflexivity.
Qed.

Lemma app1_page_compute_error (rq : request F) (e : exn) :
  accepted rq = true ->
  App1.compute (selected_type rq) (first_term rq) (second_param rq)
               (num_terms rq) = Raise e ->
  fst (App1.main rq)
  = (App1.page ++ [ st_error (msg_failed ++ exn_message e);
                    st_expander "📚 Examples" ])%list.
Proof.
  intros Ha Ec. destruct (accepted_inv rq Ha) as [H1 [H2 H3]].
  unfold App1.main. rewrite H1, H2, H3. cbn [fst].
  unfold try_except, App1.generation, ui_bind, lift. rewrite Ec.
  reflexivity.
Qed.

(** For a positive term count a generator that returns, returns terms. *)
Lemma generated_nonempty (a d : F) (n : Z) :
  0 < n ->
  exists (x0 : F) (rest : list F),
    App.generate_arithmetic_sequence a d n = Ok (x0 :: rest) /\
    x0 :: rest = map (arithmetic_term a d) (range n).
Proof.
  intros Hn. rewrite same_generate_arithmetic, arithmetic_as_map.
  destruct (range_cons n Hn) as [tl E]. rewrite E. cbn [map].
  now do 2 eexists.
Qed.

Lemma traverse_cons_ok {A B : Type} (f : A -> result B) (x : A)
      (xs : list A) (ys : list B) :
  traverse f (x :: xs) = Ok ys -> exists y ys', ys = y :: ys'.
Proof.
  cbn [traverse]. destruct (f x) as [y|e]; cbn [bind]; [|discriminate].
  destruct (traverse f xs) as [ys'|e]; cbn [bind]; [|discriminate].
  intros E. inversion E. now do 2 eexists.
Qed.

Lemma computed_nonempty (t : sequence_type) (a step : F) (n : Z)
      (s : list F) (total : number F) :
  0 < n -> App1.compute t a step n = Ok (s, total) ->
  exists (x0 : F) (rest : list F), s = x0 :: rest.
Proof.
  intros Hn. unfold App1.compute. destruct (range_cons n Hn) as [tl E].
  destruct t.
  - rewrite arithmetic_as_map, E. cbn [map bind].
    destruct (App1.calculate_arithmetic_sum a step n);
      cbn [bind]; [|discriminate].
    intros H. inversion H. now do 2 eexists.
  - rewrite geometric_as_traverse, E.
    destruct (traverse (geometric_term a step) (0 :: tl)) as [ys|e] eqn:T;
      cbn [bind]; [|discriminate].
    destruct (App1.calculate_geometric_sum a step n);
      cbn [bind]; [|discriminate].
    intros H. inversion H; subst. exact (traverse_cons_ok _ _ _ _ T).
Qed.

End Pages.

(** ** What a run ends in *)

(** X2. A run of either [main] that passes the validation and enters the
    [try] statement ends in exactly one of two ways: one error message and
    no download button, or one download button and no error message. In
    both cases the examples expander is rendered, once. *)
Theorem run_outcome :
  forall (F : Type) (num : PyFloat F) (rq : request F),
    accepted rq = true ->
    ((count is_error (fst (App.main rq)) = 1%nat /\
      count is_download (fst (App.main rq)) = 0%nat) \/
     (count is_error (fst (App.main rq)) = 0%nat /\
      count is_download (fst (App.main rq)) = 1%nat)) /\
    ((count is_error (fst (App1.main rq)) = 1%nat /\
      count is_download (fst (App1.main rq)) = 0%nat) \/
     (count is_error (fst (App1.main rq)) = 0%nat /\
      count is_download (fst (App1.main rq)) = 1%nat)) /\
    count is_expander (fst (App.main rq)) = 1%nat /\
    count is_expander (fst (App1.main rq)) = 1%nat.
Proof.
  intros F num rq Ha.
  destruct (accepted_inv rq Ha) as [_ [Hn _]]. apply Z.leb_gt in Hn.
  assert (A : ((count is_error (fst (App.main rq)) = 1%nat /\
                count is_download (fst (App.main rq)) = 0%nat) \/
               (count is_error (fst (App.main rq)) = 0%nat /\
                count is_download (fst (App.main rq)) = 1%nat)) /\
              count is_expander (fst (App.main rq)) = 1%nat).
  { destruct (generated_nonempty (first_term rq) (second_param rq)
                (num_terms rq) Hn) as [x0 [rest [Eg _]]].
    destruct (App.format_sequence_display (x0 :: rest)) as [text|e] eqn:Ef.
    - rewrite (app_page_ok rq x0 rest text Ha Eg Ef).
      destruct (1 <? List.length (x0 :: rest))%nat;
        (split; [right; split; reflexivity|reflexivity]).
    - rewrite (app_page_format_error rq x0 rest e Ha Eg Ef).
      split; [left; split; reflexivity|reflexivity]. }
  assert (B : ((count is_error (fst (App1.main rq)) = 1%nat /\
                count is_download (fst (App1.main rq)) = 0%nat) \/
               (count is_error (fst (App1.main rq)) = 0%nat /\
                count is_download (fst (App1.main rq)) = 1%nat)) /\
              count is_expander (fst (App1.main rq)) = 1%nat).
  { destruct (App1.compute (selected_type rq) (first_term rq)
                (second_param rq) (num_terms rq)) as [[s total]|e] eqn:Ec.
    - destruct (computed_nonempty _ _ _ _ s total Hn Ec) as [x0 [rest ->]].
      destruct (App1.format_sequence_display (x0 :: rest)) as [text|e] eqn:Ef.
      + rewrite (app1_page_ok rq x0 rest total text Ha Ec Ef).
        destruct (1 <? List.length (x0 :: rest))%nat;
          (split; [right; split; reflexivity|reflexivity]).
      + rewrite (app1_page_format_error rq x0 rest total e Ha Ec Ef).
        split; [left; split; reflexivity|reflexivity].
    - rewrite (app1_page_compute_error rq e Ha Ec).
      split; [left; split; reflexivity|reflexivity]. }
  destruct A as [A1 A2]. destruct B as [B1 B2]. repeat split; assumption.
Qed.

Lemma run_outcome_witness :
  let rq := mk_request Geometric (B64.lit 1 1) B64.two_600 3 in
  accepted rq = true /\
  count is_error (fst (App1.main rq)) = 1%nat /\
  count is_download (fst (App1.main rq)) = 0%nat /\
  count is_expander (fst (App1.main rq)) = 1%nat.
Proof.
  intros rq.
  assert (Ha : accepted rq = true) by reflexivity.
  split; [exact Ha|].
  destruct (run_outcome spec_float B64.numeric rq Ha) as [_ [[H|H] [_ He]]].
  - destruct H as [H1 H2]. repeat split; assumption.
  - exfalso. destruct H as [H1 _]. vm_compute in H1. discriminate H1.
Defined.

(** ** When a run fails, and what is left on the page *)

Lemma error_in_filter (ws : list widget) (msg : string) :
  In (st_error msg) ws -> In (st_error msg) (filter is_error ws).
Proof. intros H. apply filter_In. now split. Qed.

Section Failures.
Context {F : Type} {num : PyFloat F}.

Lemma render_raises_inv (t : F) (e : exn) :
  render_term t = Raise e -> int_of t = Raise e.
Proof.
  unfold render_term. destruct (int_of t) as [k|e']; cbn [bind].
  - destruct (eq_int t k); cbn [bind]; discriminate.
  - intros E. inversion E. reflexivity.
Qed.

Lemma traverse_raises_inv {A B : Type} (f : A -> result B) :
  forall (xs : list A) (e : exn),
    traverse f xs = Raise e -> exists x, In x xs /\ f x = Raise e.
Proof.
  induction xs as [|x xs IH]; cbn [traverse]; intros e E; [discriminate|].
  destruct (f x) as [y|e'] eqn:Ex; cbn [bind] in E.
  - destruct (traverse f xs) as [ys|e''] eqn:T; cbn [bind] in E;
      [discriminate|].
    inversion E; subst. destruct (IH e eq_refl) as [z [Hz Ez]].
    exists z. split; [now right|assumption].
  - inversion E; subst. exists x. split; [now left|assumption].
Qed.

Lemma format_raises_inv (sequence : list F) (e : exn) :
  App1.format_sequence_display sequence = Raise e ->
  exists t, In t sequence /\ int_of t = Raise e.
Proof.
  destruct sequence as [|x xs]; [discriminate|].
  rewrite format_as_traverse.
  destruct (traverse render_term (x :: xs)) as [texts|e'] eqn:T;
    cbn [bind]; [discriminate|].
  intros E. inversion E; subst.
  destruct (traverse_raises_inv render_term _ _ T) as [t [Ht Et]].
  exists t. split; [assumption|now apply render_raises_inv].
Qed.

End Failures.

(** X3. A run of [src/app.py] that enters the [try] statement succeeds
    exactly when [int()] accepts every generated term. When all terms are
    finite, the page shows the formatted sequence and offers it for
    download, with no error. When an error is shown, it carries the
    message of the exception [int()] raised on one of the terms, and the
    page keeps what was rendered before: the header and the three
    metrics, but neither the sequence nor the download. *)
Theorem app_run_and_finite_terms :
  forall (F : Type) (num : PyFloat F) (rq : request F),
    accepted rq = true ->
    (Forall finite
       (map (arithmetic_term (first_term rq) (second_param rq))
            (range (num_terms rq))) ->
     exists text : string,
       App.format_sequence_display
         (map (arithmetic_term (first_term rq) (second_param rq))
              (range (num_terms rq))) = Ok text /\
       In (st_code text) (fst (App.main rq)) /\
       artifact (fst (App.main rq))
       = Some (App.sequence_text (first_term rq) (second_param rq)
                 (num_terms rq) text) /\
       count is_error (fst (App.main rq)) = 0%nat) /\
    (forall msg : string,
        In (st_error msg) (fst (App.main rq)) ->
        exists (t : F) (e : exn),
          In t (map (arithmetic_term (first_term rq) (second_param rq))
                    (range (num_terms rq))) /\
          int_of t = Raise e /\
          msg = msg_failed ++ exn_message e /\
          fst (App.main rq)
          = (App.page
             ++ results_head "Generated Sequence"
                  (format_6g (first_term rq))
                  "Common Difference" (format_6g (second_param rq))
                  (str_int (num_terms rq))
             ++ [st_error msg; st_expander "📚 Examples"])%list).
Proof.
  intros F num rq Ha.
  destruct (accepted_inv rq Ha) as [_ [Hn _]]. apply Z.leb_gt in Hn.
  destruct (generated_nonempty (first_term rq) (second_param rq)
              (num_terms rq) Hn) as [x0 [rest [Eg Es]]].
  rewrite <- Es. split.
  - intros Hfin.
    destruct (render_all_finite (x0 :: rest) Hfin) as [texts [Et _]].
    assert (Ef : App.format_sequence_display (x0 :: rest)
                 = Ok (String.concat ", " texts)).
    { rewrite same_format, format_as_traverse, Et. reflexivity. }
    exists (String.concat ", " texts). split; [exact Ef|].
    rewrite (app_page_ok rq x0 rest _ Ha Eg Ef).
    split; [|split].
    + apply in_or_app. right. apply in_or_app. right. now left.
    + destruct (1 <? List.length (x0 :: rest))%nat; reflexivity.
    + destruct (1 <? List.length (x0 :: rest))%nat; reflexivity.
  - intros msg Hm.
    destruct (App.format_sequence_display (x0 :: rest)) as [text|e] eqn:Ef.
    + exfalso. apply error_in_filter in Hm.
      rewrite (app_page_ok rq x0 rest text Ha Eg Ef) in Hm.
      destruct (1 <? List.length (x0 :: rest))%nat; exact Hm.
    + rewrite same_format in Ef.
      destruct (format_raises_inv (x0 :: rest) e Ef) as [t [Ht Et]].
      rewrite <- same_format in Ef.
      pose proof (app_page_format_error rq x0 rest e Ha Eg Ef) as Ep.
      apply error_in_filter in Hm. rewrite Ep in Hm.
      destruct Hm as [Hm|[]]. inversion Hm as [Em].
      exists t, e. repeat split; try assumption. 
Qed.

Lemma app_run_and_finite_terms_witness :
  let rq := mk_request Arithmetic (B64.lit 1 2) (B64.lit 1 4) 8 in
  accepted rq = true /\
  exists text : string,
    App.format_sequence_display
      (map (arithmetic_term (first_term rq) (second_param rq))
           (range (num_terms rq))) = Ok text /\
    In (st_code text) (fst (App.main rq)) /\
    artifact (fst (App.main rq))
    = Some (App.sequence_text (first_term rq) (second_param rq)
              (num_terms rq) text) /\
    count is_error (fst (App.main rq)) = 0%nat.
Proof.
  intros rq.
  assert (Ha : accepted rq = true) by reflexivity.
  split; [exact Ha|].
  apply (proj1 (app_run_and_finite_terms spec_float B64.numeric rq Ha)).
  repeat constructor; eexists; vm_compute; reflexivity.
Defined.

(** ** What the error box can say on floats *)

Lemma b64_int_of_raises (t : spec_float) (e : exn) :
  B64.int_of t = Raise e ->
  e = OverflowError "cannot convert float infinity to integer" \/
  e = ValueError "cannot convert float NaN to integer".
Proof.
  destruct t as [s|s| |s m x]; cbn [B64.int_of]; intros E;
    try discriminate E; inversion E; auto.
Qed.

Lemma b64_pow_raises (r : spec_float) (i : Z) (e : exn) :
  0 <= i < 2 ^ 53 -> B64.pow r i = Raise e -> e = B64.range_error.
Proof.
  intros Hi. rewrite pow_small by lia. unfold B64.pow_whole.
  destruct (Z.eqb_spec i 0) as [_|Hne]; [discriminate|].
  destruct r as [s|s| |s m x]; try discriminate.
  - destruct (Z.ltb_spec i 0); [lia|discriminate].
  - destruct (Z.ltb_spec 0 i); discriminate.
  - destruct (B64.is_one _); [discriminate|].
    destruct (Z.ltb_spec 0 i); [|lia].
    destruct (binary_normalize _ _ _ _ _); try discriminate.
    intros E. now inversion E.
Qed.

Lemma b64_half_ok (n : Z) :
  0 < n <= 1000 -> exists h : spec_float, B64.int_truediv n 2 = Ok h.
Proof.
  intros Hn.
  assert (A : forallb (fun k => is_ok (B64.int_truediv k 2)) (range 1001)
              = true) by (vm_compute; reflexivity).
  rewrite forallb_forall in A.
  specialize (A n). rewrite range_In in A.
  destruct (B64.int_truediv n 2) as [h|e]; [now exists h|].
  discriminate A. lia.
Qed.

Lemma b64_geometric_sum_raises (a r : spec_float) (n : Z) (e : exn) :
  0 < n < 2 ^ 53 -> valid_binary B64.prec B64.emax r = true ->
  App1.calculate_geometric_sum a r n = Raise e -> e = B64.range_error.
Proof.
  intros Hn V. unfold App1.calculate_geometric_sum.
  destruct (Z.leb_spec n 0) as [L|_]; [lia|].
  destruct (eq_int r 1) eqn:E.
  { cbn [to_float B64.numeric].
    rewrite (proj1 (to_float_small n ltac:(lia))). discriminate. }
  destruct (pow r n) as [p|e0] eqn:P; cbn [bind].
  - cbn [truediv sub of_int eq_int B64.numeric] in *. unfold B64.truediv.
    destruct (B64.sub (B64.of_int 1) r) as [z| | |] eqn:S; try discriminate.
    exfalso. exact (one_minus_nonzero r z V E S).
  - intros H. inversion H; subst.
    apply (b64_pow_raises r n); [lia|exact P].
Qed.

Lemma b64_compute_raises (t : sequence_type) (a step : spec_float) (n : Z)
      (e : exn) :
  0 < n <= 1000 -> valid_binary B64.prec B64.emax step = true ->
  App1.compute t a step n = Raise e ->
  t = Geometric /\ e = B64.range_error.
Proof.
  intros Hn V. unfold App1.compute. destruct t.
  - rewrite arithmetic_as_map. cbn [bind].
    unfold App1.calculate_arithmetic_sum.
    destruct (Z.leb_spec n 0) as [L|_]; [lia|].
    destruct (b64_half_ok n Hn) as [h Eh].
    cbn [int_truediv to_float B64.numeric]. rewrite Eh.
    rewrite (proj1 (to_float_small (n - 1) ltac:(lia))). discriminate.
  - rewrite geometric_as_traverse.
    destruct (traverse (geometric_term a step) (range n)) as [s|e0] eqn:T;
      cbn [bind].
    + destruct (App1.calculate_geometric_sum a step n) as [v|e0] eqn:S;
        cbn [bind]; [discriminate|].
      intros H. inversion H; subst. split; [reflexivity|].
      apply (b64_geometric_sum_raises a step n); [lia|assumption..].
    + intros H. inversion H; subst. split; [reflexivity|].
      destruct (traverse_raises_inv _ _ _ T) as [i [Hi Ei]].
      apply range_In in Hi. unfold geometric_term in Ei.
      destruct (pow step i) as [p|e1] eqn:P; cbn [bind] in Ei;
        [discriminate|].
      inversion Ei; subst. apply (b64_pow_raises step i); [lia|exact P].
Qed.

(** X4. On Python floats, with a term count from 1 to 1000, the error
    message of a run of either [main] is one of three: the overflow of a
    power [common_ratio ** i], or the refusal of [int()] to convert an
    infinite term, or a NaN term. The first needs the geometric type: in
    [src/app.py], and with the arithmetic type, only a term that is not
    finite makes a run fail. *)
Theorem float_error_messages :
  forall (rq : request spec_float) (msg : string),
    0 < num_terms rq <= 1000 ->
    valid_binary B64.prec B64.emax (second_param rq) = true ->
    (In (st_error msg) (fst (App.main rq)) ->
     msg = msg_failed ++ "cannot convert float infinity to integer" \/
     msg = msg_failed ++ "cannot convert float NaN to integer") /\
    (In (st_error msg) (fst (App1.main rq)) ->
     (selected_type rq = Geometric /\
      msg = msg_failed ++ "(34, 'Numerical result out of range')") \/
     msg = msg_failed ++ "cannot convert float infinity to integer" \/
     msg = msg_failed ++ "cannot convert float NaN to integer").
Proof.
  intros rq msg [Hmin Hmax] V.
  assert (Fm : forall (s : list spec_float) (e : exn),
             App1.format_sequence_display s = Raise e ->
             msg = msg_failed ++ exn_message e ->
             msg = msg_failed ++ "cannot convert float infinity to integer" \/
             msg = msg_failed ++ "cannot convert float NaN to integer").
  { intros s e Ef ->. destruct (format_raises_inv s e Ef) as [t [_ Et]].
    destruct (b64_int_of_raises t e Et) as [-> | ->]; [left|right];
      reflexivity. }
  split; intros H.
  - destruct (app_errors rq msg Hmax Hmin H) as [s [e [_ [Ef Em]]]].
    rewrite same_format in Ef. exact (Fm s e Ef Em).
  - destruct (app1_errors rq msg Hmax Hmin H)
      as [[e [Ec Em]]|[s [total [e [_ [Ef Em]]]]]].
    + destruct (b64_compute_raises _ _ _ _ e (conj Hmin Hmax) V Ec)
        as [Et Ee].
      left. split; [exact Et|]. subst e. exact Em.
    + right. exact (Fm s e Ef Em).
Qed.

Lemma float_error_messages_witness :
  let rq := mk_request Geometric (B64.lit 1 1) B64.two_600 3 in
  0 < num_terms rq <= 1000 /\
  valid_binary B64.prec B64.emax (second_param rq) = true /\
  In (st_error (msg_failed ++ "(34, 'Numerical result out of range')"))
     (fst (App1.main rq)) /\
  ((selected_type rq = Geometric /\
    msg_failed ++ "(34, 'Numerical result out of range')"
    = msg_failed ++ "(34, 'Numerical result out of range')") \/
   msg_failed ++ "(34, 'Numerical result out of range')"
   = msg_failed ++ "cannot convert float infinity to integer" \/
   msg_failed ++ "(34, 'Numerical result out of range')"
   = msg_failed ++ "cannot convert float NaN to integer").
Proof.
  intros rq.
  assert (Hn : 0 < num_terms rq <= 1000) by (cbn; lia).
  assert (V : valid_binary B64.prec B64.emax (second_param rq) = true)
    by reflexivity.
  assert (Hin : In (st_error
                      (msg_failed ++ "(34, 'Numerical result out of range')"))
                   (fst (App1.main rq)))
    by (vm_compute; auto 10).
  split; [exact Hn|]. split; [exact V|]. split; [exact Hin|].
  exact (proj2 (float_error_messages rq _ Hn V) Hin).
Defined.

(** ** A NaN among the inputs *)

Lemma format_first_raises {F : Type} {num : PyFloat F} (x0 : F)
      (rest : list F) (e : exn) :
  int_of x0 = Raise e ->
  App1.format_sequence_display (x0 :: rest) = Raise e.
Proof.
  intros E. rewrite format_as_traverse. cbn [traverse].
  unfold render_term at 1. rewrite E. reflexivity.
Qed.

Lemma nan_first_term (a d : spec_float) :
  a = S754_nan \/ d = S754_nan -> arithmetic_term a d 0 = S754_nan.
Proof.
  unfold arithmetic_term. cbn [add mul of_int B64.numeric].
  intros [-> | ->].
  - reflexivity.
  - destruct a; reflexivity.
Qed.

(** X5. On Python floats, when the first term or the common difference
    is a NaN, a run of [src/app.py] that enters the [try] statement shows
    the header and the metrics and then the error of [int()] on a NaN; the
    file with both types does the same with the arithmetic type. No
    sequence is shown and no download is offered. *)
Theorem nan_input_fails :
  forall rq : request spec_float,
    accepted rq = true ->
    first_term rq = S754_nan \/ second_param rq = S754_nan ->
    fst (App.main rq)
    = (App.page
       ++ results_head "Generated Sequence" (format_6g (first_term rq))
            "Common Difference" (format_6g (second_param rq))
            (str_int (num_terms rq))
       ++ [ st_error (msg_failed ++ "cannot convert float NaN to integer");
            st_expander "📚 Examples" ])%list /\
    (selected_type rq = Arithmetic ->
     fst (App1.main rq)
     = (App1.page
        ++ results_head "Generated Arithmetic Sequence"
             (format_6g (first_term rq))
             "Common Difference" (format_6g (second_param rq))
             (str_int (num_terms rq))
        ++ [ st_error (msg_failed ++ "cannot convert float NaN to integer");
             st_expander "📚 Examples" ])%list).
Proof.
  intros rq Ha Hnan.
  destruct (accepted_inv rq Ha) as [Hmax [Hmin _]].
  apply Z.leb_gt in Hmin. apply Z.ltb_ge in Hmax.
  destruct (generated_nonempty (first_term rq) (second_param rq)
              (num_terms rq) Hmin) as [x0 [rest [Eg Es]]].
  assert (E0 : x0 = S754_nan).
  { destruct (range_cons (num_terms rq) Hmin) as [tl Et].
    rewrite Et in Es. cbn [map] in Es. inversion Es.
    now apply nan_first_term. }
  assert (Ef : App1.format_sequence_display (x0 :: rest)
               = Raise (ValueError "cannot convert float NaN to integer")).
  { apply format_first_raises. rewrite E0. reflexivity. }
  split.
  - rewrite <- same_format in Ef.
    exact (app_page_format_error rq x0 rest _ Ha Eg Ef).
  - intros Et.
    destruct (b64_half_ok (num_terms rq) (conj Hmin Hmax)) as [h Eh].
    assert (Ec : App1.compute (selected_type rq) (first_term rq)
                   (second_param rq) (num_terms rq)
                 = Ok (x0 :: rest,
                       Float (mul h (add (mul (of_int 2) (first_term rq))
                                         (mul (of_int (num_terms rq - 1))
                                              (second_param rq)))))).
    { rewrite Et. unfold App1.compute.
      rewrite <- same_generate_arithmetic, Eg. cbn [bind].
      unfold App1.calculate_arithmetic_sum.
      destruct (Z.leb_spec (num_terms rq) 0) as [L|_]; [lia|].
      cbn [int_truediv to_float B64.numeric]. rewrite Eh.
      rewrite (proj1 (to_float_small (num_terms rq - 1) ltac:(lia))).
      reflexivity. }
    rewrite (app1_page_format_error rq x0 rest _ _ Ha Ec Ef).
    rewrite Et. reflexivity.
Qed.

Lemma nan_input_fails_witness :
  let rq := mk_request Arithmetic S754_nan (B64.lit 1 1) 5 in
  accepted rq = true /\
  (first_term rq = S754_nan \/ second_param rq = S754_nan) /\
  fst (App.main rq)
  = (App.page
     ++ results_head "Generated Sequence" "nan" "Common Difference" "1" "5"
     ++ [ st_error (msg_failed ++ "cannot convert float NaN to integer");
          st_expander "📚 Examples" ])%list.
Proof.
  intros rq.
  assert (Ha : accepted rq = true) by reflexivity.
  assert (Hn : first_term rq = S754_nan \/ second_param rq = S754_nan)
    by (left; reflexivity).
  split; [exact Ha|]. split; [exact Hn|].
  exact (proj1 (nan_input_fails rq Ha Hn)).
Defined.

(** ** The additional information *)

Lemma last_nth_error {A : Type} (l : list A) (d : A) :
  l <> [] -> nth_error l (List.length l - 1) = Some (last l d).
Proof.
  induction l as [|x l IH]; intros Hne; [contradiction|].
  destruct l as [|y l']; [reflexivity|].
  replace (List.length (x :: y :: l') - 1)%nat
    with (S (List.length (y :: l') - 1)) by (cbn [List.length]; lia).
  cbn [nth_error]. rewrite IH by discriminate. reflexivity.
Qed.

(** X6. In a successful run of [src/app.py] the block of additional
    information is shown exactly when more than one term was generated:
    with one term the page has no information line, with two or more it
    has four, and the line of the last term shows
    [first_term + (n - 1) * common_difference]. *)
Theorem additional_information :
  forall (F : Type) (num : PyFloat F) (rq : request F),
    accepted rq = true ->
    offers_download (fst (App.main rq)) = true ->
    (num_terms rq = 1 -> count is_info (fst (App.main rq)) = 0%nat) /\
    (2 <= num_terms rq ->
     count is_info (fst (App.main rq)) = 4%nat /\
     In (st_info ("**Last Term:** "
                  ++ format_6g (add (first_term rq)
                                    (mul (of_int (num_terms rq - 1))
                                         (second_param rq)))))
        (fst (App.main rq))).
Proof.
  intros F num rq Ha Hd.
  destruct (accepted_inv rq Ha) as [_ [Hn _]]. apply Z.leb_gt in Hn.
  destruct (generated_nonempty (first_term rq) (second_param rq)
              (num_terms rq) Hn) as [x0 [rest [Eg Es]]].
  assert (El : List.length (x0 :: rest) = Z.to_nat (num_terms rq)).
  { rewrite Es, length_map, range_length. reflexivity. }
  destruct (App.format_sequence_display (x0 :: rest)) as [text|e] eqn:Ef.
  - rewrite (app_page_ok rq x0 rest text Ha Eg Ef). split.
    + intros H1.
      destruct (Nat.ltb_spec 1 (List.length (x0 :: rest))) as [L|_]; [lia|].
      reflexivity.
    + intros H2.
      destruct (Nat.ltb_spec 1 (List.length (x0 :: rest))) as [_|L]; [|lia].
      split; [reflexivity|].
      assert (Elast : last (x0 :: rest) x0
                      = arithmetic_term (first_term rq) (second_param rq)
                          (num_terms rq - 1)).
      { pose proof (last_nth_error (x0 :: rest) x0) as Hl.
        rewrite El, Es in Hl.
        replace (Z.to_nat (num_terms rq) - 1)%nat
          with (Z.to_nat (num_terms rq - 1)) in Hl by lia.
        rewrite nth_error_map, range_nth in Hl by lia.
        cbn [option_map] in Hl. rewrite <- Es in Hl.
        specialize (Hl ltac:(discriminate)). now inversion Hl. }
      rewrite Elast. unfold arithmetic_term.
      apply in_or_app. right. apply in_or_app. right.
      apply in_or_app. right. apply in_or_app. left.
      right. left. reflexivity.
  - rewrite (app_page_format_error rq x0 rest e Ha Eg Ef) in Hd.
    discriminate Hd.
Qed.

Lemma additional_information_witness :
  let rq := mk_request Arithmetic (B64.lit 100 1) (B64.lit (-5) 1) 6 in
  accepted rq = true /\
  offers_download (fst (App.main rq)) = true /\
  count is_info (fst (App.main rq)) = 4%nat /\
  In (st_info ("**Last Term:** "
               ++ format_6g (add (first_term rq)
                                 (mul (of_int (num_terms rq - 1))
                                      (second_param rq)))))
     (fst (App.main rq)).
Proof.
  intros rq.
  assert (Ha : accepted rq = true) by reflexivity.
  assert (Hd : offers_download (fst (App.main rq)) = true)
    by (vm_compute; reflexivity).
  split; [exact Ha|]. split; [exact Hd|].
  apply (proj2 (additional_information spec_float B64.numeric rq Ha Hd)).
  cbn. lia.
Defined.

(** ** The range of an arithmetic sequence, over exact arithmetic *)

Section ExactRange.
Open Scope Qc_scope.

Lemma exact_lt_true (x y : Qc) : lt x y = true <-> x < y.
Proof.
  cbn [lt Exact.numeric]. unfold Exact.lt. rewrite Qclt_alt.
  destruct (x ?= y); split; intros H; congruence.
Qed.

Lemma exact_lt_false (x y : Qc) : y <= x -> lt x y = false.
Proof.
  intros H. destruct (lt x y) eqn:E; [|reflexivity].
  apply exact_lt_true in E. now apply Qcle_not_lt in H.
Qed.

Lemma exact_le_add (x d : Qc) : 0 <= d -> x <= x + d.
Proof.
  intros H. apply Qcle_minus_iff.
  replace (x + d + - x) with d by ring. exact H.
Qed.

Lemma exact_lt_add (x d : Qc) : 0 < d -> x < x + d.
Proof.
  intros H. apply Qclt_minus_iff.
  replace (x + d + - x) with d by ring. exact H.
Qed.

Lemma exact_term_succ (a d : Qc) (k : nat) :
  arithmetic_term a d (Z.of_nat (S k)) = arithmetic_term a d (Z.of_nat k) + d.
Proof.
  unfold arithmetic_term. cbn [add mul of_int Exact.numeric].
  rewrite exact_of_int_succ. ring.
Qed.

Lemma exact_term_0 (a d : Qc) : arithmetic_term a d 0 = a.
Proof.
  unfold arithmetic_term. cbn [add mul of_int Exact.numeric].
  rewrite exact_of_int_0. ring.
Qed.

Lemma later_terms_snoc (a d : Qc) (k : nat) :
  map (arithmetic_term a d) (map Z.of_nat (seq 1 (S k)))
  = (map (arithmetic_term a d) (map Z.of_nat (seq 1 k))
     ++ [arithmetic_term a d (Z.of_nat (S k))])%list.
Proof. rewrite seq_S, !map_app. reflexivity. Qed.

(** A sequence that does not decrease: the maximum is the last term, the
    minimum the first. *)
Lemma extremes_nondecreasing (a d : Qc) (k : nat) :
  0 <= d ->
  py_max (arithmetic_term a d 0)
         (map (arithmetic_term a d) (map Z.of_nat (seq 1 k)))
  = arithmetic_term a d (Z.of_nat k) /\
  py_min (arithmetic_term a d 0)
         (map (arithmetic_term a d) (map Z.of_nat (seq 1 k)))
  = arithmetic_term a d 0 /\
  arithmetic_term a d 0 <= arithmetic_term a d (Z.of_nat k).
Proof.
  intros Hd. induction k as [|k [IHmax [IHmin IHle]]].
  - repeat split. apply Qcle_refl.
  - rewrite later_terms_snoc. unfold py_max, py_min in *.
    rewrite !fold_left_app, IHmax, IHmin. cbn [fold_left].
    rewrite exact_term_succ.
    assert (Hle : arithmetic_term a d 0 <= arithmetic_term a d (Z.of_nat k) + d).
    { apply Qcle_trans with (arithmetic_term a d (Z.of_nat k));
        [exact IHle|now apply exact_le_add]. }
    split; [|split; [|exact Hle]].
    + destruct (Qcle_lt_or_eq _ _ Hd) as [Hpos|Hz].
      * assert (E : lt (arithmetic_term a d (Z.of_nat k))
                       (arithmetic_term a d (Z.of_nat k) + d) = true)
          by (apply exact_lt_true; now apply exact_lt_add).
        rewrite E. reflexivity.
      * rewrite <- Hz.
        destruct (lt _ _); ring.
    + rewrite (exact_lt_false _ _ Hle). reflexivity.
Qed.

(** A decreasing sequence: the maximum is the first term, the minimum the
    last. *)
Lemma extremes_decreasing (a d : Qc) (k : nat) :
  d < 0 ->
  py_max (arithmetic_term a d 0)
         (map (arithmetic_term a d) (map Z.of_nat (seq 1 k)))
  = arithmetic_term a d 0 /\
  py_min (arithmetic_term a d 0)
         (map (arithmetic_term a d) (map Z.of_nat (seq 1 k)))
  = arithmetic_term a d (Z.of_nat k) /\
  arithmetic_term a d (Z.of_nat k) <= arithmetic_term a d 0.
Proof.
  intros Hd. induction k as [|k [IHmax [IHmin IHle]]].
  - repeat split. apply Qcle_refl.
  - rewrite later_terms_snoc. unfold py_max, py_min in *.
    rewrite !fold_left_app, IHmax, IHmin. cbn [fold_left].
    rewrite exact_term_succ.
    assert (Hlt : arithmetic_term a d (Z.of_nat k) + d
                  < arithmetic_term a d (Z.of_nat k)).
    { apply Qclt_minus_iff.
      replace (arithmetic_term a d (Z.of_nat k)
               + - (arithmetic_term a d (Z.of_nat k) + d)) with (- d) by ring.
      apply Qclt_minus_iff in Hd.
      replace (0 + - d) with (- d) in Hd by ring. exact Hd. }
    assert (Hle : arithmetic_term a d (Z.of_nat k) + d
                  <= arithmetic_term a d 0).
    { apply Qcle_trans with (arithmetic_term a d (Z.of_nat k));
        [now apply Qclt_le_weak|exact IHle]. }
    split; [|split; [|exact Hle]].
    + rewrite (exact_lt_false _ _ Hle). reflexivity.
    + apply exact_lt_true in Hlt. rewrite Hlt. reflexivity.
Qed.

Lemma exact_range (a d : Qc) (k : nat) :
  py_max (arithmetic_term a d 0)
         (map (arithmetic_term a d) (map Z.of_nat (seq 1 k)))
  - py_min (arithmetic_term a d 0)
           (map (arithmetic_term a d) (map Z.of_nat (seq 1 k)))
  = Qcabs d * Exact.of_int (Z.of_nat k).
Proof.
  destruct (Qclt_le_dec d 0) as [Hneg|Hpos].
  - destruct (extremes_decreasing a d k Hneg) as [-> [-> _]].
    rewrite Qcabs_neg by now apply Qclt_le_weak.
    unfold arithmetic_term. cbn [add mul of_int Exact.numeric].
    rewrite exact_of_int_0. ring.
  - destruct (extremes_nondecreasing a d k Hpos) as [-> [-> _]].
    rewrite Qcabs_pos by exact Hpos.
    unfold arithmetic_term. cbn [add mul of_int Exact.numeric].
    rewrite exact_of_int_0. ring.
Qed.

End ExactRange.

Lemma range_as_cons (n : Z) :
  0 < n ->
  range n = 0 :: map Z.of_nat (seq 1 (Z.to_nat (n - 1))).
Proof.
  intros Hn. unfold range.
  replace (Z.to_nat n) with (S (Z.to_nat (n - 1))) by lia. reflexivity.
Qed.

(** X7. Over exact arithmetic the range [max(sequence) - min(sequence)]
    of a generated arithmetic sequence of [n > 0] terms is
    [abs(common_difference) * (n - 1)], whatever the sign of the common
    difference, and a run of [src/app.py] with two terms or more shows
    it. *)
Theorem range_of_arithmetic_sequence :
  forall rq : request Qc,
    accepted rq = true ->
    (forall (x0 : Qc) (rest : list Qc),
        App.generate_arithmetic_sequence (first_term rq) (second_param rq)
                                         (num_terms rq) = Ok (x0 :: rest) ->
        sub (py_max x0 rest) (py_min x0 rest)
        = (Qcabs (second_param rq) * Exact.of_int (num_terms rq - 1))%Qc) /\
    (2 <= num_terms rq ->
     In (st_info ("**Range:** "
                  ++ format_6g (Qcabs (second_param rq)
                                * Exact.of_int (num_terms rq - 1))%Qc))
        (fst (App.main rq))).
Proof.
  intros rq Ha.
  destruct (accepted_inv rq Ha) as [_ [Hn _]]. apply Z.leb_gt in Hn.
  assert (R : forall (x0 : Qc) (rest : list Qc),
             App.generate_arithmetic_sequence (first_term rq) (second_param rq)
                                              (num_terms rq) = Ok (x0 :: rest) ->
             sub (py_max x0 rest) (py_min x0 rest)
             = (Qcabs (second_param rq) * Exact.of_int (num_terms rq - 1))%Qc).
  { intros x0 rest Eg.
    rewrite same_generate_arithmetic, arithmetic_as_map,
      (range_as_cons _ Hn) in Eg.
    cbn [map] in Eg. inversion Eg; subst x0 rest.
    etransitivity;
      [exact (exact_range (first_term rq) (second_param rq)
                (Z.to_nat (num_terms rq - 1)))|].
    do 2 f_equal. lia. }
  split; [exact R|]. intros H2.
  destruct (generated_nonempty (first_term rq) (second_param rq)
              (num_terms rq) Hn) as [x0 [rest [Eg Es]]].
  destruct (exact_format_ok (x0 :: rest)) as [text Ef].
  rewrite <- same_format in Ef.
  rewrite (app_page_ok rq x0 rest text Ha Eg Ef).
  assert (El : List.length (x0 :: rest) = Z.to_nat (num_terms rq)).
  { rewrite Es, length_map, range_length. reflexivity. }
  destruct (Nat.ltb_spec 1 (List.length (x0 :: rest))) as [_|L]; [|lia].
  rewrite (R x0 rest Eg).
  apply in_or_app. right. apply in_or_app. right.
  apply in_or_app. right. apply in_or_app. left.
  right. right. right. left. reflexivity.
Qed.

Lemma range_of_arithmetic_sequence_witness :
  let rq := mk_request Arithmetic (Exact.of_int 100) (Exact.of_int (-5)) 6 in
  accepted rq = true /\
  In (st_info "**Range:** 25") (fst (App.main rq)).
Proof.
  intros rq.
  assert (Ha : accepted rq = true) by reflexivity.
  split; [exact Ha|].
  assert (E : "**Range:** 25"
              = "**Range:** "
                ++ format_6g (Qcabs (second_param rq)
                              * Exact.of_int (num_terms rq - 1))%Qc)
    by (vm_compute; reflexivity).
  rewrite E.
  apply (proj2 (range_of_arithmetic_sequence rq Ha)). cbn. lia.
Defined.

(** ** The two sums of the page, over exact arithmetic *)

Lemma exact_computed (t : sequence_type) (a step : Qc) (n : Z) :
  0 < n ->
  exists s : list Qc,
    App1.compute t a step n = Ok (s, Float (py_sum s)) /\
    List.length s = Z.to_nat n.
Proof.
  intros Hn.
  assert (En : n = Z.of_nat (Z.to_nat n)) by lia.
  unfold App1.compute. destruct t.
  - exists (map (arithmetic_term a step) (range n)).
    split; [|now rewrite length_map, range_length].
    rewrite arithmetic_as_map. cbn [bind].
    unfold App1.calculate_arithmetic_sum.
    destruct (Z.leb_spec n 0) as [L|_]; [lia|].
    cbn [int_truediv Exact.numeric]. unfold Exact.int_truediv.
    change (Exact.truediv (Exact.of_int n) (Exact.of_int 2))
      with (truediv (Exact.of_int n) (Exact.of_int 2)).
    rewrite exact_of_int_2, exact_truediv by exact two_nonzero.
    cbn [bind to_float Exact.numeric]. do 3 f_equal.
    rewrite En at 3. rewrite arithmetic_series, <- En.
    cbn [add mul of_int Exact.numeric].
    replace (Exact.of_int (n - 1)) with (Exact.of_int n - 1)%Qc.
    + rewrite exact_of_int_2. reflexivity.
    + replace n with ((n - 1) + 1) at 1 by lia.
      rewrite exact_of_int_add, exact_of_int_1. ring.
  - exists (map (fun i => (a * step ^ Z.to_nat i)%Qc) (range n)).
    split; [|now rewrite length_map, range_length].
    rewrite exact_geometric_as_map. cbn [bind].
    destruct (exact_calculate_geometric_sum a step n Hn) as [H1 H2].
    destruct (Qc_eq_dec step (Exact.of_int 1)) as [E|E].
    + rewrite (H1 E). cbn [bind]. do 3 f_equal.
      rewrite E, exact_of_int_1.
      rewrite En at 2. rewrite constant_series, <- En. reflexivity.
    + rewrite (H2 E). cbn [bind]. do 3 f_equal.
      rewrite exact_of_int_1 in E.
      assert (Hr : (1 - step)%Qc <> 0%Qc).
      { intros Hz. apply E. symmetry.
        replace step with (step + 0)%Qc by ring. rewrite <- Hz. ring. }
      rewrite En at 2. rewrite geometric_series by exact Hr. reflexivity.
Qed.

(** X8. Over exact arithmetic, in a run of the file with both sequence
    types that generates two terms or more, the line of the closed-form
    sum and the line of the sum computed from the sequence for
    verification show the same number, for either type. *)
Theorem verification_sum_agrees :
  forall rq : request Qc,
    accepted rq = true ->
    2 <= num_terms rq ->
    exists v : string,
      In (st_info ("**Sum of Series:** " ++ v)) (fst (App1.main rq)) /\
      In (st_info ("**Sum (Verification):** " ++ v)) (fst (App1.main rq)).
Proof.
  intros rq Ha H2.
  destruct (exact_computed (selected_type rq) (first_term rq)
              (second_param rq) (num_terms rq)) as [s [Ec El]]; [lia|].
  destruct s as [|x0 rest]; [cbn [List.length] in El; lia|].
  destruct (exact_format_ok (x0 :: rest)) as [text Ef].
  rewrite (app1_page_ok rq x0 rest _ text Ha Ec Ef).
  destruct (Nat.ltb_spec 1 (List.length (x0 :: rest))) as [_|L]; [|lia].
  exists (format_6g (py_sum (x0 :: rest))). split.
  - apply in_or_app. right. apply in_or_app. right.
    apply in_or_app. right. apply in_or_app. left.
    right. right. left. reflexivity.
  - apply in_or_app. right. apply in_or_app. right.
    apply in_or_app. right. apply in_or_app. left.
    right. right. right. left. reflexivity.
Qed.

Lemma verification_sum_agrees_witness :
  let rq := mk_request Geometric (Exact.of_int 100) (Q2Qc (1 # 2)) 6 in
  accepted rq = true /\ 2 <= num_terms rq /\
  exists v : string,
    In (st_info ("**Sum of Series:** " ++ v)) (fst (App1.main rq)) /\
    In (st_info ("**Sum (Verification):** " ++ v)) (fst (App1.main rq)).
Proof.
  intros rq.
  assert (Ha : accepted rq = true) by reflexivity.
  assert (H2 : 2 <= num_terms rq) by (cbn; lia).
  split; [exact Ha|]. split; [exact H2|].
  exact (verification_sum_agrees rq Ha H2).
Defined.

(** X9. On Python floats, a non-empty list of whole numbers of magnitude
    below [2^53] is displayed as these integers, without decimal points,
    joined with [", "]: [format_sequence_display] of the floats of
    [k1, ..., kn] is the text of [str(k1), ..., str(kn)]. *)
Theorem whole_numbers_display :
  forall ks : list Z,
    ks <> [] ->
    (forall k : Z, In k ks -> - 2 ^ 53 < k < 2 ^ 53) ->
    App.format_sequence_display (map B64.of_int ks)
    = Ok (String.concat ", " (map str_int ks)) /\
    App1.format_sequence_display (map B64.of_int ks)
    = Ok (String.concat ", " (map str_int ks)).
Proof.
  intros ks Hne Hb. rewrite same_format.
  assert (T : traverse render_term (map B64.of_int ks)
              = Ok (map str_int ks)).
  { clear Hne. induction ks as [|k ks IH]; [reflexivity|].
    cbn [map traverse].
    destruct (whole_float k (Hb k (or_introl eq_refl))) as [Ei Ee].
    unfold render_term at 1. rewrite Ei. cbn [bind]. rewrite Ee.
    cbn [bind]. rewrite IH by (intros j Hj; apply Hb; now right).
    reflexivity. }
  destruct ks as [|k ks]; [contradiction|].
  cbn [map] in *. rewrite format_as_traverse, T. split; reflexivity.
Qed.

Lemma whole_numbers_display_witness :
  [1000000; -7; 0] <> [] /\
  (forall k : Z, In k [1000000; -7; 0] -> - 2 ^ 53 < k < 2 ^ 53) /\
  App.format_sequence_display (map B64.of_int [1000000; -7; 0])
  = Ok "1000000, -7, 0".
Proof.
  assert (Hne : [1000000; -7; 0] <> []) by discriminate.
  assert (Hb : forall k : Z, In k [1000000; -7; 0] -> - 2 ^ 53 < k < 2 ^ 53).
  { intros k [<-|[<-|[<-|[]]]]; split; reflexivity. }
  split; [exact Hne|]. split; [exact Hb|].
  exact (proj1 (whole_numbers_display [1000000; -7; 0] Hne Hb)).
Defined.

(** ** Asking for more terms *)

Lemma seq_firstn (k : nat) :
  forall start len : nat,
    (k <= len)%nat -> firstn k (seq start len) = seq start k.
Proof.
  induction k as [|k IH]; intros start len H; [reflexivity|].
  destruct len as [|len]; [lia|].
  cbn [seq firstn]. rewrite IH by lia. reflexivity.
Qed.

Lemma range_firstn (n m : Z) :
  n <= m -> firstn (Z.to_nat n) (range m) = range n.
Proof.
  intros H. unfold range. rewrite firstn_map, seq_firstn by lia.
  reflexivity.
Qed.

Lemma traverse_firstn {A B : Type} (f : A -> result B) :
  forall (xs : list A) (ys : list B) (k : nat),
    traverse f xs = Ok ys -> traverse f (firstn k xs) = Ok (firstn k ys).
Proof.
  induction xs as [|x xs IH]; cbn [traverse]; intros ys k E.
  - inversion E. now rewrite !firstn_nil.
  - destruct (f x) as [y|e] eqn:Ex; cbn [bind] in E; [|discriminate].
    destruct (traverse f xs) as [zs|e] eqn:T; cbn [bind] in E; [|discriminate].
    inversion E; subst. destruct k as [|k]; [reflexivity|].
    cbn [firstn traverse]. rewrite Ex, (IH zs k eq_refl). reflexivity.
Qed.

(** X10. Asking a generator for more terms only appends terms: for
    [n <= m], when the generator returns for [m] terms it returns for [n]
    terms the first [n] of them, for the arithmetic generator of both
    files and for the geometric one; and when the geometric generator
    raises for [n] terms it raises for [m] terms. *)
Theorem more_terms_extend :
  forall (F : Type) (num : PyFloat F) (a step : F) (n m : Z),
    n <= m ->
    (forall sm : list F,
        App.generate_arithmetic_sequence a step m = Ok sm ->
        App.generate_arithmetic_sequence a step n
        = Ok (firstn (Z.to_nat n) sm)) /\
    (forall sm : list F,
        App1.generate_arithmetic_sequence a step m = Ok sm ->
        App1.generate_arithmetic_sequence a step n
        = Ok (firstn (Z.to_nat n) sm)) /\
    (forall sm : list F,
        App1.generate_geometric_sequence a step m = Ok sm ->
        App1.generate_geometric_sequence a step n
        = Ok (firstn (Z.to_nat n) sm)) /\
    (raises (App1.generate_geometric_sequence a step n) ->
     raises (App1.generate_geometric_sequence a step m)).
Proof.
  intros F num a step n m H.
  assert (A : forall sm : list F,
             App1.generate_arithmetic_sequence a step m = Ok sm ->
             App1.generate_arithmetic_sequence a step n
             = Ok (firstn (Z.to_nat n) sm)).
  { intros sm. rewrite !arithmetic_as_map. intros E. inversion E.
    now rewrite firstn_map, range_firstn. }
  assert (G : forall sm : list F,
             App1.generate_geometric_sequence a step m = Ok sm ->
             App1.generate_geometric_sequence a step n
             = Ok (firstn (Z.to_nat n) sm)).
  { intros sm. rewrite !geometric_as_traverse. intros E.
    rewrite <- (range_firstn n m H). now apply traverse_firstn. }
  split; [|split; [exact A|split; [exact G|]]].
  - intros sm. rewrite !same_generate_arithmetic. apply A.
  - intros [e Ee].
    destruct (App1.generate_geometric_sequence a step m) as [sm|e'] eqn:Em.
    + rewrite (G sm eq_refl) in Ee. discriminate.
    + now exists e'.
Qed.

Lemma more_terms_extend_witness :
  3 <= 6 /\
  App1.generate_geometric_sequence (B64.lit 100 1) (B64.lit 1 2) 3
  = Ok (firstn (Z.to_nat 3)
          [B64.lit 100 1; B64.lit 50 1; B64.lit 25 1;
           B64.lit 25 2; B64.lit 25 4; B64.lit 25 8]).
Proof.
  split; [lia|].
  apply (more_terms_extend spec_float B64.numeric
           (B64.lit 100 1) (B64.lit 1 2) 3 6); [lia|].
  vm_compute. reflexivity.
Defined.

(** ** Displaying two sequences one after the other *)

Lemma traverse_app {A B : Type} (f : A -> result B) (xs ys : list A) :
  traverse f (xs ++ ys)
  = (a <- traverse f xs ;; b <- traverse f ys ;; Ok (a ++ b)%list).
Proof.
  induction xs as [|x xs IH]; cbn [app traverse bind].
  - destruct (traverse f ys); reflexivity.
  - destruct (f x) as [y|e]; cbn [bind]; [|reflexivity].
    rewrite IH. destruct (traverse f xs) as [a|e]; cbn [bind]; [|reflexivity].
    destruct (traverse f ys); reflexivity.
Qed.

Lemma concat_app (sep : string) (l1 l2 : list string) :
  l1 <> [] -> l2 <> [] ->
  String.concat sep (l1 ++ l2)
  = String.concat sep l1 ++ sep ++ String.concat sep l2.
Proof.
  intros H1 H2. induction l1 as [|x l1 IH]; [contradiction|].
  destruct l1 as [|y l1].
  - destruct l2 as [|z l2]; [contradiction|]. reflexivity.
  - change (String.concat sep ((x :: y :: l1) ++ l2))
      with (x ++ sep ++ String.concat sep ((y :: l1) ++ l2)).
    rewrite IH by discriminate.
    change (String.concat sep (x :: y :: l1))
      with (x ++ sep ++ String.concat sep (y :: l1)).
    now rewrite !string_app_assoc.
Qed.

Lemma format_ok_inv {F : Type} {num : PyFloat F} (xs : list F) (s : string) :
  xs <> [] -> App1.format_sequence_display xs = Ok s ->
  exists texts : list string,
    traverse render_term xs = Ok texts /\ texts <> [] /\
    s = String.concat ", " texts.
Proof.
  intros Hne. destruct xs as [|x xs]; [contradiction|].
  rewrite format_as_traverse.
  destruct (traverse render_term (x :: xs)) as [texts|e] eqn:T;
    cbn [bind]; [|discriminate].
  intros E. inversion E. exists texts. split; [reflexivity|].
  split; [|reflexivity].
  destruct (traverse_cons_ok _ _ _ _ T) as [y [ys ->]]. discriminate.
Qed.

(** X11. [format_sequence_display] of two non-empty sequences put one
    after the other is the two texts joined with [", "]; and when it
    raises on the first sequence it raises the same exception on the
    whole. *)
Theorem display_of_concatenation :
  forall (F : Type) (num : PyFloat F) (xs ys : list F),
    xs <> [] -> ys <> [] ->
    (forall s1 s2 : string,
        App.format_sequence_display xs = Ok s1 ->
        App.format_sequence_display ys = Ok s2 ->
        App.format_sequence_display (xs ++ ys) = Ok (s1 ++ ", " ++ s2)) /\
    (forall e : exn,
        App.format_sequence_display xs = Raise e ->
        App.format_sequence_display (xs ++ ys) = Raise e).
Proof.
  intros F num xs ys Hx Hy. rewrite !same_format.
  assert (Hxy : exists z zs, (xs ++ ys)%list = z :: zs).
  { destruct xs as [|x xs]; [contradiction|]. now do 2 eexists. }
  destruct Hxy as [z [zs Ez]]. split.
  - intros s1 s2 E1 E2.
    destruct (format_ok_inv xs s1 Hx E1) as [t1 [T1 [N1 ->]]].
    destruct (format_ok_inv ys s2 Hy E2) as [t2 [T2 [N2 ->]]].
    rewrite Ez, format_as_traverse, <- Ez, traverse_app, T1, T2.
    cbn [bind]. now rewrite concat_app.
  - intros e E1.
    destruct xs as [|x xs]; [contradiction|].
    rewrite format_as_traverse in E1.
    destruct (traverse render_term (x :: xs)) as [t1|e1] eqn:T1;
      cbn [bind] in E1; [discriminate|].
    rewrite Ez, format_as_traverse, <- Ez, traverse_app, T1. exact E1.
Qed.

Lemma display_of_concatenation_witness :
  [B64.lit 1 2; B64.lit 3 1] <> [] /\ ([B64.lit 1 3])%list <> [] /\
  App.format_sequence_display
    ([B64.lit 1 2; B64.lit 3 1] ++ [B64.lit 1 3])%list
  = Ok ("0.5, 3" ++ ", " ++ "0.333333").
Proof.
  assert (H1 : [B64.lit 1 2; B64.lit 3 1] <> []) by discriminate.
  assert (H2 : ([B64.lit 1 3])%list <> []) by discriminate.
  split; [exact H1|]. split; [exact H2|].
  apply (proj1 (display_of_concatenation spec_float B64.numeric _ _ H1 H2));
    vm_compute; reflexivity.
Defined.

(** ** The downloads of the two files *)

(** X12. With the arithmetic type, whenever the file with both sequence
    types offers a download, [src/app.py] offers one for the same inputs,
    and the text of the former is the text of the latter followed by the
    line of the closed-form sum. *)
Theorem combined_download_extends :
  forall (F : Type) (num : PyFloat F) (rq : request F) (data1 : string),
    selected_type rq = Arithmetic ->
    artifact (fst (App1.main rq)) = Some data1 ->
    exists (data0 : string) (total : number F),
      artifact (fst (App.main rq)) = Some data0 /\
      App1.calculate_arithmetic_sum (first_term rq) (second_param rq)
                                    (num_terms rq) = Ok total /\
      data1 = data0 ++ "Sum of Series: " ++ format_number total ++ nl.
Proof.
  intros F num rq data1 Et. rewrite app1_artifact, app_artifact.
  destruct (accepted rq); [|discriminate].
  rewrite Et. unfold App1.compute.
  change (App.generate_arithmetic_sequence
            (first_term rq) (second_param rq) (num_terms rq))
    with (App1.generate_arithmetic_sequence
            (first_term rq) (second_param rq) (num_terms rq)).
  destruct (App1.generate_arithmetic_sequence _ _ _) as [[|x0 rest]|e];
    cbn [bind].
  - destruct (App1.calculate_arithmetic_sum _ _ _); cbn [bind]; discriminate.
  - destruct (App1.calculate_arithmetic_sum _ _ _) as [total|e];
      cbn [bind]; [|discriminate].
    change (App.format_sequence_display (x0 :: rest))
      with (App1.format_sequence_display (x0 :: rest)).
    destruct (App1.format_sequence_display (x0 :: rest)) as [text|e];
      [|discriminate].
    intros E. inversion E. exists (App.sequence_text (first_term rq)
                                     (second_param rq) (num_terms rq) text),
                                  total.
    split; [reflexivity|]. split; [reflexivity|].
    unfold App1.sequence_text, App.sequence_text.
    cbn [type_name App1.step_label].
    repeat rewrite string_app_assoc. reflexivity.
  - discriminate.
Qed.

Lemma combined_download_extends_witness :
  let rq := mk_request Arithmetic (B64.lit 1 1) (B64.lit 1 1) 10 in
  let data0 := "Arithmetic Sequence" ++ nl ++ "First Term: 1" ++ nl
               ++ "Common Difference: 1" ++ nl ++ "Number of Terms: 10" ++ nl
               ++ "Sequence: 1, 2, 3, 4, 5, 6, 7, 8, 9, 10" ++ nl in
  selected_type rq = Arithmetic /\
  artifact (fst (App1.main rq)) = Some (data0 ++ "Sum of Series: 55" ++ nl) /\
  exists (data0' : string) (total : number spec_float),
    artifact (fst (App.main rq)) = Some data0' /\
    App1.calculate_arithmetic_sum (first_term rq) (second_param rq)
                                  (num_terms rq) = Ok total /\
    data0 ++ "Sum of Series: 55" ++ nl
    = data0' ++ "Sum of Series: " ++ format_number total ++ nl.
Proof.
  intros rq data0.
  assert (Et : selected_type rq = Arithmetic) by reflexivity.
  assert (Ea : artifact (fst (App1.main rq))
               = Some (data0 ++ "Sum of Series: 55" ++ nl))
    by (vm_compute; reflexivity).
  split; [exact Et|]. split; [exact Ea|].
  exact (combined_download_extends spec_float B64.numeric rq _ Et Ea).
Defined.

(** ** Ratios zero and one, over exact arithmetic *)

Lemma map_constant {A B : Type} (f : A -> B) (c : B) (l : list A) :
  (forall x, In x l -> f x = c) -> map f l = repeat c (List.length l).
Proof.
  induction l as [|x l IH]; intros H; [reflexivity|].
  cbn [map List.length repeat]. rewrite (H x) by now left.
  rewrite IH by (intros y Hy; apply H; now right). reflexivity.
Qed.

(** X13. Over exact arithmetic, with [n > 0] terms: a common ratio of
    zero gives the first term followed by zeros (the power [0 ** 0] is
    one), with closed-form sum the first term; a common ratio of one
    gives [n] times the first term, with closed-form sum
    [n * first_term]. *)
Theorem degenerate_ratios :
  forall (a : Qc) (n : Z),
    0 < n ->
    App1.generate_geometric_sequence a (Exact.of_int 0) n
    = Ok (a :: repeat (Exact.of_int 0) (Z.to_nat (n - 1))) /\
    App1.calculate_geometric_sum a (Exact.of_int 0) n = Ok (Float a) /\
    App1.generate_geometric_sequence a (Exact.of_int 1) n
    = Ok (repeat a (Z.to_nat n)) /\
    App1.calculate_geometric_sum a (Exact.of_int 1) n
    = Ok (Float (Exact.of_int n * a)%Qc).
Proof.
  intros a n Hn. rewrite exact_of_int_0, exact_of_int_1.
  split; [|split; [|split]].
  - rewrite exact_geometric_as_map, (range_as_cons n Hn). cbn [map].
    f_equal. f_equal.
    + cbn [Z.to_nat Qcpower]. ring.
    + rewrite (map_constant _ 0%Qc).
      * now rewrite !length_map, length_seq.
      * intros i Hi. apply in_map_iff in Hi. destruct Hi as [k [<- Hk]].
        apply in_seq in Hk. rewrite Nat2Z.id, Qcpower_0 by lia. ring.
  - destruct (exact_calculate_geometric_sum a 0%Qc n Hn) as [_ H].
    rewrite H by (rewrite exact_of_int_1; discriminate).
    do 2 f_equal. rewrite Qcpower_0 by lia. field. discriminate.
  - rewrite exact_geometric_as_map, (map_constant _ a).
    + now rewrite range_length.
    + intros i _. rewrite Qcpower_1. ring.
  - destruct (exact_calculate_geometric_sum a 1%Qc n Hn) as [H _].
    apply H. now rewrite exact_of_int_1.
Qed.

Lemma degenerate_ratios_witness :
  0 < 4 /\
  App1.generate_geometric_sequence (Exact.of_int 7) (Exact.of_int 0) 4
  = Ok (Exact.of_int 7 :: repeat (Exact.of_int 0) (Z.to_nat (4 - 1))) /\
  App1.calculate_geometric_sum (Exact.of_int 7) (Exact.of_int 0) 4
  = Ok (Float (Exact.of_int 7)).
Proof.
  split; [lia|].
  destruct (degenerate_ratios (Exact.of_int 7) 4) as [H1 [H2 _]]; [lia|].
  split; [exact H1|exact H2].
Defined.

(** ** Failures of the file with both sequence types *)

(** X14. In a run of the file with both sequence types that enters the
    [try] statement: when the generator or the closed-form sum raises,
    nothing of the results is rendered, only the error message of that
    exception; when both return and the formatting raises, the header and
    the three metrics rendered before it stay, followed by the error
    message; when both return and every term is finite, the sequence is
    shown and offered for download with its closed-form sum, and no error
    is shown. *)
Theorem combined_run_failures :
  forall (F : Type) (num : PyFloat F) (rq : request F),
    accepted rq = true ->
    (forall e : exn,
        App1.compute (selected_type rq) (first_term rq) (second_param rq)
                     (num_terms rq) = Raise e ->
        fst (App1.main rq)
        = (App1.page ++ [ st_error (msg_failed ++ exn_message e);
                          st_expander "📚 Examples" ])%list) /\
    (forall (sequence : list F) (total : number F),
        App1.compute (selected_type rq) (first_term rq) (second_param rq)
                     (num_terms rq) = Ok (sequence, total) ->
        (forall e : exn,
            App1.format_sequence_display sequence = Raise e ->
            (exists t : F, In t sequence /\ int_of t = Raise e) /\
            fst (App1.main rq)
            = (App1.page
               ++ results_head
                    ("Generated " ++ type_name (selected_type rq)
                     ++ " Sequence")
                    (format_6g (first_term rq))
                    (App1.step_label (selected_type rq))
                    (format_6g (second_param rq))
                    (str_int (num_terms rq))
               ++ [ st_error (msg_failed ++ exn_message e);
                    st_expander "📚 Examples" ])%list) /\
        (Forall finite sequence ->
         exists text : string,
           App1.format_sequence_display sequence = Ok text /\
           In (st_code text) (fst (App1.main rq)) /\
           artifact (fst (App1.main rq))
           = Some (App1.sequence_text (selected_type rq) (first_term rq)
                     (second_param rq) (num_terms rq) text total) /\
           count is_error (fst (App1.main rq)) = 0%nat)).
Proof.
  intros F num rq Ha.
  destruct (accepted_inv rq Ha) as [_ [Hn _]]. apply Z.leb_gt in Hn.
  split.
  - intros e Ec. exact (app1_page_compute_error rq e Ha Ec).
  - intros sequence total Ec.
    destruct (computed_nonempty _ _ _ _ sequence total Hn Ec)
      as [x0 [rest ->]].
    split.
    + intros e Ef. split; [exact (format_raises_inv _ e Ef)|].
      exact (app1_page_format_error rq x0 rest total e Ha Ec Ef).
    + intros Hfin.
      destruct (render_all_finite (x0 :: rest) Hfin) as [texts [Et _]].
      assert (Ef : App1.format_sequence_display (x0 :: rest)
                   = Ok (String.concat ", " texts)).
      { rewrite format_as_traverse, Et. reflexivity. }
      exists (String.concat ", " texts). split; [exact Ef|].
      rewrite (app1_page_ok rq x0 rest total _ Ha Ec Ef).
      split; [|split].
      * apply in_or_app. right. apply in_or_app. right. now left.
      * destruct (1 <? List.length (x0 :: rest))%nat; reflexivity.
      * destruct (1 <? List.length (x0 :: rest))%nat; reflexivity.
Qed.

Lemma combined_run_failures_witness :
  let rq := mk_request Geometric (B64.lit 1 1) B64.two_600 3 in
  accepted rq = true /\
  fst (App1.main rq)
  = (App1.page
     ++ [ st_error (msg_failed ++ "(34, 'Numerical result out of range')");
          st_expander "📚 Examples" ])%list.
Proof.
  intros rq.
  assert (Ha : accepted rq = true) by reflexivity.
  split; [exact Ha|].
  apply (proj1 (combined_run_failures spec_float B64.numeric rq Ha)
               B64.range_error).
  vm_compute. reflexivity.
Defined.

(** X15. On Python floats, for every term count from 1 to 1000 and all
    floats [first_term] and [common_difference], infinities and NaN
    included, [calculate_arithmetic_sum] returns a float: it raises
    nothing, and the first statement of the [try] block cannot fail with
    the arithmetic type. *)
Theorem arithmetic_sum_never_raises :
  forall (a d : spec_float) (n : Z),
    0 < n <= 1000 ->
    (exists x : spec_float,
        App1.calculate_arithmetic_sum a d n = Ok (Float x)) /\
    (exists (sequence : list spec_float) (x : spec_float),
        App1.compute Arithmetic a d n = Ok (sequence, Float x) /\
        Z.of_nat (List.length sequence) = n).
Proof.
  intros a d n Hn.
  destruct (b64_half_ok n Hn) as [h Eh].
  assert (E : App1.calculate_arithmetic_sum a d n
              = Ok (Float (mul h (add (mul (of_int 2) a)
                                      (mul (of_int (n - 1)) d))))).
  { unfold App1.calculate_arithmetic_sum.
    destruct (Z.leb_spec n 0) as [L|_]; [lia|].
    cbn [int_truediv to_float B64.numeric]. rewrite Eh.
    rewrite (proj1 (to_float_small (n - 1) ltac:(lia))). reflexivity. }
  split; [eexists; exact E|].
  exists (map (arithmetic_term a d) (range n)). eexists.
  unfold App1.compute. rewrite arithmetic_as_map, E. cbn [bind].
  split; [reflexivity|]. rewrite length_map, range_length. lia.
Qed.

Lemma arithmetic_sum_never_raises_witness :
  0 < 1000 <= 1000 /\
  exists x : spec_float,
    App1.calculate_arithmetic_sum S754_nan B64.infinity 1000 = Ok (Float x).
Proof.
  split; [lia|].
  apply (arithmetic_sum_never_raises S754_nan B64.infinity 1000). lia.
Defined.

(** ** The validation of the term count, and what an accepted run shows *)

Section Accepted.
Context {F : Type} {num : PyFloat F}.

(** The first statement of the [try] block returns what the generator
    and the closed-form sum of the selected type return. *)
Lemma computed_inv (t : sequence_type) (a step : F) (n : Z)
      (s : list F) (total : number F) :
  App1.compute t a step n = Ok (s, total) ->
  match t with
  | Arithmetic =>
      App1.generate_arithmetic_sequence a step n = Ok s /\
      App1.calculate_arithmetic_sum a step n = Ok total
  | Geometric =>
      App1.generate_geometric_sequence a step n = Ok s /\
      App1.calculate_geometric_sum a step n = Ok total
  end.
Proof.
  unfold App1.compute. destruct t.
  - destruct (App1.generate_arithmetic_sequence a step n) as [s'|e];
      cbn [bind]; [|discriminate].
    destruct (App1.calculate_arithmetic_sum a step n) as [v|e];
      cbn [bind]; [|discriminate].
    intros H. inversion H. split; reflexivity.
  - destruct (App1.generate_geometric_sequence a step n) as [s'|e];
      cbn [bind]; [|discriminate].
    destruct (App1.calculate_geometric_sum a step n) as [v|e];
      cbn [bind]; [|discriminate].
    intros H. inversion H. split; reflexivity.
Qed.

Lemma computed_length (t : sequence_type) (a step : F) (n : Z)
      (s : list F) (total : number F) :
  0 < n -> App1.compute t a step n = Ok (s, total) ->
  Z.of_nat (List.length s) = n.
Proof.
  intros Hn Ec. apply computed_inv in Ec. destruct t; destruct Ec as [Eg _].
  - rewrite arithmetic_as_map in Eg. inversion Eg.
    rewrite length_map, range_length. lia.
  - rewrite geometric_as_traverse in Eg. apply traverse_length in Eg.
    rewrite Eg, range_length. lia.
Qed.

Lemma finite_format_ok (sequence : list F) :
  Forall finite sequence ->
  exists text : string, App1.format_sequence_display sequence = Ok text.
Proof.
  intros Hf. destruct sequence as [|x xs]; [now eexists|].
  destruct (render_all_finite (x :: xs) Hf) as [texts [E _]].
  rewrite format_as_traverse, E. now eexists.
Qed.

End Accepted.

(** C7, as stated, fails on Python floats: a run with 1000 terms passes
    the validation and then ends in the error box. In both files, with
    the finite floats [first_term = common_difference = 2.0 ** 1023] the
    second term is an infinity, on which [int()] raises; in the file with
    both types, with the geometric type, [first_term = 1.0] and
    [common_ratio = 2.0 ** 600], the power [common_ratio ** 2] overflows.
    The page shows the message of the exception and offers no download. *)
Lemma full_term_count_fails :
  let rq := mk_request Arithmetic B64.two_1023 B64.two_1023 1000 in
  let rq' := mk_request Geometric (B64.lit 1 1) B64.two_600 1000 in
  num_terms rq = 1000 /\ num_terms rq' = 1000 /\
  accepted rq = true /\ accepted rq' = true /\
  finite B64.two_1023 /\ finite (B64.lit 1 1) /\ finite B64.two_600 /\
  fst (App.main rq)
  = (App.page
     ++ results_head "Generated Sequence" "8.98847e+307"
          "Common Difference" "8.98847e+307" "1000"
     ++ [ st_error (msg_failed ++ "cannot convert float infinity to integer");
          st_expander "📚 Examples" ])%list /\
  fst (App1.main rq)
  = (App1.page
     ++ results_head "Generated Arithmetic Sequence" "8.98847e+307"
          "Common Difference" "8.98847e+307" "1000"
     ++ [ st_error (msg_failed ++ "cannot convert float infinity to integer");
          st_expander "📚 Examples" ])%list /\
  fst (App1.main rq')
  = (App1.page
     ++ [ st_error (msg_failed ++ "(34, 'Numerical result out of range')");
          st_expander "📚 Examples" ])%list /\
  offers_download (fst (App.main rq)) = false /\
  offers_download (fst (App1.main rq)) = false /\
  offers_download (fst (App1.main rq')) = false.
Proof.
  cbv zeta.
  split; [reflexivity|]. split; [reflexivity|].
  split; [reflexivity|]. split; [reflexivity|].
  split; [eexists; vm_compute; reflexivity|].
  split; [eexists; vm_compute; reflexivity|].
  split; [eexists; vm_compute; reflexivity|].
  split; [vm_compute; reflexivity|].
  split; [vm_compute; reflexivity|].
  split; [vm_compute; reflexivity|].
  split; [vm_compute; reflexivity|].
  split; vm_compute; reflexivity.
Qed.

(** C7, amended. A term count above 1000, or not positive, ends both
    [main]s at the validation: the page shows the fixed widgets and one
    message, whatever the other inputs are, and nothing is generated.

    A term count from 1 to 1000, 1000 included, passes, and the generator
    is called with the inputs. In [src/app.py] it returns a sequence of
    [num_terms] terms; when [format_sequence_display] returns a text for
    it, the page shows that text and offers it for download, in the
    download text of the inputs, and shows no error; when
    [format_sequence_display] raises, the page ends in the message of that
    exception. In the file with both types the sequence and the sum are
    those of the generator and of the closed form of the selected type;
    when one of them raises, the page shows only the message of that
    exception; when both return, the sequence has [num_terms] terms and
    the page is as in [src/app.py], the download text carrying the sum.
    [format_sequence_display] returns a text whenever every term is
    finite. No run that passes the validation shows a validation message.

    Over exact arithmetic every such run shows no error and offers the
    download; so do the runs of both files on floats with the default
    inputs and 1000 terms. *)
Theorem term_count_gate :
  forall (F : Type) (num : PyFloat F) (rq : request F),
    (1000 < num_terms rq ->
     App.main rq
     = ((App.page ++ [st_error msg_too_many])%list, generate_clicked rq) /\
     App1.main rq
     = ((App1.page ++ [st_error msg_too_many])%list, generate_clicked rq)) /\
    (num_terms rq <= 0 ->
     App.main rq
     = ((App.page ++ [st_error msg_not_positive])%list, generate_clicked rq) /\
     App1.main rq
     = ((App1.page ++ [st_error msg_not_positive])%list,
        generate_clicked rq)) /\
    (accepted rq = true ->
     exists sequence : list F,
       App.generate_arithmetic_sequence (first_term rq) (second_param rq)
                                        (num_terms rq) = Ok sequence /\
       Z.of_nat (List.length sequence) = num_terms rq /\
       (forall text : string,
           App.format_sequence_display sequence = Ok text ->
           In (st_code text) (fst (App.main rq)) /\
           artifact (fst (App.main rq))
           = Some (App.sequence_text (first_term rq) (second_param rq)
                     (num_terms rq) text) /\
           count is_error (fst (App.main rq)) = 0%nat) /\
       (forall e : exn,
           App.format_sequence_display sequence = Raise e ->
           fst (App.main rq)
           = (App.page
              ++ results_head "Generated Sequence"
                   (format_6g (first_term rq))
                   "Common Difference" (format_6g (second_param rq))
                   (str_int (num_terms rq))
              ++ [ st_error (msg_failed ++ exn_message e);
                   st_expander "📚 Examples" ])%list) /\
       (Forall finite sequence ->
        exists text : string,
          App.format_sequence_display sequence = Ok text)) /\
    (accepted rq = true ->
     (forall e : exn,
         App1.compute (selected_type rq) (first_term rq) (second_param rq)
                      (num_terms rq) = Raise e ->
         fst (App1.main rq)
         = (App1.page ++ [ st_error (msg_failed ++ exn_message e);
                           st_expander "📚 Examples" ])%list) /\
     (forall (sequence : list F) (total : number F),
         App1.compute (selected_type rq) (first_term rq) (second_param rq)
                      (num_terms rq) = Ok (sequence, total) ->
         match selected_type rq with
         | Arithmetic =>
             App1.generate_arithmetic_sequence
               (first_term rq) (second_param rq) (num_terms rq)
             = Ok sequence /\
             App1.calculate_arithmetic_sum
               (first_term rq) (second_param rq) (num_terms rq) = Ok total
         | Geometric =>
             App1.generate_geometric_sequence
               (first_term rq) (second_param rq) (num_terms rq)
             = Ok sequence /\
             App1.calculate_geometric_sum
               (first_term rq) (second_param rq) (num_terms rq) = Ok total
         end /\
         Z.of_nat (List.length sequence) = num_terms rq /\
         (forall text : string,
             App1.format_sequence_display sequence = Ok text ->
             In (st_code text) (fst (App1.main rq)) /\
             artifact (fst (App1.main rq))
             = Some (App1.sequence_text (selected_type rq) (first_term rq)
                       (second_param rq) (num_terms rq) text total) /\
             count is_error (fst (App1.main rq)) = 0%nat) /\
         (forall e : exn,
             App1.format_sequence_display sequence = Raise e ->
             fst (App1.main rq)
             = (App1.page
                ++ results_head
                     ("Generated " ++ type_name (selected_type rq)
                      ++ " Sequence")
                     (format_6g (first_term rq))
                     (App1.step_label (selected_type rq))
                     (format_6g (second_param rq))
                     (str_int (num_terms rq))
                ++ [ st_error (msg_failed ++ exn_message e);
                     st_expander "📚 Examples" ])%list) /\
         (Forall finite sequence ->
          exists text : string,
            App1.format_sequence_display sequence = Ok text))) /\
    (0 < num_terms rq <= 1000 ->
     forall msg : string,
       In (st_error msg) (fst (App.main rq)) \/
       In (st_error msg) (fst (App1.main rq)) ->
       msg <> msg_too_many /\ msg <> msg_not_positive /\
       exists e : exn, msg = msg_failed ++ exn_message e) /\
    (forall rq' : request Qc,
        0 < num_terms rq' <= 1000 ->
        clicked_after (button_pressed rq') (generate_clicked rq') = true ->
        (forall msg : string,
            ~ In (st_error msg) (fst (App.main rq')) /\
            ~ In (st_error msg) (fst (App1.main rq'))) /\
        artifact (fst (App.main rq')) <> None /\
        artifact (fst (App1.main rq')) <> None) /\
    (let rq' := mk_request Arithmetic (B64.lit 1 1) (B64.lit 1 1) 1000 in
     existsb is_error (fst (App.main rq')) = false /\
     existsb is_error (fst (App1.main rq')) = false /\
     offers_download (fst (App.main rq')) = true /\
     offers_download (fst (App1.main rq')) = true).
Proof.
  intros F num rq.
  split; [|split; [|split; [|split; [|split; [|split]]]]].
  - intros H. unfold App.main, App1.main.
    destruct (Z.ltb_spec 1000 (num_terms rq)) as [_|L]; [|lia].
    split; reflexivity.
  - intros H. unfold App.main, App1.main.
    destruct (Z.ltb_spec 1000 (num_terms rq)) as [L|_]; [lia|].
    destruct (Z.leb_spec (num_terms rq) 0) as [_|L]; [|lia].
    split; reflexivity.
  - intros Ha. destruct (accepted_inv rq Ha) as [_ [Hmin _]].
    apply Z.leb_gt in Hmin.
    destruct (generated_nonempty (first_term rq) (second_param rq)
                (num_terms rq) Hmin) as [x0 [rest [Eg Es]]].
    exists (x0 :: rest). split; [exact Eg|].
    split; [rewrite Es, length_map, range_length; lia|].
    split; [|split].
    + intros text Ef. rewrite (app_page_ok rq x0 rest text Ha Eg Ef).
      split; [|split].
      * apply in_or_app. right. apply in_or_app. right. now left.
      * destruct (1 <? List.length (x0 :: rest))%nat; reflexivity.
      * destruct (1 <? List.length (x0 :: rest))%nat; reflexivity.
    + intros e Ef. exact (app_page_format_error rq x0 rest e Ha Eg Ef).
    + intros Hf. rewrite same_format. exact (finite_format_ok _ Hf).
  - intros Ha. destruct (accepted_inv rq Ha) as [_ [Hmin _]].
    apply Z.leb_gt in Hmin. split.
    + intros e Ec. exact (app1_page_compute_error rq e Ha Ec).
    + intros sequence total Ec.
      split; [exact (computed_inv _ _ _ _ _ _ Ec)|].
      split; [exact (computed_length _ _ _ _ _ _ Hmin Ec)|].
      destruct (computed_nonempty _ _ _ _ sequence total Hmin Ec)
        as [x0 [rest ->]].
      split; [|split].
      * intros text Ef.
        rewrite (app1_page_ok rq x0 rest total text Ha Ec Ef).
        split; [|split].
        -- apply in_or_app. right. apply in_or_app. right. now left.
        -- destruct (1 <? List.length (x0 :: rest))%nat; reflexivity.
        -- destruct (1 <? List.length (x0 :: rest))%nat; reflexivity.
      * intros e Ef.
        exact (app1_page_format_error rq x0 rest total e Ha Ec Ef).
      * intros Hf. exact (finite_format_ok _ Hf).
  - intros [Hmin Hmax] msg H.
    assert (E : exists e : exn, msg = msg_failed ++ exn_message e).
    { destruct H as [H|H].
      - destruct (app_errors rq msg Hmax Hmin H) as [_ [e [_ [_ E]]]].
        now exists e.
      - destruct (app1_errors rq msg Hmax Hmin H)
          as [[e [_ E]]|[_ [_ [e [_ [_ E]]]]]]; now exists e. }
    destruct E as [e ->]. split; [|split; [|now exists e]];
      unfold msg_failed, msg_too_many, msg_not_positive; discriminate.
  - intros rq' [Hmin Hmax] Hc.
    destruct (exact_compute_ok (selected_type rq') (first_term rq')
                (second_param rq') (num_terms rq') Hmin)
      as [x0 [rest [calculated_sum Ec]]].
    split; [|split].
    + intros msg. split; intros H.
      * destruct (app_errors rq' msg Hmax Hmin H) as [s [e [_ [Ef _]]]].
        rewrite same_format in Ef.
        destruct (exact_format_ok s) as [text Et]. congruence.
      * destruct (app1_errors rq' msg Hmax Hmin H)
          as [[e [Ee _]]|[s [cs [e [_ [Ef _]]]]]]; [congruence|].
        destruct (exact_format_ok s) as [text Et]. congruence.
    + rewrite app_artifact. unfold accepted. rewrite Hc.
      destruct (Z.ltb_spec 1000 (num_terms rq')) as [L|_]; [lia|].
      destruct (Z.leb_spec (num_terms rq') 0) as [L|_]; [lia|].
      cbn [andb negb].
      rewrite same_generate_arithmetic, arithmetic_as_map.
      destruct (range_cons (num_terms rq') Hmin) as [tl ->]. cbn [map].
      rewrite same_format.
      destruct (exact_format_ok
                  (arithmetic_term (first_term rq') (second_param rq') 0
                   :: map (arithmetic_term (first_term rq') (second_param rq'))
                        tl)) as [text ->].
      discriminate.
    + rewrite app1_artifact. unfold accepted. rewrite Hc.
      destruct (Z.ltb_spec 1000 (num_terms rq')) as [L|_]; [lia|].
      destruct (Z.leb_spec (num_terms rq') 0) as [L|_]; [lia|].
      cbn [andb negb]. rewrite Ec.
      destruct (exact_format_ok (x0 :: rest)) as [text ->]. discriminate.
  - cbv zeta.
    split; [vm_compute; reflexivity|]. split; [vm_compute; reflexivity|].
    split; vm_compute; reflexivity.
Qed.

Lemma term_count_gate_witness :
  let rq := mk_request Arithmetic (B64.lit 1 1) (B64.lit 1 1) 1001 in
  let rq' := mk_request Arithmetic (B64.lit 1 2) (B64.lit 1 4) 8 in
  1000 < num_terms rq /\
  App.main rq = ((App.page ++ [st_error msg_too_many])%list, None) /\
  App1.main rq = ((App1.page ++ [st_error msg_too_many])%list, None) /\
  accepted rq' = true /\
  exists sequence : list spec_float,
    App.generate_arithmetic_sequence (first_term rq') (second_param rq')
                                     (num_terms rq') = Ok sequence /\
    Z.of_nat (List.length sequence) = num_terms rq'.
Proof.
  intros rq rq'.
  assert (H : 1000 < num_terms rq) by (cbn; lia).
  assert (Ha : accepted rq' = true) by reflexivity.
  split; [exact H|].
  destruct (proj1 (term_count_gate spec_float B64.numeric rq) H) as [E1 E2].
  split; [exact E1|]. split; [exact E2|]. split; [exact Ha|].
  destruct (proj1 (proj2 (proj2 (term_count_gate spec_float B64.numeric rq')))
              Ha) as [sequence [Eg [El _]]].
  exists sequence. split; [exact Eg|exact El].
Defined.
